(** * Spectral matching tool: the spectrum model and the reference fitter

    A shallow embedding of [src/spectrum.py], [src/utils.py], [main.py] and
    the parts of [config.py] they read.

    - Python's [float] is IEEE 754 binary64.  It is modelled by the Standard
      Library's [spec_float] at precision 53 and maximal exponent 1024, whose
      operations round to nearest, ties to even, as the hardware does.
    - Text is modelled by [string] over ASCII; [str.strip], [str.split],
      [str.upper] and [str.isdigit] are given on that range.
    - A raised exception is a value of [exn]; a call that can raise returns a
      [result].  A method that mutates its spectrum returns the spectrum
      after the call.
    - A file is the list of its lines, in order.
    - numpy's logarithm, sum, matrix product and least-squares solver are
      parameters of the model; [np.interp], [np.maximum] and [np.clip] are
      written out.  The calls to matplotlib are left out: the analysis
      returns what it computes for each sample, and the order of its steps
      is kept as a list of events. *)

From Stdlib Require Import ZArith List String Ascii Bool Lia.
From Stdlib Require Import Floats.SpecFloat.
From Stdlib Require Import Permutation Sorted.
Import ListNotations.

Local Open Scope string_scope.
Local Open Scope Z_scope.

(** ** Exceptions *)

Inductive exn : Type :=
| ValueError (msg : string)
| TypeError (msg : string)
| AttributeError (msg : string)
| IndexError (msg : string)
| OverflowError (msg : string)
| SystemExit (msg : string).

Inductive result (A : Type) : Type :=
| Ok (a : A)
| Raise (e : exn).

Arguments Ok {A} a.
Arguments Raise {A} e.

Definition bind {A B : Type} (r : result A) (k : A -> result B) : result B :=
  match r with
  | Ok a => k a
  | Raise e => Raise e
  end.

Notation "'do' x <- r ; k" := (bind r (fun x => k))
  (at level 10, x pattern, r at level 100, k at level 200).

Fixpoint mapM {A B : Type} (f : A -> result B) (l : list A) : result (list B) :=
  match l with
  | [] => Ok []
  | a :: l' => do b <- f a; do bs <- mapM f l'; Ok (b :: bs)
  end.

(** ** Binary64 numbers *)

Module F.

Definition float : Type := spec_float.

Definition prec : Z := 53.
Definition emax : Z := 1024.

Definition zero : float := S754_zero false.
Definition nan : float := S754_nan.
Definition inf (s : bool) : float := S754_infinity s.

Definition add : float -> float -> float := SFadd prec emax.
Definition sub : float -> float -> float := SFsub prec emax.
Definition mul : float -> float -> float := SFmul prec emax.
Definition div : float -> float -> float := SFdiv prec emax.
Definition opp : float -> float := SFopp.

Definition eqb : float -> float -> bool := SFeqb.
Definition ltb : float -> float -> bool := SFltb.
Definition leb : float -> float -> bool := SFleb.
Definition gtb (a b : float) : bool := SFltb b a.
Definition geb (a b : float) : bool := SFleb b a.

Definition is_nan (a : float) : bool :=
  match a with S754_nan => true | _ => false end.

(** [float(i)] for an integer [i]. *)
Definition of_Z (i : Z) : float := binary_normalize prec emax i 0 false.

Definition one : float := of_Z 1.

(** The value [(-1)^s * m * 10^e], correctly rounded: what [float] makes of
    a decimal literal. *)
Definition of_decimal (s : bool) (m : Z) (e : Z) : float :=
  match m with
  | Zpos p =>
      if 0 <=? e
      then binary_normalize prec emax (cond_Zopp s (Zpos p * 10 ^ e)) 0 false
      else div (S754_finite s p 0) (S754_finite false (Z.to_pos (10 ^ (- e))) 0)
  | _ => S754_zero s
  end.

(** [bool(a)]: a float is false exactly when it compares equal to zero. *)
Definition truthy (a : float) : bool := negb (eqb a zero).

(** [int(a)]: truncation towards zero; [None] where Python raises (NaN and
    the infinities). *)
Definition to_Z (a : float) : option Z :=
  match a with
  | S754_zero _ => Some 0
  | S754_finite s m e =>
      Some (cond_Zopp s (if 0 <=? e then Zpos m * 2 ^ e else Zpos m / 2 ^ (- e)))
  | _ => None
  end.

End F.

(** ** Text *)

Module Str.

Definition chars (s : string) : list ascii := list_ascii_of_string s.
Definition of_chars (l : list ascii) : string := string_of_list_ascii l.

(** The ASCII characters for which [str.isspace] holds: tab, line feed,
    vertical tab, form feed, carriage return, the four separators 28-31 and
    the space. *)
Definition is_space (c : ascii) : bool :=
  let n := nat_of_ascii c in
  (((9 <=? n) && (n <=? 13)) || ((28 <=? n) && (n <=? 31)) || (n =? 32))%nat.

Definition is_digit (c : ascii) : bool :=
  let n := nat_of_ascii c in ((48 <=? n) && (n <=? 57))%nat.

Definition digit_val (c : ascii) : Z := Z.of_nat (nat_of_ascii c) - 48.

Definition upper_char (c : ascii) : ascii :=
  let n := nat_of_ascii c in
  if ((97 <=? n) && (n <=? 122))%nat then ascii_of_nat (n - 32) else c.

Definition lower_char (c : ascii) : ascii :=
  let n := nat_of_ascii c in
  if ((65 <=? n) && (n <=? 90))%nat then ascii_of_nat (n + 32) else c.

Fixpoint lstrip_chars (l : list ascii) : list ascii :=
  match l with
  | c :: l' => if is_space c then lstrip_chars l' else l
  | [] => []
  end.

Definition strip_chars (l : list ascii) : list ascii :=
  rev (lstrip_chars (rev (lstrip_chars l))).

(** [s.strip()] *)
Definition strip (s : string) : string := of_chars (strip_chars (chars s)).

(** [s.upper()] *)
Definition upper (s : string) : string := of_chars (map upper_char (chars s)).

(** [s.startswith(p)] *)
Definition startswith (p s : string) : bool := String.prefix p s.

(** [c in s] for a one-character [c] *)
Definition contains (c : ascii) (s : string) : bool :=
  existsb (Ascii.eqb c) (chars s).

(** [s[n:]] for [n >= 0] *)
Definition drop (n : nat) (s : string) : string := of_chars (skipn n (chars s)).

(** [s.split(c, 1)] where [c] occurs in [s]: the text before the first [c]
    and the text after it. *)
Fixpoint split_once_chars (c : ascii) (l : list ascii) : list ascii * list ascii :=
  match l with
  | [] => ([], [])
  | a :: l' =>
      if Ascii.eqb a c then ([], l')
      else let (u, v) := split_once_chars c l' in (a :: u, v)
  end.

Definition split_once (c : ascii) (s : string) : string * string :=
  let (u, v) := split_once_chars c (chars s) in (of_chars u, of_chars v).

(** [s.split(c)]: the fields between the occurrences of [c]; always at
    least one field. *)
Fixpoint split_chars (c : ascii) (l : list ascii) : list (list ascii) :=
  match l with
  | [] => [[]]
  | a :: l' =>
      match split_chars c l' with
      | w :: ws => if Ascii.eqb a c then [] :: w :: ws else (a :: w) :: ws
      | [] => [[a]]
      end
  end.

Definition split (c : ascii) (s : string) : list string :=
  map of_chars (split_chars c (chars s)).

(** [s.split()]: the maximal runs of characters that are not white space. *)
Fixpoint split_ws_chars (l : list ascii) (cur : list ascii) : list (list ascii) :=
  match l with
  | [] => match cur with [] => [] | _ => [rev cur] end
  | a :: l' =>
      if is_space a
      then match cur with
           | [] => split_ws_chars l' []
           | _ => rev cur :: split_ws_chars l' []
           end
      else split_ws_chars l' (a :: cur)
  end.

Definition split_ws (s : string) : list string :=
  map of_chars (split_ws_chars (chars s) []).

(** [s.replace(" ", "")] *)
Definition remove_spaces (s : string) : string :=
  of_chars (filter (fun c => negb (Ascii.eqb c " "%char)) (chars s)).

(** [bool(s)]: a string is false exactly when it is empty. *)
Definition truthy (s : string) : bool :=
  match s with EmptyString => false | _ => true end.

(** [s and s[0].isdigit()] *)
Definition starts_with_digit (s : string) : bool :=
  match s with String c _ => is_digit c | EmptyString => false end.

End Str.

(** ** [float(text)] and [int(text)] *)

Module Parse.

Import Str.

(** [digit (["_"] digit)*] after its first digit: the value read so far, the
    number of digits read, and the text left. *)
Fixpoint digits_tail (acc : Z) (n : nat) (l : list ascii) : Z * nat * list ascii :=
  match l with
  | c :: l' =>
      if is_digit c then digits_tail (10 * acc + digit_val c) (S n) l'
      else if Ascii.eqb c "_"%char then
        match l' with
        | d :: l'' =>
            if is_digit d then digits_tail (10 * acc + digit_val d) (S n) l''
            else (acc, n, l)
        | [] => (acc, n, l)
        end
      else (acc, n, l)
  | [] => (acc, n, [])
  end.

Definition digitpart (acc : Z) (l : list ascii) : option (Z * nat * list ascii) :=
  match l with
  | c :: l' =>
      if is_digit c then Some (digits_tail (10 * acc + digit_val c) 1 l') else None
  | [] => None
  end.

Definition is_dot (c : ascii) : bool := Ascii.eqb c "."%char.

(** [[digitpart] "." digitpart | digitpart ["."]]: the digits as one
    integer, the power of ten that places the point, and the text left. *)
Definition number (l : list ascii) : option (Z * Z * list ascii) :=
  match digitpart 0 l with
  | Some (i, _, r) =>
      match r with
      | c :: r' =>
          if is_dot c then
            match digitpart i r' with
            | Some (m, nf, r'') => Some (m, - Z.of_nat nf, r'')
            | None => Some (i, 0, r')
            end
          else Some (i, 0, r)
      | [] => Some (i, 0, [])
      end
  | None =>
      match l with
      | c :: r' =>
          if is_dot c then
            match digitpart 0 r' with
            | Some (m, nf, r'') => Some (m, - Z.of_nat nf, r'')
            | None => None
            end
          else None
      | [] => None
      end
  end.

(** An optional sign: [true] for a minus. *)
Definition sign (l : list ascii) : bool * list ascii :=
  match l with
  | c :: l' =>
      if Ascii.eqb c "-"%char then (true, l')
      else if Ascii.eqb c "+"%char then (false, l')
      else (false, l)
  | [] => (false, [])
  end.

(** [("e" | "E") [sign] digitpart], to the end of the text. *)
Definition exponent (l : list ascii) : option Z :=
  match l with
  | [] => Some 0
  | c :: l' =>
      if Ascii.eqb (lower_char c) "e"%char then
        let (s, l'') := sign l' in
        match digitpart 0 l'' with
        | Some (e, _, []) => Some (cond_Zopp s e)
        | _ => None
        end
      else None
  end.

Definition float_of_chars (l : list ascii) : option F.float :=
  let (s, r) := sign l in
  let word := of_chars (map lower_char r) in
  if (word =? "inf")%string || (word =? "infinity")%string then Some (F.inf s)
  else if (word =? "nan")%string then Some F.nan
  else
    match number r with
    | Some (m, d, r') =>
        match exponent r' with
        | Some e => Some (F.of_decimal s m (d + e))
        | None => None
        end
    | None => None
    end.

Definition int_of_chars (l : list ascii) : option Z :=
  let (s, r) := sign l in
  match digitpart 0 r with
  | Some (i, _, []) => Some (cond_Zopp s i)
  | _ => None
  end.

Definition quoted (s : string) : string := "'" ++ s ++ "'".

(** The white space that [float] and [int] pass over at the two ends of an
    ASCII text.  The two conversions test with C's [isspace]: tab, line
    feed, vertical tab, form feed, carriage return and the space.  The
    separators 28-31, which [str.strip] removes, are not among them:
    [float] refuses a text that begins or ends with one. *)
Definition is_blank_char (c : ascii) : bool :=
  let n := nat_of_ascii c in
  (((9 <=? n) && (n <=? 13)) || (n =? 32))%nat.

Fixpoint skip_blanks (l : list ascii) : list ascii :=
  match l with
  | c :: l' => if is_blank_char c then skip_blanks l' else l
  | [] => []
  end.

Definition trim (l : list ascii) : list ascii :=
  rev (skip_blanks (rev (skip_blanks l))).

(** [float(s)] for a string [s]; the message quotes [s] as [repr] does for
    text without quotes or escapes. *)
Definition py_float (s : string) : result F.float :=
  match float_of_chars (trim (chars s)) with
  | Some v => Ok v
  | None => Raise (ValueError ("could not convert string to float: " ++ quoted s))
  end.

(** [int(s)] for a string [s]. *)
Definition py_int (s : string) : result Z :=
  match int_of_chars (trim (chars s)) with
  | Some v => Ok v
  | None => Raise (ValueError ("invalid literal for int() with base 10: " ++ quoted s))
  end.

End Parse.

Import Parse.

(** ** Configuration ([config.py]) *)

Record Config : Type := mkConfig {
  baseline_correction_use : bool;
  baseline_correction_fraction : F.float;
  baseline_correction_minpoints : Z;
  ref_multiplier : option (list F.float);
  selected_ref_names : option (list string);
  clamp_negative_multipliers : bool;
  required_fields_in_jdx : list string;
  header_size_in_csv : Z
}.

(** The values [config.py] ships with. *)
Definition default_config : Config := {|
  baseline_correction_use := true;
  baseline_correction_fraction := F.of_decimal false 20 (-2);
  baseline_correction_minpoints := 50;
  ref_multiplier := None;
  selected_ref_names := None;
  clamp_negative_multipliers := true;
  required_fields_in_jdx := ["title"; "molform"; "yunits"; "firstx"; "deltax"; "npoints"];
  header_size_in_csv := 1
|}.

(** ** The spectrum record ([class Spectrum]) *)

Record Spectrum : Type := mkSpectrum {
  title : option string;
  data_type : option string;
  cas_registry_no : option string;
  molform : option string;
  state : option string;
  xunits : option string;
  yunits : option string;
  xfactor : option F.float;
  yfactor : option F.float;
  deltax : option F.float;
  firstx : option F.float;
  lastx : option F.float;
  firsty : option F.float;
  maxx : option F.float;
  minx : option F.float;
  maxy : option F.float;
  miny : option F.float;
  npoints : option Z;
  x : list F.float;
  y : list F.float
}.

(** [cls()]: every field [None], both arrays empty. *)
Definition empty_spectrum : Spectrum :=
  mkSpectrum None None None None None None None
             None None None None None None None None None None
             None [] [].

(** Assignment to one attribute, [s.f = v]. *)
Definition set_title (v : option string) (s : Spectrum) : Spectrum :=
  mkSpectrum v (data_type s) (cas_registry_no s) (molform s) (state s)
             (xunits s) (yunits s) (xfactor s) (yfactor s) (deltax s)
             (firstx s) (lastx s) (firsty s) (maxx s) (minx s) (maxy s)
             (miny s) (npoints s) (x s) (y s).

Definition set_data_type (v : option string) (s : Spectrum) : Spectrum :=
  mkSpectrum (title s) v (cas_registry_no s) (molform s) (state s) (xunits s)
             (yunits s) (xfactor s) (yfactor s) (deltax s) (firstx s)
             (lastx s) (firsty s) (maxx s) (minx s) (maxy s) (miny s)
             (npoints s) (x s) (y s).

Definition set_cas_registry_no (v : option string) (s : Spectrum) : Spectrum :=
  mkSpectrum (title s) (data_type s) v (molform s) (state s) (xunits s)
             (yunits s) (xfactor s) (yfactor s) (deltax s) (firstx s)
             (lastx s) (firsty s) (maxx s) (minx s) (maxy s) (miny s)
             (npoints s) (x s) (y s).

Definition set_molform (v : option string) (s : Spectrum) : Spectrum :=
  mkSpectrum (title s) (data_type s) (cas_registry_no s) v (state s)
             (xunits s) (yunits s) (xfactor s) (yfactor s) (deltax s)
             (firstx s) (lastx s) (firsty s) (maxx s) (minx s) (maxy s)
             (miny s) (npoints s) (x s) (y s).

Definition set_state (v : option string) (s : Spectrum) : Spectrum :=
  mkSpectrum (title s) (data_type s) (cas_registry_no s) (molform s) v
             (xunits s) (yunits s) (xfactor s) (yfactor s) (deltax s)
             (firstx s) (lastx s) (firsty s) (maxx s) (minx s) (maxy s)
             (miny s) (npoints s) (x s) (y s).

Definition set_xunits (v : option string) (s : Spectrum) : Spectrum :=
  mkSpectrum (title s) (data_type s) (cas_registry_no s) (molform s)
             (state s) v (yunits s) (xfactor s) (yfactor s) (deltax s)
             (firstx s) (lastx s) (firsty s) (maxx s) (minx s) (maxy s)
             (miny s) (npoints s) (x s) (y s).

Definition set_yunits (v : option string) (s : Spectrum) : Spectrum :=
  mkSpectrum (title s) (data_type s) (cas_registry_no s) (molform s)
             (state s) (xunits s) v (xfactor s) (yfactor s) (deltax s)
             (firstx s) (lastx s) (firsty s) (maxx s) (minx s) (maxy s)
             (miny s) (npoints s) (x s) (y s).

Definition set_xfactor (v : option F.float) (s : Spectrum) : Spectrum :=
  mkSpectrum (title s) (data_type s) (cas_registry_no s) (molform s)
             (state s) (xunits s) (yunits s) v (yfactor s) (deltax s)
             (firstx s) (lastx s) (firsty s) (maxx s) (minx s) (maxy s)
             (miny s) (npoints s) (x s) (y s).

Definition set_yfactor (v : option F.float) (s : Spectrum) : Spectrum :=
  mkSpectrum (title s) (data_type s) (cas_registry_no s) (molform s)
             (state s) (xunits s) (yunits s) (xfactor s) v (deltax s)
             (firstx s) (lastx s) (firsty s) (maxx s) (minx s) (maxy s)
             (miny s) (npoints s) (x s) (y s).

Definition set_deltax (v : option F.float) (s : Spectrum) : Spectrum :=
  mkSpectrum (title s) (data_type s) (cas_registry_no s) (molform s)
             (state s) (xunits s) (yunits s) (xfactor s) (yfactor s) v
             (firstx s) (lastx s) (firsty s) (maxx s) (minx s) (maxy s)
             (miny s) (npoints s) (x s) (y s).

Definition set_firstx (v : option F.float) (s : Spectrum) : Spectrum :=
  mkSpectrum (title s) (data_type s) (cas_registry_no s) (molform s)
             (state s) (xunits s) (yunits s) (xfactor s) (yfactor s)
             (deltax s) v (lastx s) (firsty s) (maxx s) (minx s) (maxy s)
             (miny s) (npoints s) (x s) (y s).

Definition set_lastx (v : option F.float) (s : Spectrum) : Spectrum :=
  mkSpectrum (title s) (data_type s) (cas_registry_no s) (molform s)
             (state s) (xunits s) (yunits s) (xfactor s) (yfactor s)
             (deltax s) (firstx s) v (firsty s) (maxx s) (minx s) (maxy s)
             (miny s) (npoints s) (x s) (y s).

Definition set_firsty (v : option F.float) (s : Spectrum) : Spectrum :=
  mkSpectrum (title s) (data_type s) (cas_registry_no s) (molform s)
             (state s) (xunits s) (yunits s) (xfactor s) (yfactor s)
             (deltax s) (firstx s) (lastx s) v (maxx s) (minx s) (maxy s)
             (miny s) (npoints s) (x s) (y s).

Definition set_maxx (v : option F.float) (s : Spectrum) : Spectrum :=
  mkSpectrum (title s) (data_type s) (cas_registry_no s) (molform s)
             (state s) (xunits s) (yunits s) (xfactor s) (yfactor s)
             (deltax s) (firstx s) (lastx s) (firsty s) v (minx s) (maxy s)
             (miny s) (npoints s) (x s) (y s).

Definition set_minx (v : option F.float) (s : Spectrum) : Spectrum :=
  mkSpectrum (title s) (data_type s) (cas_registry_no s) (molform s)
             (state s) (xunits s) (yunits s) (xfactor s) (yfactor s)
             (deltax s) (firstx s) (lastx s) (firsty s) (maxx s) v (maxy s)
             (miny s) (npoints s) (x s) (y s).

Definition set_maxy (v : option F.float) (s : Spectrum) : Spectrum :=
  mkSpectrum (title s) (data_type s) (cas_registry_no s) (molform s)
             (state s) (xunits s) (yunits s) (xfactor s) (yfactor s)
             (deltax s) (firstx s) (lastx s) (firsty s) (maxx s) (minx s) v
             (miny s) (npoints s) (x s) (y s).

Definition set_miny (v : option F.float) (s : Spectrum) : Spectrum :=
  mkSpectrum (title s) (data_type s) (cas_registry_no s) (molform s)
             (state s) (xunits s) (yunits s) (xfactor s) (yfactor s)
             (deltax s) (firstx s) (lastx s) (firsty s) (maxx s) (minx s)
             (maxy s) v (npoints s) (x s) (y s).

Definition set_npoints (v : option Z) (s : Spectrum) : Spectrum :=
  mkSpectrum (title s) (data_type s) (cas_registry_no s) (molform s)
             (state s) (xunits s) (yunits s) (xfactor s) (yfactor s)
             (deltax s) (firstx s) (lastx s) (firsty s) (maxx s) (minx s)
             (maxy s) (miny s) v (x s) (y s).

Definition set_x (v : list F.float) (s : Spectrum) : Spectrum :=
  mkSpectrum (title s) (data_type s) (cas_registry_no s) (molform s)
             (state s) (xunits s) (yunits s) (xfactor s) (yfactor s)
             (deltax s) (firstx s) (lastx s) (firsty s) (maxx s) (minx s)
             (maxy s) (miny s) (npoints s) v (y s).

Definition set_y (v : list F.float) (s : Spectrum) : Spectrum :=
  mkSpectrum (title s) (data_type s) (cas_registry_no s) (molform s)
             (state s) (xunits s) (yunits s) (xfactor s) (yfactor s)
             (deltax s) (firstx s) (lastx s) (firsty s) (maxx s) (minx s)
             (maxy s) (miny s) (npoints s) (x s) v.

(** The metadata attributes, by the kind of value their type hint declares. *)
Inductive str_field : Type :=
| f_title | f_data_type | f_cas_registry_no | f_molform | f_state
| f_xunits | f_yunits.

Inductive float_field : Type :=
| f_xfactor | f_yfactor | f_deltax | f_firstx | f_lastx | f_firsty
| f_maxx | f_minx | f_maxy | f_miny.

Inductive field : Type :=
| StrField (f : str_field)
| FloatField (f : float_field)
| IntField.

Definition get_str (f : str_field) : Spectrum -> option string :=
  match f with
  | f_title => title
  | f_data_type => data_type
  | f_cas_registry_no => cas_registry_no
  | f_molform => molform
  | f_state => state
  | f_xunits => xunits
  | f_yunits => yunits
  end.

Definition set_str (f : str_field) : option string -> Spectrum -> Spectrum :=
  match f with
  | f_title => set_title
  | f_data_type => set_data_type
  | f_cas_registry_no => set_cas_registry_no
  | f_molform => set_molform
  | f_state => set_state
  | f_xunits => set_xunits
  | f_yunits => set_yunits
  end.

Definition get_float (f : float_field) : Spectrum -> option F.float :=
  match f with
  | f_xfactor => xfactor
  | f_yfactor => yfactor
  | f_deltax => deltax
  | f_firstx => firstx
  | f_lastx => lastx
  | f_firsty => firsty
  | f_maxx => maxx
  | f_minx => minx
  | f_maxy => maxy
  | f_miny => miny
  end.

Definition set_float (f : float_field) : option F.float -> Spectrum -> Spectrum :=
  match f with
  | f_xfactor => set_xfactor
  | f_yfactor => set_yfactor
  | f_deltax => set_deltax
  | f_firstx => set_firstx
  | f_lastx => set_lastx
  | f_firsty => set_firsty
  | f_maxx => set_maxx
  | f_minx => set_minx
  | f_maxy => set_maxy
  | f_miny => set_miny
  end.

(** The attribute a name denotes, for the names of the metadata fields. *)
Definition attribute (name : string) : option field :=
  if (name =? "title")%string then Some (StrField f_title)
  else if (name =? "data_type")%string then Some (StrField f_data_type)
  else if (name =? "cas_registry_no")%string then Some (StrField f_cas_registry_no)
  else if (name =? "molform")%string then Some (StrField f_molform)
  else if (name =? "state")%string then Some (StrField f_state)
  else if (name =? "xunits")%string then Some (StrField f_xunits)
  else if (name =? "yunits")%string then Some (StrField f_yunits)
  else if (name =? "xfactor")%string then Some (FloatField f_xfactor)
  else if (name =? "yfactor")%string then Some (FloatField f_yfactor)
  else if (name =? "deltax")%string then Some (FloatField f_deltax)
  else if (name =? "firstx")%string then Some (FloatField f_firstx)
  else if (name =? "lastx")%string then Some (FloatField f_lastx)
  else if (name =? "firsty")%string then Some (FloatField f_firsty)
  else if (name =? "maxx")%string then Some (FloatField f_maxx)
  else if (name =? "minx")%string then Some (FloatField f_minx)
  else if (name =? "maxy")%string then Some (FloatField f_maxy)
  else if (name =? "miny")%string then Some (FloatField f_miny)
  else if (name =? "npoints")%string then Some IntField
  else None.

(** [keymap]: the label of a header line to the attribute it sets. *)
Definition keymap (label : string) : option field :=
  if (label =? "TITLE")%string then Some (StrField f_title)
  else if (label =? "DATA TYPE")%string then Some (StrField f_data_type)
  else if (label =? "CAS REGISTRY NO")%string then Some (StrField f_cas_registry_no)
  else if (label =? "MOLFORM")%string then Some (StrField f_molform)
  else if (label =? "STATE")%string then Some (StrField f_state)
  else if (label =? "XUNITS")%string then Some (StrField f_xunits)
  else if (label =? "YUNITS")%string then Some (StrField f_yunits)
  else if (label =? "XFACTOR")%string then Some (FloatField f_xfactor)
  else if (label =? "YFACTOR")%string then Some (FloatField f_yfactor)
  else if (label =? "DELTAX")%string then Some (FloatField f_deltax)
  else if (label =? "FIRSTX")%string then Some (FloatField f_firstx)
  else if (label =? "LASTX")%string then Some (FloatField f_lastx)
  else if (label =? "FIRSTY")%string then Some (FloatField f_firsty)
  else if (label =? "MAXX")%string then Some (FloatField f_maxx)
  else if (label =? "MINX")%string then Some (FloatField f_minx)
  else if (label =? "MAXY")%string then Some (FloatField f_maxy)
  else if (label =? "MINY")%string then Some (FloatField f_miny)
  else if (label =? "NPOINTS")%string then Some IntField
  else None.

(** ** Loading a structured file ([Spectrum.from_jdx]) *)

(** [f"{v}"] for an optional string. *)
Definition show_opt (v : option string) : string :=
  match v with Some t => t | None => "None" end.

(** [setattr(s, keymap[label], ...)]: the value is converted as the type hint
    of the attribute says. *)
Definition set_header (f : field) (val : string) (s : Spectrum) : result Spectrum :=
  match f with
  | FloatField g => do v <- py_float val; Ok (set_float g (Some v) s)
  | IntField => do v <- py_int val; Ok (set_npoints (Some v) s)
  | StrField g => Ok (set_str g (Some val) s)
  end.

(** The header branch of the loop body. *)
Definition jdx_header (line : string) (s : Spectrum) : result Spectrum :=
  if Str.startswith "##" line && Str.contains "="%char line then
    let (label, val) := Str.split_once "="%char (Str.drop 2 line) in
    let label := Str.upper (Str.strip label) in
    let val := Str.strip val in
    match keymap label with
    | Some f => set_header f val s
    | None => Ok s
    end
  else Ok s.

(** The data branch of the loop body: the first token of the line is dropped,
    the others are appended to [y_vals]. *)
Definition jdx_data (line : string) (y_vals : list F.float) : result (list F.float) :=
  if Str.starts_with_digit line then
    let parts := Str.split_ws line in
    do ys <- mapM py_float (tl parts);
    Ok (y_vals ++ ys)%list
  else Ok y_vals.

(** The loop over the lines of the file. *)
Fixpoint jdx_scan (lines : list string) (s : Spectrum) (y_vals : list F.float)
  : result (Spectrum * list F.float) :=
  match lines with
  | [] => Ok (s, y_vals)
  | raw :: rest =>
      let line := Str.strip raw in
      do s' <- jdx_header line s;
      do y_vals' <- jdx_data line y_vals;
      jdx_scan rest s' y_vals'
  end.

(** [bool(a)] for a numpy array [a]: an empty array is false, an array of one
    element has the truth value of the element, a longer one has none. *)
Definition array_truthy (a : list F.float) : result bool :=
  match a with
  | [] => Ok false
  | [v] => Ok (F.truthy v)
  | _ => Raise (ValueError
           "The truth value of an array with more than one element is ambiguous. Use a.any() or a.all()")
  end.

(** The attributes of a [Spectrum] that are not data, with their truth
    value: the six methods of the class, which are true, and what an instance
    of a dataclass has from the interpreter (CPython 3.11), of which
    [__hash__] and [__weakref__] are [None] and the rest are true (the
    docstring, the dictionary of an instance, which holds its fields, and
    bound methods). *)
Definition methods : list string :=
  ["from_jdx"; "from_csv"; "get_y_absorbance"; "plot";
   "correct_linear_baseline"; "convert_to_absorbance"].

Definition interpreter_attributes : list (string * bool) :=
  [("__annotations__", true); ("__class__", true); ("__dataclass_fields__", true);
   ("__dataclass_params__", true); ("__delattr__", true); ("__dict__", true);
   ("__dir__", true); ("__doc__", true); ("__eq__", true); ("__format__", true);
   ("__ge__", true); ("__getattribute__", true); ("__getstate__", true);
   ("__gt__", true); ("__hash__", false); ("__init__", true);
   ("__init_subclass__", true); ("__le__", true); ("__lt__", true);
   ("__match_args__", true); ("__module__", true); ("__ne__", true);
   ("__new__", true); ("__reduce__", true); ("__reduce_ex__", true);
   ("__repr__", true); ("__setattr__", true); ("__sizeof__", true);
   ("__str__", true); ("__subclasshook__", true); ("__weakref__", false)].

Definition other_attribute (name : string) : option bool :=
  if existsb (String.eqb name) methods then Some true
  else
    match find (fun p => String.eqb name (fst p)) interpreter_attributes with
    | Some (_, b) => Some b
    | None => None
    end.

(** [bool(getattr(s, key))] *)
Definition getattr_truthy (s : Spectrum) (key : string) : result bool :=
  match attribute key with
  | Some (StrField f) =>
      Ok match get_str f s with Some t => Str.truthy t | None => false end
  | Some (FloatField f) =>
      Ok match get_float f s with Some v => F.truthy v | None => false end
  | Some IntField =>
      Ok match npoints s with Some n => negb (n =? 0) | None => false end
  | None =>
      if (key =? "x")%string then array_truthy (x s)
      else if (key =? "y")%string then array_truthy (y s)
      else
        match other_attribute key with
        | Some b => Ok b
        | None =>
            Raise (AttributeError ("'Spectrum' object has no attribute " ++ quoted key))
        end
  end.

(** [for key in required: if not getattr(s, key): raise ValueError(...)] *)
Fixpoint check_required (required : list string) (path : string) (s : Spectrum)
  : result unit :=
  match required with
  | [] => Ok tt
  | key :: rest =>
      do b <- getattr_truthy s key;
      if b then check_required rest path s
      else Raise (ValueError ("Could not parse " ++ key ++ " in " ++ path))
  end.

(** [np.arange(n, dtype=float)] *)
Definition arange (n : Z) : list F.float :=
  map (fun i => F.of_Z (Z.of_nat i)) (seq 0 (Z.to_nat n)).

(** [np.arange(s.npoints, dtype=float) * s.deltax + s.firstx] *)
Definition generate_x (s : Spectrum) : result (list F.float) :=
  match npoints s with
  | None => Raise (TypeError "unsupported operand type(s) for -: 'NoneType' and 'int'")
  | Some n =>
      match deltax s with
      | None => Raise (TypeError "unsupported operand type(s) for *: 'float' and 'NoneType'")
      | Some d =>
          match firstx s with
          | None => Raise (TypeError "unsupported operand type(s) for +: 'float' and 'NoneType'")
          | Some x0 => Ok (map (fun i => F.add (F.mul i d) x0) (arange n))
          end
      end
  end.

Definition from_jdx (cfg : Config) (path : string) (lines : list string)
  : result Spectrum :=
  let s := empty_spectrum in
  let required := required_fields_in_jdx cfg in
  do (s, y_vals) <- jdx_scan lines s [];
  let s := set_y y_vals s in
  do _ <- check_required required path s;
  do s <- match molform s with
          | Some m => Ok (set_molform (Some (Str.remove_spaces m)) s)
          | None => Raise (AttributeError "'NoneType' object has no attribute 'replace'")
          end;
  do xs <- generate_x s;
  let s := set_x xs s in
  if (List.length (x s) =? 0)%nat then
    Raise (ValueError ("Missing array field 'x' in " ++ path))
  else if (List.length (y s) =? 0)%nat then
    Raise (ValueError ("Missing array field 'y' in " ++ path))
  else if negb (List.length (x s) =? List.length (y s))%nat then
    Raise (ValueError ("The number of x-values and y-values in " ++ show_opt (title s)
                       ++ " does not match."))
  else
    let s := match yfactor s with
             | Some k => if negb (F.eqb k F.one)
                         then set_y (map (fun v => F.mul v k) (y s)) s
                         else s
             | None => s
             end in
    Ok s.

(** ** Loading a tabular file ([Spectrum.from_csv]) *)

(** [max(l)] and [min(l)] as the interpreter computes them: the first element
    is kept until a later one compares strictly greater (smaller). *)
Fixpoint max_from (cur : F.float) (l : list F.float) : F.float :=
  match l with
  | [] => cur
  | v :: l' => max_from (if F.gtb v cur then v else cur) l'
  end.

Fixpoint min_from (cur : F.float) (l : list F.float) : F.float :=
  match l with
  | [] => cur
  | v :: l' => min_from (if F.ltb v cur then v else cur) l'
  end.

Definition py_max (l : list F.float) : result F.float :=
  match l with
  | [] => Raise (ValueError "max() arg is an empty sequence")
  | v :: l' => Ok (max_from v l')
  end.

Definition py_min (l : list F.float) : result F.float :=
  match l with
  | [] => Raise (ValueError "min() arg is an empty sequence")
  | v :: l' => Ok (min_from v l')
  end.

(** [l[i]] for [i >= 0], and [l[-1]]. *)
Definition py_index (l : list F.float) (i : nat) : result F.float :=
  match nth_error l i with
  | Some v => Ok v
  | None => Raise (IndexError "list index out of range")
  end.

Definition py_last (l : list F.float) : result F.float :=
  match rev l with
  | v :: _ => Ok v
  | [] => Raise (IndexError "list index out of range")
  end.

(** [os.path.basename] on a POSIX path. *)
Definition basename (p : string) : string :=
  Str.of_chars
    (fold_left (fun acc c => if Ascii.eqb c "/"%char then [] else (acc ++ [c])%list)
               (Str.chars p) []).

(** [os.path.splitext(p)[0]] for a [p] without separator: the text before the
    last dot, when something other than dots comes before that dot. *)
Definition splitext_root (p : string) : string :=
  let (_, before) := Str.split_once_chars "."%char (rev (Str.chars p)) in
  if Str.contains "."%char p
     && existsb (fun c => negb (Ascii.eqb c "."%char)) before
  then Str.of_chars (rev before)
  else p.

(** One data row: [None] for a blank line, which the loop skips. *)
Definition csv_row (raw : string) : result (option (F.float * F.float)) :=
  let line := Str.strip raw in
  if negb (Str.truthy line) then Ok None
  else
    let parts := Str.split ","%char line in
    match parts with
    | p0 :: p1 :: _ =>
        match py_float p0 with
        | Raise _ => Raise (ValueError ("Non-numeric value in row: " ++ line))
        | Ok vx =>
            match py_float p1 with
            | Raise _ => Raise (ValueError ("Non-numeric value in row: " ++ line))
            | Ok vy => Ok (Some (vx, vy))
            end
        end
    | _ => Raise (ValueError ("Invalid CSV row (expected 2 columns): " ++ line))
    end.

(** The loop over the rows: [x_vals] and [y_vals] grow together. *)
Fixpoint csv_scan (lines : list string) (x_vals y_vals : list F.float)
  : result (list F.float * list F.float) :=
  match lines with
  | [] => Ok (x_vals, y_vals)
  | raw :: rest =>
      do r <- csv_row raw;
      match r with
      | None => csv_scan rest x_vals y_vals
      | Some (vx, vy) => csv_scan rest (x_vals ++ [vx])%list (y_vals ++ [vy])%list
      end
  end.

(** [bool(v)] for an optional string argument. *)
Definition opt_truthy (v : option string) : bool :=
  match v with Some t => Str.truthy t | None => false end.

Definition from_csv (path : string) (name molform_arg : option string)
  (header_size : Z) (lines : list string) : result Spectrum :=
  let s := empty_spectrum in
  do (x_vals, y_vals) <- csv_scan (skipn (Z.to_nat header_size) lines) [] [];
  let s := set_x x_vals s in
  let s := set_y y_vals s in
  let s := if opt_truthy name then set_title name s
           else set_title (Some (splitext_root (basename path))) s in
  let s := if opt_truthy molform_arg then set_molform molform_arg s else s in
  do v <- py_max x_vals; let s := set_maxx (Some v) s in
  do v <- py_min x_vals; let s := set_minx (Some v) s in
  do v <- py_max y_vals; let s := set_maxy (Some v) s in
  do v <- py_min y_vals; let s := set_miny (Some v) s in
  do v <- py_index x_vals 0; let s := set_firstx (Some v) s in
  do v <- py_last x_vals; let s := set_lastx (Some v) s in
  do v <- py_index y_vals 1; let s := set_firsty (Some v) s in
  let s := set_npoints (Some (Z.of_nat (List.length (x s)))) s in
  let s := set_xunits (Some "1/cm") s in
  let s := set_yunits (Some "ABSORBANCE") s in
  Ok s.

(** ** numpy's element-wise helpers *)

(** An operation on two arrays: element by element when the lengths agree,
    and an array of one element is broadcast over the other. *)
Definition np_broadcast (op : F.float -> F.float -> F.float) (a b : list F.float)
  : result (list F.float) :=
  if (List.length a =? List.length b)%nat then Ok (map (fun p => op (fst p) (snd p)) (combine a b))
  else match a, b with
       | _, [v] => Ok (map (fun u => op u v) a)
       | [u], _ => Ok (map (fun v => op u v) b)
       | _, _ => Raise (ValueError "operands could not be broadcast together")
       end.

(** [np.maximum(a, b)] on two numbers: NaN when either is NaN, else [a] when
    it is the greater, else [b].  Of two numbers that compare equal it gives
    the second: they differ only when they are zeros of opposite sign, and
    [np.maximum(-0.0, 0.0)] is [0.0].  (In the two calls of the program the
    second argument is [1e-12] or [0], never a negative zero.) *)
Definition np_maximum (a b : F.float) : F.float :=
  if F.is_nan a then a else if F.gtb a b then a else b.

(** [np.clip(a, 0, None)]: with no upper bound this is [np.maximum(a, 0)]. *)
Definition np_clip0 (a : list F.float) : list F.float :=
  map (fun v => np_maximum v F.zero) a.

(** An in-place operation [a op= b] on arrays: [b] has the length of [a], or
    length one and is broadcast. *)
Definition np_inplace (op : F.float -> F.float -> F.float) (a b : list F.float)
  : result (list F.float) :=
  if (List.length a =? List.length b)%nat then Ok (map (fun p => op (fst p) (snd p)) (combine a b))
  else match b with
       | [v] => Ok (map (fun u => op u v) a)
       | _ => Raise (ValueError "operands could not be broadcast together")
       end.

(** [a[0]] and [a[-1]] for an array [a]. *)
Definition np_first (a : list F.float) : result F.float :=
  match a with
  | v :: _ => Ok v
  | [] => Raise (IndexError "index 0 is out of bounds for axis 0 with size 0")
  end.

Definition np_last (a : list F.float) : result F.float :=
  match rev a with
  | v :: _ => Ok v
  | [] => Raise (IndexError "index -1 is out of bounds for axis 0 with size 0")
  end.

(** Slices [l[:p]] and [l[-p:]] for an integer [p] of either sign. *)
Definition slice_to (p : Z) (l : list F.float) : list F.float :=
  let n := Z.of_nat (List.length l) in
  firstn (Z.to_nat (if p <? 0 then Z.max 0 (n + p) else p)) l.

Definition slice_from (start : Z) (l : list F.float) : list F.float :=
  let n := Z.of_nat (List.length l) in
  skipn (Z.to_nat (if start <? 0 then Z.max 0 (n + start) else start)) l.

(** The tolerance of the transmittance conversion, [1e-12]. *)
Definition epsilon : F.float := F.of_decimal false 1 (-12).

(** [s.yunits.strip().upper()] *)
Definition unit_tag (u : string) : string := Str.upper (Str.strip u).

Section Numerics.

(** The numeric kernels of numpy that the program calls and that are not
    determined by IEEE arithmetic alone: the decimal logarithm, the sum of
    an array (numpy adds pairwise), the product of a matrix, given by its
    columns, with a vector, and the least-squares solver, which returns the
    solution and the array of residual sums (empty or of one element). *)
Variable np_log10 : F.float -> F.float.
Variable np_sum : list F.float -> F.float.
Variable np_matvec : list (list F.float) -> list F.float -> list F.float.
Variable np_lstsq :
  list (list F.float) -> list F.float -> result (list F.float * list F.float).

(** [np.mean(a)]: the sum divided by the number of elements. *)
Definition np_mean (a : list F.float) : F.float :=
  F.div (np_sum a) (F.of_Z (Z.of_nat (List.length a))).

(** [-np.log10(np.maximum(y, epsilon))] *)
Definition transmittance_to_absorbance (ys : list F.float) : list F.float :=
  map (fun v => F.opp (np_log10 (np_maximum v epsilon))) ys.

(** [Spectrum.get_y_absorbance] *)
Definition get_y_absorbance (s : Spectrum) : result (list F.float) :=
  match yunits s with
  | None => Raise (ValueError ("yunits is not set in " ++ show_opt (title s)))
  | Some u =>
      if (unit_tag u =? "ABSORBANCE")%string then Ok (y s)
      else if (unit_tag u =? "TRANSMITTANCE")%string then
        Ok (transmittance_to_absorbance (y s))
      else Raise (ValueError ("Unsupported Y unit type: " ++ u ++ " in "
                              ++ show_opt (title s)))
  end.

(** [Spectrum.convert_to_absorbance]: the spectrum after the call, or the
    exception raised. *)
Definition convert_to_absorbance (s : Spectrum) : result Spectrum :=
  match yunits s with
  | None => Raise (ValueError ("yunits is not set in " ++ show_opt (title s)))
  | Some u =>
      if (unit_tag u =? "ABSORBANCE")%string then Ok s
      else if (unit_tag u =? "TRANSMITTANCE")%string then
        let s := set_y (transmittance_to_absorbance (y s)) s in
        let s := set_yunits (Some "ABSORBANCE") s in
        Ok s
      else Ok s
  end.

(** [int(fraction * npoints)] *)
Definition edge_points (fraction : F.float) (s : Spectrum) : result Z :=
  match npoints s with
  | None => Raise (TypeError "unsupported operand type(s) for *: 'float' and 'NoneType'")
  | Some n =>
      let v := F.mul fraction (F.of_Z n) in
      match F.to_Z v with
      | Some k => Ok k
      | None =>
          if F.is_nan v then Raise (ValueError "cannot convert float NaN to integer")
          else Raise (OverflowError "cannot convert float infinity to integer")
      end
  end.

(** [Spectrum.correct_linear_baseline], with the fraction and the minimal
    number of points read from the configuration. *)
Definition correct_linear_baseline (cfg : Config) (s : Spectrum) : result Spectrum :=
  do s <- convert_to_absorbance s;
  do k <- edge_points (baseline_correction_fraction cfg) s;
  let points := Z.max k (baseline_correction_minpoints cfg) in
  do x1 <- np_first (x s);
  do x2 <- np_last (x s);
  do ya <- get_y_absorbance s;
  let y1 := np_mean (slice_to points ya) in
  do yb <- get_y_absorbance s;
  let y2 := np_mean (slice_from (- points) yb) in
  let grad := F.div (F.sub y2 y1) (F.sub x2 x1) in
  let intercept := F.sub y1 (F.mul grad x1) in
  do ys <- np_inplace F.sub (y s) (map (fun v => F.add (F.mul grad v) intercept) (x s));
  Ok (set_y ys s).

(** *** [np.interp]

    numpy's routine, which is library code outside the repository, as its
    implementation proceeds for each target point: a point above the last
    sample point takes [right], a point below the first takes [left], and
    any other point is located by scanning for the first sample point that
    is greater.  (On arrays of more than four points numpy locates the
    point by bisection instead, which finds the same index whenever [xp]
    is increasing.) *)

(** [for (i = 1; i < len && key >= arr[i]; ++i); return i - 1], started at
    index [i] with [rest] the elements from [arr[i + 1]] on. *)
Fixpoint bracket (key : F.float) (rest : list F.float) (i : nat) : nat :=
  match rest with
  | [] => i
  | a :: rest' => if F.geb key a then bracket key rest' (S i) else i
  end.

(** The value on the segment from sample [j] to sample [j + 1]. *)
Definition segment (x0 x1 f0 f1 v : F.float) : F.float :=
  let slope := F.div (F.sub f1 f0) (F.sub x1 x0) in
  let r := F.add (F.mul slope (F.sub v x0)) f0 in
  if F.is_nan r then
    let r' := F.add (F.mul slope (F.sub v x1)) f1 in
    if F.is_nan r' && F.eqb f0 f1 then f0 else r'
  else r.

Definition interp_point (xp fp : list F.float) (left right v : F.float) : F.float :=
  match xp with
  | [] => v
  | [x0] =>
      if F.ltb v x0 then left
      else if F.gtb v x0 then right
      else nth 0 fp F.zero
  | x0 :: rest =>
      if F.is_nan v then v
      else if F.gtb v (last xp x0) then right
      else if F.ltb v x0 then left
      else
        let j := bracket v rest 0 in
        if (j =? List.length xp - 1)%nat then nth j fp F.zero
        else if F.eqb (nth j xp F.zero) v then nth j fp F.zero
        else segment (nth j xp F.zero) (nth (S j) xp F.zero)
                     (nth j fp F.zero) (nth (S j) fp F.zero) v
  end.

Definition np_interp (xs xp fp : list F.float) (left right : F.float)
  : result (list F.float) :=
  if (List.length xp =? 0)%nat then
    Raise (ValueError "array of sample points is empty")
  else if negb (List.length fp =? List.length xp)%nat then
    Raise (ValueError "fp and xp are not of the same length.")
  else Ok (map (interp_point xp fp left right) xs).

(** ** [utils.py] *)

(** [interpolate_to] *)
Definition interpolate_to (sample_x : list F.float) (ref : Spectrum)
  : result (list F.float) :=
  do fp <- get_y_absorbance ref;
  np_interp sample_x (x ref) fp F.zero F.zero.

(** What the analysis does besides computing its result, in order. *)
Inductive event : Type :=
| LoadReference (path : string)
| BaselineCorrection (sample : option string)
| LeastSquares (sample : option string)
| Show (sample : option string).

(** A computation that records events and may raise. *)
Definition run (A : Type) : Type := list event * result A.

Definition ret {A : Type} (a : A) : run A := ([], Ok a).
Definition emit (e : event) : run unit := ([e], Ok tt).
Definition lift {A : Type} (r : result A) : run A := ([], r).

Definition bind_run {A B : Type} (m : run A) (k : A -> run B) : run B :=
  match m with
  | (t, Ok a) => let (t', r) := k a in ((t ++ t')%list, r)
  | (t, Raise e) => (t, Raise e)
  end.

Notation "'run!' x <- m ; k" := (bind_run m (fun x => k))
  (at level 10, x pattern, m at level 100, k at level 200).

Fixpoint for_each {A B : Type} (f : A -> run B) (l : list A) : run (list B) :=
  match l with
  | [] => ret []
  | a :: l' => run! b <- f a; run! bs <- for_each f l'; ret (b :: bs)
  end.

(** [get_references]: [ref_files] is what [glob] finds under the reference
    path, each file with its lines. *)
Definition get_references (cfg : Config) (ref_files : list (string * list string))
  : run (list Spectrum) :=
  match ref_files with
  | [] => lift (Raise (SystemExit "No references available. Please refer to README"))
  | _ =>
      for_each (fun f => run! _ <- emit (LoadReference (fst f));
                         lift (from_jdx cfg (fst f) (snd f)))
               ref_files
  end.

(** [np.column_stack] of one-dimensional arrays: the matrix is kept as the
    list of its columns. *)
Definition column_stack (cols : list (list F.float)) : result (list (list F.float)) :=
  match cols with
  | [] => Raise (ValueError "need at least one array to concatenate")
  | _ => Ok cols
  end.

Definition square (v : F.float) : F.float := F.mul v v.

(** [bool(l)] for an optional list. *)
Definition list_truthy {A : Type} (l : option (list A)) : bool :=
  match l with Some (_ :: _) => true | _ => false end.

(** [len(l)] for an optional list that is known to be true. *)
Definition opt_len {A : Type} (l : option (list A)) : nat :=
  match l with Some l' => List.length l' | None => 0%nat end.

(** The check of the manual multipliers against the selected names. *)
Definition validate (cfg : Config) : result unit :=
  if list_truthy (ref_multiplier cfg) then
    if negb (list_truthy (selected_ref_names cfg)) then
      Raise (ValueError "selected_ref_names must be provided when ref_multiplier is used.")
    else if negb (opt_len (ref_multiplier cfg) =? opt_len (selected_ref_names cfg))%nat then
      Raise (ValueError
        "selected_ref_names must have the same length as ref_multiplier, specifying which reference spectrum each multiplier corresponds to.")
    else Ok tt
  else Ok tt.

(** [r.molform in config.selected_ref_names] *)
Definition selected (names : list string) (r : Spectrum) : bool :=
  match molform r with
  | Some m => existsb (String.eqb m) names
  | None => false
  end.

Definition select_references (cfg : Config) (ref_data : list Spectrum) : list Spectrum :=
  if list_truthy (selected_ref_names cfg) then
    match selected_ref_names cfg with
    | Some names => filter (selected names) ref_data
    | None => ref_data
    end
  else ref_data.

(** The solve branch of the loop body: the multipliers and [r2]. *)
Definition solve (cfg : Config) (ref_data : list Spectrum) (s : Spectrum)
  : run (list F.float * F.float) :=
  run! cols <- lift (mapM (interpolate_to (x s)) ref_data);
  run! A <- lift (column_stack cols);
  run! ya <- lift (get_y_absorbance s);
  run! _ <- emit (LeastSquares (title s));
  run! (m, residuals) <- lift (np_lstsq A ya);
  let m := if clamp_negative_multipliers cfg then np_clip0 m else m in
  run! ss_res <- lift match residuals with
                      | r :: _ => Ok r
                      | [] => do d <- np_broadcast F.sub ya (np_matvec A m);
                              Ok (np_sum (map square d))
                      end;
  let mean := np_mean ya in
  let ss_tot := np_sum (map (fun v => square (F.sub v mean)) ya) in
  ret (m, F.sub F.one (F.div ss_res ss_tot)).

(** [ref_pairs.sort(key=lambda p: p[1], reverse=True)]: by decreasing
    multiplier, pairs of equal multiplier in their original order. *)
Fixpoint insert_desc (p : Spectrum * F.float) (l : list (Spectrum * F.float))
  : list (Spectrum * F.float) :=
  match l with
  | [] => [p]
  | q :: l' => if F.gtb (snd q) (snd p) then q :: insert_desc p l' else p :: l
  end.

Definition sort_desc (l : list (Spectrum * F.float)) : list (Spectrum * F.float) :=
  fold_right insert_desc [] l.

(** [combined += y_ref * ref_mult], over the sorted pairs. *)
Fixpoint accumulate (sample_x : list F.float) (pairs : list (Spectrum * F.float))
  (combined : list F.float) : result (list F.float) :=
  match pairs with
  | [] => Ok combined
  | (ref, ref_mult) :: rest =>
      do y_ref <- interpolate_to sample_x ref;
      do combined' <- np_inplace F.add combined (map (fun v => F.mul v ref_mult) y_ref);
      accumulate sample_x rest combined'
  end.

(** What the loop body computes for one sample; the calls that draw it are
    left out. *)
Record Fit : Type := mkFit {
  fit_sample : Spectrum;
  fit_multipliers : list F.float;
  fit_r2 : option F.float;
  fit_pairs : list (Spectrum * F.float);
  fit_combined : list F.float
}.

(** The body of [for s in samples]. *)
Definition analyze_sample (cfg : Config) (ref_data : list Spectrum) (s : Spectrum)
  : run Fit :=
  run! s <- (if baseline_correction_use cfg then
               run! _ <- emit (BaselineCorrection (title s));
               lift (correct_linear_baseline cfg s)
             else ret s);
  run! (m, r2) <- match ref_multiplier cfg with
                  | None => run! (m, r2) <- solve cfg ref_data s; ret (m, Some r2)
                  | Some m => ret (m, None)
                  end;
  run! ya <- lift (get_y_absorbance s);
  let combined := map (fun _ => F.zero) ya in
  let ref_pairs := sort_desc (combine ref_data m) in
  run! combined <- lift (accumulate (x s) ref_pairs combined);
  run! _ <- emit (Show (title s));
  ret (mkFit s m r2 ref_pairs combined).

(** [analyze_spectrum] *)
Definition analyze_spectrum (cfg : Config) (ref_files : list (string * list string))
  (samples : list Spectrum) : run (list Fit) :=
  run! ref_data <- get_references cfg ref_files;
  run! _ <- lift (validate cfg);
  let ref_data := select_references cfg ref_data in
  for_each (analyze_sample cfg ref_data) samples.

End Numerics.

(** ** The loader of samples and the command line ([get_samples], [main.py]) *)

(** [get_samples]: [sample_files] is what [glob] finds under the sample
    path, each file with its lines; [from_csv] is called with its defaults. *)
Definition get_samples (cfg : Config) (sample_files : list (string * list string))
  : result (list Spectrum) :=
  match sample_files with
  | [] => Raise (SystemExit "No samples available. Please refer to README")
  | _ =>
      mapM (fun f => from_csv (fst f) None None (header_size_in_csv cfg) (snd f))
           sample_files
  end.

(** [s.endswith(suffix)] *)
Definition endswith (suffix s : string) : bool :=
  String.prefix (Str.of_chars (rev (Str.chars suffix)))
                (Str.of_chars (rev (Str.chars s))).

(** The body of the loops of [main] that load the files named on the command
    line, by their extension; [verb] is the word of the message, and [read]
    gives the lines of a file that is there. *)
Definition load_named (cfg : Config) (read : string -> list string) (verb f : string)
  : result Spectrum :=
  if endswith ".csv" f || endswith ".CSV" f then
    from_csv f None None (header_size_in_csv cfg) (read f)
  else if endswith ".jdx" f || endswith ".JDX" f then
    from_jdx cfg f (read f)
  else
    Raise (SystemExit ("Unable to " ++ verb ++ " " ++ f
                       ++ ". Refer to README for supported filetypes")).

(** What [main] shows: the steps of an analysis, a printed line, a plotted
    spectrum. *)
Inductive output : Type :=
| Step (e : event)
| Printed (line : option string)
| Plotted (title_of : option string).

Section CommandLine.

Variable np_log10 : F.float -> F.float.
Variable np_sum : list F.float -> F.float.
Variable np_matvec : list (list F.float) -> list F.float -> list F.float.
Variable np_lstsq :
  list (list F.float) -> list F.float -> result (list F.float * list F.float).

(** [Spectrum.plot] is a sequence of calls to matplotlib, which may refuse
    what it is given (limits that are NaN, for one): whether it returns. *)
Variable plt_plot : Spectrum -> result unit.

(** [for s in spectra: s.plot()] *)
Fixpoint plot_each (spectra : list Spectrum) : list output * result unit :=
  match spectra with
  | [] => ([], Ok tt)
  | s :: rest =>
      match plt_plot s with
      | Ok _ => let (out, r) := plot_each rest in (Plotted (title s) :: out, r)
      | Raise e => ([], Raise e)
      end
  end.

(** An analysis as a part of [main]: its steps, and whether it raised. *)
Definition run_analysis (cfg : Config) (ref_files : list (string * list string))
  (samples : list Spectrum) : list output * result unit :=
  let (t, r) := analyze_spectrum np_log10 np_sum np_matvec np_lstsq cfg ref_files samples in
  (map Step t, match r with Ok _ => Ok tt | Raise e => Raise e end).

(** [main], on the argument vector [argv]. *)
Definition main (cfg : Config) (ref_files sample_files : list (string * list string))
  (read : string -> list string) (argv : list string) : list output * result unit :=
  match argv with
  | [] => ([], Raise (IndexError "list index out of range"))
  | [_] =>
      match get_samples cfg sample_files with
      | Ok samples => run_analysis cfg ref_files samples
      | Raise e => ([], Raise e)
      end
  | _ :: command :: files =>
      if (command =? "list-refs")%string then
        match files with
        | _ :: _ => ([], Raise (SystemExit "list-refs does not take additional arguments"))
        | [] =>
            match get_references cfg ref_files with
            | (t, Ok refs) =>
                ((map Step t ++ map (fun d => Printed (molform d)) refs)%list, Ok tt)
            | (t, Raise e) => (map Step t, Raise e)
            end
        end
      else if (command =? "plot")%string then
        match files with
        | [] => ([], Raise (SystemExit "Please specify the file to plot"))
        | _ =>
            match mapM (load_named cfg read "plot") files with
            | Ok spectra => plot_each spectra
            | Raise e => ([], Raise e)
            end
        end
      else if (command =? "analyze")%string then
        match files with
        | [] => ([], Raise (SystemExit "Please specify the file to plot"))
        | _ =>
            match mapM (load_named cfg read "analyze") files with
            | Ok samples => run_analysis cfg ref_files samples
            | Raise e => ([], Raise e)
            end
        end
      else ([], Raise (SystemExit "Unknown command supplied"))
  end.

End CommandLine.

(** * Predicates of the statements *)

(** ** Rows of a tabular file *)

(** A line that the loop skips: nothing is left after [strip]. *)
Definition is_blank (raw : string) : bool := negb (Str.truthy (Str.strip raw)).

(** A field that [float] accepts. *)
Definition numeric (t : string) : bool :=
  match float_of_chars (trim (Str.chars t)) with
  | Some _ => true
  | None => false
  end.

(** A row of at least two comma-separated fields, the first two numeric. *)
Definition row_ok (raw : string) : bool :=
  match Str.split ","%char (Str.strip raw) with
  | p0 :: p1 :: _ => numeric p0 && numeric p1
  | _ => false
  end.

(** Two rows that differ at most in what follows their second field: both
    are blank, or both hold data and have the same first two fields. *)
Definition same_first_two (raw raw' : string) : Prop :=
  (is_blank raw = true /\ is_blank raw' = true) \/
  (is_blank raw = false /\ is_blank raw' = false /\
   exists (p0 p1 : string) (rest rest' : list string),
     Str.split ","%char (Str.strip raw) = p0 :: p1 :: rest /\
     Str.split ","%char (Str.strip raw') = p0 :: p1 :: rest').

(** The rows of a file that hold data: those after the header that are not
    blank. *)
Definition data_rows (header_size : Z) (lines : list string) : list string :=
  filter (fun raw => negb (is_blank raw)) (skipn (Z.to_nat header_size) lines).

(** No element of the list is NaN. *)
Definition no_nan (l : list F.float) : Prop :=
  Forall (fun v => F.is_nan v = false) l.


(** The two messages of the loader, before the text of the row. *)
Definition too_few_fields : string := "Invalid CSV row (expected 2 columns): ".
Definition not_a_number : string := "Non-numeric value in row: ".

(** ** Predicates on sample points *)

(** Consecutive elements strictly increase (decrease). *)
Fixpoint increasing (l : list F.float) : bool :=
  match l with
  | a :: (b :: _) as l' => F.ltb a b && increasing l'
  | _ => true
  end.

Fixpoint decreasing (l : list F.float) : bool :=
  match l with
  | a :: (b :: _) as l' => F.gtb a b && decreasing l'
  | _ => true
  end.

(** A point strictly outside the range of [xp]: below every element, or
    above every element. *)
Definition outside (xp : list F.float) (v : F.float) : bool :=
  forallb (F.ltb v) xp || forallb (F.gtb v) xp.

(** A point between the first and the last element of [xp]. *)
Definition inside (xp : list F.float) (v : F.float) : bool :=
  match xp with
  | x0 :: _ => F.leb x0 v && F.leb v (last xp x0)
  | [] => false
  end.

(** [r] is the value at [v] of the straight line through [(x0, f0)] and
    [(x1, f1)], in binary64 arithmetic: [f0 + slope * (v - x0)] with
    [slope = (f1 - f0) / (x1 - x0)].  Where that is not a number (the slope
    or an ordinate is infinite, say) it is the same line taken from its
    right end, [f1 + slope * (v - x1)], and the common ordinate when that is
    not a number either and [f0 = f1]. *)
Definition on_line (x0 x1 f0 f1 v r : F.float) : Prop :=
  let slope := F.div (F.sub f1 f0) (F.sub x1 x0) in
  let from_left := F.add (F.mul slope (F.sub v x0)) f0 in
  let from_right := F.add (F.mul slope (F.sub v x1)) f1 in
  if F.is_nan from_left
  then if F.is_nan from_right && F.eqb f0 f1 then r = f0 else r = from_right
  else r = from_left.

(** [r] is the value at [v] of the piecewise-linear interpolant of the
    points [(xp[j], fp[j])]: [v] lies on the segment from sample [j] to
    sample [j + 1], and [r] is the ordinate of sample [j] when [v] is its
    abscissa, and on the line through the two samples otherwise; or [v] is
    the last abscissa and [r] the last ordinate. *)
Definition interpolant (xp fp : list F.float) (v r : F.float) : Prop :=
  (exists j : nat,
      (S j < List.length xp)%nat /\
      F.leb (nth j xp F.zero) v = true /\
      F.ltb v (nth (S j) xp F.zero) = true /\
      if F.eqb (nth j xp F.zero) v then r = nth j fp F.zero
      else on_line (nth j xp F.zero) (nth (S j) xp F.zero)
                   (nth j fp F.zero) (nth (S j) fp F.zero) v r) \/
  (F.eqb (last xp F.zero) v = true /\ r = last fp F.zero).

(** ** Predicates on runs of the analysis *)

(** An event that loads a reference. *)
Definition is_load (e : event) : Prop :=
  match e with LoadReference _ => True | _ => False end.

(** A multiplier that is not negative: it is not below zero, and it is at
    least zero unless it is NaN. *)
Definition not_negative (v : F.float) : Prop :=
  F.ltb v F.zero = false /\ (F.is_nan v = false -> F.leb F.zero v = true).

(** [v] is [v0] clamped at zero: [v0] itself when it is above zero or NaN,
    and 0.0 when it is zero or below. *)
Definition clamped (v0 v : F.float) : Prop :=
  (F.is_nan v0 = true /\ v = v0) \/
  (F.ltb F.zero v0 = true /\ v = v0) \/
  (F.leb v0 F.zero = true /\ v = F.zero).

(** The manual multipliers do not match the selected names: there are
    multipliers, and the names are missing, empty or of another number. *)
Definition manual_mismatch (cfg : Config) : Prop :=
  list_truthy (ref_multiplier cfg) = true /\
  (list_truthy (selected_ref_names cfg) = false \/
   opt_len (ref_multiplier cfg) <> opt_len (selected_ref_names cfg)).

(** ** Lines of a structured file *)

(** The tokens of the data lines that are read as ordinates: every token but
    the first of every line that starts with a digit, in the order of the
    file. *)
Definition data_tokens (lines : list string) : list string :=
  flat_map (fun raw =>
              let line := Str.strip raw in
              if Str.starts_with_digit line then tl (Str.split_ws line) else [])
           lines.

(** A line that is neither a data line nor a header line with a known
    label. *)
Definition jdx_noise (raw : string) : bool :=
  let line := Str.strip raw in
  negb (Str.starts_with_digit line) &&
  (negb (Str.startswith "##" line && Str.contains "="%char line) ||
   match keymap (Str.upper (Str.strip (fst (Str.split_once "="%char (Str.drop 2 line))))) with
   | Some _ => false
   | None => true
   end).

(** ** Points of a tabular file *)

(** The point that a row gives: the numbers of its first two fields. *)
Definition row_point (raw : string) (p : F.float * F.float) : Prop :=
  exists (p0 p1 : string) (rest : list string),
    Str.split ","%char (Str.strip raw) = p0 :: p1 :: rest /\
    py_float p0 = Ok (fst p) /\ py_float p1 = Ok (snd p).

(** ** Numbers *)

(** A number that is neither NaN nor infinite. *)
Definition is_finite (v : F.float) : bool :=
  match v with
  | S754_zero _ | S754_finite _ _ _ => true
  | _ => false
  end.

(** A finite number other than zero. *)
Definition is_nonzero (v : F.float) : bool :=
  match v with S754_finite _ _ _ => true | _ => false end.

(** A zero of either sign. *)
Definition is_zero (v : F.float) : bool :=
  match v with S754_zero _ => true | _ => false end.

(** ** References that can be interpolated *)

(** The unit is set and is absorbance or transmittance. *)
Definition unit_supported (s : Spectrum) : Prop :=
  exists u, yunits s = Some u /\
            (unit_tag u = "ABSORBANCE" \/ unit_tag u = "TRANSMITTANCE").

(** The unit is supported, there is at least one abscissa, and there are as
    many ordinates as abscissae. *)
Definition interpolable (ref : Spectrum) : Prop :=
  unit_supported ref /\ x ref <> [] /\ List.length (y ref) = List.length (x ref).

(** The reference file [f] (its path and its lines) loads as [r]. *)
Definition loads (cfg : Config) (f : string * list string) (r : Spectrum) : Prop :=
  from_jdx cfg (fst f) (snd f) = Ok r.

(** The sample file [f] loads as [s], with the defaults of [from_csv]. *)
Definition loads_sample (cfg : Config) (f : string * list string) (s : Spectrum) : Prop :=
  from_csv (fst f) None None (header_size_in_csv cfg) (snd f) = Ok s.

(** ** The course of an analysis *)

(** What the analysis of one sample shows, in order: the baseline
    correction when it is on, the least-squares solve when the multipliers
    are not given by hand, and the drawing. *)
Definition steps (cfg : Config) (s : Spectrum) : list event :=
  ((if baseline_correction_use cfg then [BaselineCorrection (title s)] else [])
   ++ (match ref_multiplier cfg with
       | None => [LeastSquares (title s)]
       | Some _ => []
       end)
   ++ [Show (title s)])%list.

(** The multiplier of [q] is not above the multiplier of [p]. *)
Definition not_above (p q : Spectrum * F.float) : Prop :=
  F.leb (snd q) (snd p) = true.

(** * Example inputs *)

Module Examples.

(** The structured file of the specification's scenario. *)
Definition water_jdx : list string :=
  ["##TITLE=Water"; "##MOLFORM=H2 O"; "##YUNITS=ABSORBANCE";
   "##FIRSTX=1.0"; "##DELTAX=1.0"; "##NPOINTS=3";
   "1.0 0.1 0.2 0.3"; "##END="].

(** The same file with its first abscissa at zero. *)
Definition zero_firstx_jdx : list string :=
  ["##TITLE=Water"; "##MOLFORM=H2 O"; "##YUNITS=ABSORBANCE";
   "##FIRSTX=0.0"; "##DELTAX=1.0"; "##NPOINTS=3";
   "0.0 0.1 0.2 0.3"; "##END="].

(** A reference whose abscissae decrease: 3, 2, 1. *)
Definition descending_jdx : list string :=
  ["##TITLE=Carbon dioxide"; "##MOLFORM=C O2"; "##YUNITS=ABSORBANCE";
   "##FIRSTX=3.0"; "##DELTAX=-1.0"; "##NPOINTS=3";
   "3.0 0.5 0.25 0.5"; "##END="].

(** The tabular file of the specification's scenario. *)
Definition two_rows_csv : list string :=
  ["wavenumber,absorbance"; "1.0,0.5"; "2.0,1.5"].

(** Tabular files with one row of data, with none, with rows of three
    fields, and with a row that uses a semicolon. *)
Definition one_row_csv : list string :=
  ["wavenumber,absorbance"; "1.0,0.5"].

Definition no_row_csv : list string :=
  ["wavenumber,absorbance"].

Definition three_fields_csv : list string :=
  ["wavenumber,absorbance,comment"; "1.0,0.5,first"; "2.0,1.5,second"].

Definition bad_row_csv : list string :=
  ["wavenumber,absorbance"; "1.0,0.5"; ""; "2.0;1.5"; "3.0,0.5"].

(** The number that a decimal literal denotes. *)
Definition f (text : string) : F.float :=
  match py_float text with Ok v => v | Raise _ => F.nan end.

(** A spectrum in transmittance, and one in a unit the program does not
    know (the unit of NIST's quantitative spectra). *)
Definition transmittance_spectrum : Spectrum :=
  set_yunits (Some " Transmittance") (set_title (Some "T")
    (set_y [f "1.0"; f "0.1"; f "0.0"] (set_x [f "1.0"; f "2.0"; f "3.0"]
      (set_npoints (Some 3) empty_spectrum)))).

Definition molar_spectrum : Spectrum :=
  set_yunits (Some "(micromol/mol)-1m-1 (base 10)") (set_title (Some "Q")
    (set_y [f "0.5"; f "0.25"] (set_x [f "1.0"; f "2.0"]
      (set_npoints (Some 2) empty_spectrum)))).

(** The decimal logarithm at the values the examples take it: at 1, at
    0.1 and at the tolerance [1e-12]. *)
Definition log10 (v : F.float) : F.float :=
  if F.eqb v (f "1.0") then f "0.0"
  else if F.eqb v (f "0.1") then f "-1.0"
  else if F.eqb v epsilon then f "-12.0"
  else F.nan.

(** Summation from left to right. *)
Definition sum (l : list F.float) : F.float := fold_left F.add l F.zero.

(** The inner product of two arrays. *)
Definition dot (a b : list F.float) : F.float :=
  sum (map (fun p => F.mul (fst p) (snd p)) (combine a b)).

(** The product of a matrix, given by its columns, with a vector. *)
Fixpoint matvec (cols : list (list F.float)) (m : list F.float) : list F.float :=
  match cols, m with
  | c :: cols', k :: m' =>
      let rest := matvec cols' m' in
      match cols' with
      | [] => map (fun v => F.mul v k) c
      | _ => map (fun p => F.add (F.mul (fst p) k) (snd p)) (combine c rest)
      end
  | _, _ => []
  end.

(** Least squares for a matrix of one column [a]: the multiplier
    [(a . y) / (a . a)], and no residual reported; other shapes are not
    needed by the examples. *)
Definition lstsq (cols : list (list F.float)) (ys : list F.float)
  : result (list F.float * list F.float) :=
  match cols with
  | [a] => Ok ([F.div (dot a ys) (dot a a)], [])
  | _ => Raise (ValueError "lstsq: not a matrix of one column")
  end.

(** A sample of three points, all of negative absorbance. *)
Definition sample : Spectrum :=
  match from_csv "data/sample/mix.csv" None None 1
          ["wavenumber,absorbance"; "1.0,-0.5"; "2.0,-1.5"; "3.0,-0.5"] with
  | Ok s => s
  | Raise _ => empty_spectrum
  end.

(** A sample whose second ordinate is NaN. *)
Definition nan_sample : Spectrum :=
  match from_csv "data/sample/gap.csv" None None 1
          ["wavenumber,absorbance"; "1.0,0.5"; "2.0,nan"; "3.0,0.5"] with
  | Ok s => s
  | Raise _ => empty_spectrum
  end.

(** A reference directory that holds the file of the scenario. *)
Definition references : list (string * list string) :=
  [("data/reference/water.jdx", water_jdx)].

(** A reference directory whose only file does not load. *)
Definition broken_references : list (string * list string) :=
  [("data/reference/water.jdx", zero_firstx_jdx)].

(** The shipped configuration without baseline correction. *)
Definition solve_config : Config :=
  mkConfig false (f "0.20") 50 None None true
           ["title"; "molform"; "yunits"; "firstx"; "deltax"; "npoints"] 1.

(** One multiplier given by hand, negative, for the one reference. *)
Definition manual_config : Config :=
  mkConfig false (f "0.20") 50 (Some [f "-0.5"]) (Some ["H2O"]) true
           ["title"; "molform"; "yunits"; "firstx"; "deltax"; "npoints"] 1.

(** Two multipliers for one name. *)
Definition mismatched_config : Config :=
  mkConfig true (f "0.20") 50 (Some [f "0.5"; f "0.5"]) (Some ["H2O"]) true
           ["title"; "molform"; "yunits"; "firstx"; "deltax"; "npoints"] 1.

(** No multiplier for one name. *)
Definition empty_manual_config : Config :=
  mkConfig false (f "0.20") 50 (Some []) (Some ["H2O"]) true
           ["title"; "molform"; "yunits"; "firstx"; "deltax"; "npoints"] 1.

(** The file of the scenario with lines that the loader passes over: a
    comment, a label it does not know, and a data line whose first token is
    negative. *)
Definition noisy_jdx : list string :=
  ["##TITLE=Water"; "$$ measured in a 10 cm cell"; "##MOLFORM=H2 O";
   "##YUNITS=ABSORBANCE"; "##RESOLUTION=4"; "##FIRSTX=1.0"; "##DELTAX=1.0";
   "##NPOINTS=3"; "-1.0 0.7 0.8 0.9"; "1.0 0.1 0.2 0.3"; "##END="].

(** The file of the scenario with a scale factor of one half. *)
Definition scaled_jdx : list string :=
  ["##TITLE=Water"; "##MOLFORM=H2 O"; "##YUNITS=ABSORBANCE"; "##YFACTOR=0.5";
   "##FIRSTX=1.0"; "##DELTAX=1.0"; "##NPOINTS=3";
   "1.0 0.2 0.4"; "3.0 0.6"; "##END="].

(** A tabular file of four points with a blank line and rows that are not
    in order. *)
Definition four_rows_csv : list string :=
  ["wavenumber,absorbance"; "3.0,0.5"; "1.0,1.5"; ""; "4.0,-0.5"; " 2.0 , 0.25 "].

(** A tabular file whose first abscissa is not a number. *)
Definition nan_first_csv : list string :=
  ["wavenumber,absorbance"; "nan,0.5"; "1.0,1.5"; "4.0,0.25"].

(** A sample of three points, and one whose first and last abscissa agree. *)
Definition short_sample : Spectrum :=
  match from_csv "data/sample/short.csv" None None 1
          ["wavenumber,absorbance"; "1.0,0.5"; "2.0,1.5"; "3.0,1.0"] with
  | Ok s => s
  | Raise _ => empty_spectrum
  end.

Definition degenerate_sample : Spectrum :=
  match from_csv "data/sample/flat.csv" None None 1
          ["wavenumber,absorbance"; "2.0,0.5"; "3.0,1.5"; "2.0,1.0"] with
  | Ok s => s
  | Raise _ => empty_spectrum
  end.

(** A second reference, and a directory that lists it before the file of
    the scenario. *)
Definition methane_jdx : list string :=
  ["##TITLE=Methane"; "##MOLFORM=C H4"; "##YUNITS=ABSORBANCE";
   "##FIRSTX=1.0"; "##DELTAX=1.0"; "##NPOINTS=3";
   "1.0 0.3 0.2 0.1"; "##END="].

Definition two_references : list (string * list string) :=
  [("data/reference/methane.jdx", methane_jdx);
   ("data/reference/water.jdx", water_jdx)].

(** Multipliers given by hand for both references, the smaller one first. *)
Definition two_manual_config : Config :=
  mkConfig false (f "0.20") 50 (Some [f "0.25"; f "0.75"]) (Some ["CH4"; "H2O"]) true
           ["title"; "molform"; "yunits"; "firstx"; "deltax"; "npoints"] 1.

(** The shipped configuration with a selection that names no reference of
    the directory. *)
Definition unmatched_config : Config :=
  mkConfig true (f "0.20") 50 None (Some ["N2"]) true
           ["title"; "molform"; "yunits"; "firstx"; "deltax"; "npoints"] 1.

(** The files that the command line of the examples names. *)
Definition disk (path : string) : list string :=
  if (path =? "mix.csv")%string then
    ["wavenumber,absorbance"; "1.0,-0.5"; "2.0,-1.5"; "3.0,-0.5"]
  else if (path =? "water.jdx")%string then water_jdx
  else ["free text"].

(** A plot that always returns. *)
Definition plot (s : Spectrum) : result unit := Ok tt.

End Examples.

(** * Properties *)

(** ** Binary64 addition *)

Lemma add_comm (a b : F.float) : F.add a b = F.add b a.
Proof.
  unfold F.add.
  destruct a as [[]|[]| |sa ma ea], b as [[]|[]| |sb mb eb]; try reflexivity.
  unfold SFadd. rewrite (Z.min_comm ea eb), Z.add_comm. reflexivity.
Qed.

(** ** The order of binary64 numbers *)

Lemma compare_antisym (a b : F.float) :
  SFcompare b a = option_map CompOpp (SFcompare a b).
Proof.
  destruct a as [[]|[]| |[] ma ea], b as [[]|[]| |[] mb eb]; try reflexivity;
    cbn [SFcompare option_map]; f_equal;
    rewrite (Z.compare_antisym ea eb);
    change (Pos.compare_cont Eq mb ma) with (Pos.compare mb ma);
    change (Pos.compare_cont Eq ma mb) with (Pos.compare ma mb);
    rewrite (Pos.compare_antisym ma mb);
    destruct (ea ?= eb); cbn [CompOpp]; try reflexivity;
    destruct (ma ?= mb)%positive; reflexivity.
Qed.

Lemma compare_nan (a b : F.float) :
  SFcompare a b = None <-> F.is_nan a || F.is_nan b = true.
Proof.
  destruct a as [[]|[]| |[] ma ea], b as [[]|[]| |[] mb eb];
    cbn [SFcompare F.is_nan orb]; split; congruence.
Qed.

Lemma ltb_not_nan (a b : F.float) :
  F.ltb a b = true -> F.is_nan a = false /\ F.is_nan b = false.
Proof.
  unfold F.ltb, SFltb. intros H.
  destruct (F.is_nan a) eqn:Ha, (F.is_nan b) eqn:Hb; auto;
    assert (Hn : SFcompare a b = None) by (apply compare_nan; rewrite Ha, Hb; reflexivity);
    rewrite Hn in H; discriminate.
Qed.

Lemma leb_not_nan (a b : F.float) :
  F.leb a b = true -> F.is_nan a = false /\ F.is_nan b = false.
Proof.
  unfold F.leb, SFleb. intros H.
  destruct (F.is_nan a) eqn:Ha, (F.is_nan b) eqn:Hb; auto;
    assert (Hn : SFcompare a b = None) by (apply compare_nan; rewrite Ha, Hb; reflexivity);
    rewrite Hn in H; discriminate.
Qed.

Lemma ltb_leb_false (a b : F.float) : F.ltb a b = true -> F.leb b a = false.
Proof.
  unfold F.ltb, F.leb, SFltb, SFleb. rewrite (compare_antisym a b).
  destruct (SFcompare a b) as [[]|]; cbn; congruence.
Qed.

Lemma leb_ltb_false (a b : F.float) : F.leb a b = true -> F.ltb b a = false.
Proof.
  unfold F.ltb, F.leb, SFltb, SFleb. rewrite (compare_antisym a b).
  destruct (SFcompare a b) as [[]|]; cbn; congruence.
Qed.

Lemma ltb_antisym (a b : F.float) : F.ltb a b = true -> F.ltb b a = false.
Proof.
  unfold F.ltb, SFltb. rewrite (compare_antisym a b).
  destruct (SFcompare a b) as [[]|]; cbn; congruence.
Qed.

Lemma ltb_leb (a b : F.float) : F.ltb a b = true -> F.leb a b = true.
Proof.
  unfold F.ltb, F.leb, SFltb, SFleb.
  destruct (SFcompare a b) as [[]|]; congruence.
Qed.

(** Two numbers, neither of them NaN, are comparable. *)
Lemma not_leb_ltb (a b : F.float) :
  F.is_nan a = false -> F.is_nan b = false -> F.leb a b = false -> F.ltb b a = true.
Proof.
  intros Ha Hb. unfold F.ltb, F.leb, SFltb, SFleb. rewrite (compare_antisym a b).
  destruct (SFcompare a b) as [[]|] eqn:Hc; cbn; try congruence.
  apply compare_nan in Hc. rewrite Ha, Hb in Hc. discriminate.
Qed.

Lemma not_ltb_leb (a b : F.float) :
  F.is_nan a = false -> F.is_nan b = false -> F.ltb a b = false -> F.leb b a = true.
Proof.
  intros Ha Hb. unfold F.ltb, F.leb, SFltb, SFleb. rewrite (compare_antisym a b).
  destruct (SFcompare a b) as [[]|] eqn:Hc; cbn; try congruence.
  apply compare_nan in Hc. rewrite Ha, Hb in Hc. discriminate.
Qed.

Lemma leb_antisym (a b : F.float) :
  F.leb a b = true -> F.leb b a = true -> F.eqb a b = true.
Proof.
  unfold F.leb, F.eqb, SFleb, SFeqb. rewrite (compare_antisym a b).
  destruct (SFcompare a b) as [[]|]; cbn; congruence.
Qed.

(** The comparison as an order on triples: the sign, then the exponent, then
    the mantissa. *)
Lemma compare_trans (a b c : F.float) (r : comparison) :
  SFcompare a b = Some r -> SFcompare b c = Some r -> r <> Eq ->
  SFcompare a c = Some r.
Proof.
  destruct a as [[]|[]| |[] ma ea], b as [[]|[]| |[] mb eb], c as [[]|[]| |[] mc ec];
    cbn [SFcompare]; try congruence;
    intros Hab Hbc Hr; injection Hab as Hab; injection Hbc as Hbc; f_equal;
    change (Pos.compare_cont Eq) with Pos.compare in *;
    destruct (Z.compare_spec ea eb), (Z.compare_spec eb ec), (Z.compare_spec ea ec);
    subst; cbn [CompOpp] in *; try congruence; try lia;
    destruct (Pos.compare_spec ma mb), (Pos.compare_spec mb mc), (Pos.compare_spec ma mc);
    subst; cbn [CompOpp] in *; try congruence; try lia.
Qed.

Lemma compare_eq_l (a b c : F.float) (r : comparison) :
  SFcompare a b = Some Eq -> SFcompare b c = Some r -> SFcompare a c = Some r.
Proof.
  destruct a as [[]|[]| |[] ma ea], b as [[]|[]| |[] mb eb], c as [[]|[]| |[] mc ec];
    cbn [SFcompare]; try congruence;
    intros Hab Hbc; injection Hab as Hab; injection Hbc as Hbc; f_equal;
    change (Pos.compare_cont Eq) with Pos.compare in *;
    destruct (Z.compare_spec ea eb), (Z.compare_spec eb ec), (Z.compare_spec ea ec);
    subst; cbn [CompOpp] in *; try congruence; try lia;
    destruct (Pos.compare_spec ma mb), (Pos.compare_spec mb mc), (Pos.compare_spec ma mc);
    subst; cbn [CompOpp] in *; try congruence; try lia.
Qed.

Lemma ltb_trans (a b c : F.float) :
  F.ltb a b = true -> F.ltb b c = true -> F.ltb a c = true.
Proof.
  unfold F.ltb, SFltb. intros Hab Hbc.
  destruct (SFcompare a b) as [[]|] eqn:H1; try discriminate.
  destruct (SFcompare b c) as [[]|] eqn:H2; try discriminate.
  rewrite (compare_trans a b c Lt H1 H2); [reflexivity|discriminate].
Qed.

Lemma leb_ltb_trans (a b c : F.float) :
  F.leb a b = true -> F.ltb b c = true -> F.ltb a c = true.
Proof.
  unfold F.leb, F.ltb, SFleb, SFltb. intros Hab Hbc.
  destruct (SFcompare b c) as [[]|] eqn:H2; try discriminate.
  destruct (SFcompare a b) as [[]|] eqn:H1; try discriminate.
  - now rewrite (compare_eq_l a b c Lt H1 H2).
  - rewrite (compare_trans a b c Lt H1 H2); [reflexivity|discriminate].
Qed.

(** ** The record and its setters *)

Ltac proj :=
  cbn [title data_type cas_registry_no molform state xunits yunits
       xfactor yfactor deltax firstx lastx firsty maxx minx maxy miny
       npoints x y
       set_title set_data_type set_cas_registry_no set_molform set_state
       set_xunits set_yunits set_xfactor set_yfactor set_deltax set_firstx
       set_lastx set_firsty set_maxx set_minx set_maxy set_miny
       set_npoints set_x set_y] in *.

Lemma arange_length (n : Z) : List.length (arange n) = Z.to_nat n.
Proof. unfold arange. now rewrite length_map, length_seq. Qed.

Lemma arange_nth (n : Z) (i : nat) :
  (i < Z.to_nat n)%nat -> nth_error (arange n) i = Some (F.of_Z (Z.of_nat i)).
Proof.
  intros Hi. unfold arange.
  rewrite nth_error_map, nth_error_seq.
  destruct (Nat.ltb_spec i (Z.to_nat n)); [reflexivity | lia].
Qed.

(** ** Structured files *)

(** C1. A structured file that loads gives arrays [x] and [y] of length
    [npoints], and [x[i]] is [firstx + i * deltax] computed in binary64 from
    the three metadata fields of the loaded spectrum, for every index [i];
    no token of a data line enters [x]. *)
Theorem from_jdx_x_from_metadata :
  forall (cfg : Config) (path : string) (lines : list string) (s : Spectrum),
    from_jdx cfg path lines = Ok s ->
    exists (n : Z) (d x0 : F.float),
      npoints s = Some n /\ deltax s = Some d /\ firstx s = Some x0 /\
      Z.of_nat (List.length (x s)) = n /\
      Z.of_nat (List.length (y s)) = n /\
      forall i : nat, (i < List.length (x s))%nat ->
        nth_error (x s) i = Some (F.add x0 (F.mul (F.of_Z (Z.of_nat i)) d)).
Proof.
  intros cfg path lines s H. unfold from_jdx in H.
  destruct (jdx_scan lines empty_spectrum []) as [[s0 yv]|e]; cbn [bind] in H;
    [|discriminate].
  destruct (check_required _ _ _); cbn [bind] in H; [|discriminate].
  proj. destruct (molform s0); cbn [bind] in H; [|discriminate].
  unfold generate_x in H. proj.
  destruct (npoints s0) as [n|] eqn:Hn; [|discriminate].
  destruct (deltax s0) as [d|] eqn:Hd; [|discriminate].
  destruct (firstx s0) as [x0|] eqn:Hx; [|discriminate].
  cbn [bind] in H. proj.
  rewrite length_map, arange_length in H.
  destruct (Nat.eqb_spec (Z.to_nat n) 0); [discriminate|].
  destruct (Nat.eqb_spec (List.length yv) 0); [discriminate|].
  destruct (Nat.eqb_spec (Z.to_nat n) (List.length yv)) as [Hlen|];
    [cbn [negb] in H | discriminate].
  exists n, d, x0.
  assert (Hx' : forall i, (i < Z.to_nat n)%nat ->
            nth_error (map (fun i0 => F.add (F.mul i0 d) x0) (arange n)) i
            = Some (F.add x0 (F.mul (F.of_Z (Z.of_nat i)) d))).
  { intros i Hi. rewrite nth_error_map, arange_nth by exact Hi.
    cbn [option_map]. now rewrite add_comm. }
  destruct (yfactor s0) as [k|]; [destruct (negb (F.eqb k F.one))|];
    injection H as <-; proj; rewrite ?length_map, ?arange_length;
    (repeat split; try assumption; try lia;
     intros i Hi; apply Hx'; exact Hi).
Qed.

Lemma from_jdx_x_from_metadata_witness :
  exists s : Spectrum,
    from_jdx default_config "water.jdx" Examples.water_jdx = Ok s /\
    exists (n : Z) (d x0 : F.float),
      npoints s = Some n /\ deltax s = Some d /\ firstx s = Some x0 /\
      Z.of_nat (List.length (x s)) = n /\
      Z.of_nat (List.length (y s)) = n /\
      forall i : nat, (i < List.length (x s))%nat ->
        nth_error (x s) i = Some (F.add x0 (F.mul (F.of_Z (Z.of_nat i)) d)).
Proof.
  eexists. split.
  - vm_compute. reflexivity.
  - apply (from_jdx_x_from_metadata default_config "water.jdx" Examples.water_jdx).
    vm_compute. reflexivity.
Defined.

(** The scenario of the specification: three points from 1.0 in steps of
    1.0, and the three ordinates of the data line. *)
Example from_jdx_water :
  exists s : Spectrum,
    from_jdx default_config "water.jdx" Examples.water_jdx = Ok s /\
    x s = map Examples.f ["1.0"; "2.0"; "3.0"] /\
    y s = map Examples.f ["0.1"; "0.2"; "0.3"] /\
    molform s = Some "H2O".
Proof. eexists. split; [vm_compute; reflexivity|]. vm_compute. auto. Qed.

(** The first token of a data line does not matter: with another token in
    its place the same spectrum is loaded. *)
Example from_jdx_drops_first_token :
  from_jdx default_config "water.jdx"
    ["##TITLE=Water"; "##MOLFORM=H2 O"; "##YUNITS=ABSORBANCE";
     "##FIRSTX=1.0"; "##DELTAX=1.0"; "##NPOINTS=3";
     "999.0 0.1 0.2 0.3"; "##END="]
  = from_jdx default_config "water.jdx" Examples.water_jdx.
Proof. vm_compute. reflexivity. Qed.

(** C2. A structured file in which every required field is present and
    parses, with [FIRSTX=0.0], is refused by the check of the required
    fields: the check tests the truth value of the field, and zero is
    false. *)
Theorem from_jdx_refuses_zero_firstx :
  (exists (s0 : Spectrum) (yv : list F.float),
      jdx_scan Examples.zero_firstx_jdx empty_spectrum [] = Ok (s0, yv) /\
      title s0 = Some "Water" /\ molform s0 = Some "H2 O" /\
      yunits s0 = Some "ABSORBANCE" /\ firstx s0 = Some F.zero /\
      deltax s0 = Some F.one /\ npoints s0 = Some 3) /\
  from_jdx default_config "water.jdx" Examples.zero_firstx_jdx
  = Raise (ValueError "Could not parse firstx in water.jdx").
Proof.
  split.
  - eexists. eexists. split; [vm_compute; reflexivity|]. vm_compute. auto 10.
  - vm_compute. reflexivity.
Qed.

(** The check of the required fields fails on a field exactly when the
    truth value of the field is false. *)
Lemma check_required_ok (required : list string) (path : string) (s : Spectrum) :
  check_required required path s = Ok tt <->
  Forall (fun key => getattr_truthy s key = Ok true) required.
Proof.
  induction required as [|key rest IH]; cbn [check_required].
  - split; auto.
  - destruct (getattr_truthy s key) as [[]|e] eqn:Hk; cbn [bind].
    + rewrite IH. split; intros H.
      * constructor; assumption.
      * now inversion H.
    + split; [discriminate|]. intros H. inversion H. congruence.
    + split; [discriminate|]. intros H. inversion H. congruence.
Qed.

(** No structured file whose first abscissa is zero loads while [firstx] is
    a required field. *)
Lemma from_jdx_firstx_not_zero (cfg : Config) (path : string)
  (lines : list string) (s : Spectrum) :
  In "firstx" (required_fields_in_jdx cfg) ->
  from_jdx cfg path lines = Ok s ->
  exists v, firstx s = Some v /\ F.eqb v F.zero = false.
Proof.
  intros Hreq H. unfold from_jdx in H.
  destruct (jdx_scan lines empty_spectrum []) as [[s0 yv]|e]; cbn [bind] in H;
    [|discriminate].
  destruct (check_required _ _ _) as [[]|] eqn:Hcheck; cbn [bind] in H; [|discriminate].
  apply check_required_ok in Hcheck. rewrite Forall_forall in Hcheck.
  specialize (Hcheck _ Hreq). cbn in Hcheck.
  destruct (firstx s0) as [v|] eqn:Hv; [|discriminate].
  injection Hcheck as Hcheck. unfold F.truthy in Hcheck.
  apply negb_true_iff in Hcheck.
  proj. destruct (molform s0); cbn [bind] in H; [|discriminate].
  destruct (generate_x _) as [xs|]; cbn [bind] in H; [|discriminate].
  proj.
  destruct (List.length xs =? 0)%nat; [discriminate|].
  destruct (List.length yv =? 0)%nat; [discriminate|].
  destruct (negb _); [discriminate|].
  exists v. split; [|exact Hcheck].
  destruct (yfactor s0) as [k|]; [destruct (negb (F.eqb k F.one))|];
    injection H as <-; exact Hv.
Qed.

(** ** Units *)

Section Absorbance.

Variable np_log10 : F.float -> F.float.

(** C4. On a spectrum whose unit is set and is neither absorbance nor
    transmittance, the accessor raises and the conversion returns with the
    spectrum as it was. *)
Theorem convert_to_absorbance_silent_on_unknown_unit :
  convert_to_absorbance np_log10 Examples.molar_spectrum = Ok Examples.molar_spectrum /\
  get_y_absorbance np_log10 Examples.molar_spectrum
  = Raise (ValueError "Unsupported Y unit type: (micromol/mol)-1m-1 (base 10) in Q").
Proof. split; reflexivity. Qed.

(** The same for every such unit. *)
Lemma convert_to_absorbance_unknown_unit (s : Spectrum) (u : string) :
  yunits s = Some u ->
  unit_tag u <> "ABSORBANCE" -> unit_tag u <> "TRANSMITTANCE" ->
  convert_to_absorbance np_log10 s = Ok s /\
  get_y_absorbance np_log10 s
  = Raise (ValueError ("Unsupported Y unit type: " ++ u ++ " in " ++ show_opt (title s))).
Proof.
  intros Hu Ha Ht. unfold convert_to_absorbance, get_y_absorbance. rewrite Hu.
  destruct (String.eqb_spec (unit_tag u) "ABSORBANCE"); [contradiction|].
  destruct (String.eqb_spec (unit_tag u) "TRANSMITTANCE"); [contradiction|].
  split; reflexivity.
Qed.

(** C7. For a spectrum in absorbance or in transmittance the conversion
    succeeds, its result is in absorbance, and converting the result again
    returns it unchanged: the arrays, the unit and every other field. *)
Theorem convert_to_absorbance_idempotent :
  forall (s : Spectrum) (u : string),
    yunits s = Some u ->
    unit_tag u = "ABSORBANCE" \/ unit_tag u = "TRANSMITTANCE" ->
    exists s1 : Spectrum,
      convert_to_absorbance np_log10 s = Ok s1 /\
      convert_to_absorbance np_log10 s1 = Ok s1 /\
      (exists u1, yunits s1 = Some u1 /\ unit_tag u1 = "ABSORBANCE") /\
      (unit_tag u = "ABSORBANCE" -> s1 = s) /\
      (unit_tag u = "TRANSMITTANCE" ->
       y s1 = transmittance_to_absorbance np_log10 (y s) /\
       yunits s1 = Some "ABSORBANCE").
Proof.
  intros s u Hu Hsup. unfold convert_to_absorbance at 1. rewrite Hu.
  destruct (String.eqb_spec (unit_tag u) "ABSORBANCE") as [Ha|Ha].
  - exists s. split; [reflexivity|]. split; [|split; [|split]].
    + unfold convert_to_absorbance. rewrite Hu, Ha. reflexivity.
    + exists u. auto.
    + reflexivity.
    + intros Ht. rewrite Ht in Ha. discriminate.
  - destruct Hsup as [Ha'|Ht]; [contradiction|].
    rewrite Ht. cbn [String.eqb Ascii.eqb Bool.eqb].
    eexists. split; [reflexivity|]. split; [|split; [|split]].
    + reflexivity.
    + exists "ABSORBANCE". split; reflexivity.
    + intros Ha'. discriminate.
    + intros _. split; reflexivity.
Qed.

End Absorbance.

Lemma convert_to_absorbance_idempotent_witness :
  exists s1 : Spectrum,
    convert_to_absorbance Examples.log10 Examples.transmittance_spectrum = Ok s1 /\
    convert_to_absorbance Examples.log10 s1 = Ok s1 /\
    (exists u1, yunits s1 = Some u1 /\ unit_tag u1 = "ABSORBANCE") /\
    (unit_tag " Transmittance" = "ABSORBANCE" -> s1 = Examples.transmittance_spectrum) /\
    (unit_tag " Transmittance" = "TRANSMITTANCE" ->
     y s1 = transmittance_to_absorbance Examples.log10 (y Examples.transmittance_spectrum) /\
     yunits s1 = Some "ABSORBANCE").
Proof.
  apply (convert_to_absorbance_idempotent Examples.log10
           Examples.transmittance_spectrum " Transmittance").
  - reflexivity.
  - right. reflexivity.
Defined.

(** The transmittances 1, 0.1 and 0 become the absorbances 0, 1 and 12. *)
Example convert_transmittance :
  exists s1 : Spectrum,
    convert_to_absorbance Examples.log10 Examples.transmittance_spectrum = Ok s1 /\
    y s1 = map Examples.f ["-0.0"; "1.0"; "12.0"] /\
    yunits s1 = Some "ABSORBANCE".
Proof. eexists. split; [reflexivity|]. vm_compute. auto. Qed.

(** ** Tabular files *)

Lemma py_float_numeric (t : string) :
  numeric t = true -> exists v, py_float t = Ok v.
Proof.
  unfold numeric, py_float. destruct (float_of_chars _) as [v|]; [|discriminate].
  intros _. now exists v.
Qed.

Lemma py_float_not_numeric (t : string) :
  numeric t = false -> exists e, py_float t = Raise e.
Proof.
  unfold numeric, py_float. destruct (float_of_chars _) as [v|]; [discriminate|].
  intros _. eexists. reflexivity.
Qed.

Lemma csv_row_blank (raw : string) : is_blank raw = true -> csv_row raw = Ok None.
Proof. unfold is_blank, csv_row. intros ->. reflexivity. Qed.

Lemma csv_row_ok (raw : string) :
  is_blank raw = false -> row_ok raw = true ->
  exists vx vy, csv_row raw = Ok (Some (vx, vy)).
Proof.
  unfold is_blank, row_ok, csv_row. intros ->.
  destruct (Str.split _ _) as [|p0 [|p1 rest]]; try discriminate.
  intros H. apply andb_true_iff in H as [H0 H1].
  destruct (py_float_numeric _ H0) as [vx ->], (py_float_numeric _ H1) as [vy ->].
  now exists vx, vy.
Qed.

Lemma csv_row_bad (raw : string) :
  is_blank raw = false -> row_ok raw = false ->
  exists msg, csv_row raw = Raise (ValueError (msg ++ Str.strip raw)) /\
              (msg = too_few_fields \/ msg = not_a_number).
Proof.
  unfold is_blank, row_ok, csv_row. intros ->.
  destruct (Str.split _ _) as [|p0 [|p1 rest]].
  - intros _. exists too_few_fields. auto.
  - intros _. exists too_few_fields. auto.
  - intros H. exists not_a_number. split; [|auto].
    apply andb_false_iff in H as [H|H].
    + destruct (py_float_not_numeric _ H) as [e ->]. reflexivity.
    + destruct (py_float_not_numeric _ H) as [e ->].
      destruct (py_float p0); reflexivity.
Qed.

(** The two arrays grow by one element for each row that holds data. *)
Lemma csv_scan_lengths (lines : list string) :
  forall xs ys xs' ys',
    csv_scan lines xs ys = Ok (xs', ys') ->
    let k := List.length (filter (fun raw => negb (is_blank raw)) lines) in
    List.length xs' = (List.length xs + k)%nat /\
    List.length ys' = (List.length ys + k)%nat.
Proof.
  induction lines as [|raw rest IH]; intros xs ys xs' ys' H; cbn [csv_scan] in H.
  - injection H as <- <-. cbn. lia.
  - cbn [filter]. destruct (is_blank raw) eqn:Hb; cbn [negb].
    + rewrite (csv_row_blank _ Hb) in H. cbn [bind] in H. apply (IH _ _ _ _ H).
    + destruct (csv_row raw) as [[[vx vy]|]|e] eqn:Hr; cbn [bind] in H.
      * apply IH in H. rewrite !length_app in H. cbn [List.length] in *. lia.
      * unfold csv_row in Hr. unfold is_blank in Hb. rewrite Hb in Hr.
        destruct (Str.split _ _) as [|p0 [|p1 r]]; try discriminate.
        destruct (py_float p0); [|discriminate].
        destruct (py_float p1); discriminate.
      * discriminate.
Qed.

(** A file whose rows are all blank or well formed is read to its end. *)
Lemma csv_scan_ok (lines : list string) :
  Forall (fun raw => is_blank raw = true \/ row_ok raw = true) lines ->
  forall xs ys, exists xs' ys', csv_scan lines xs ys = Ok (xs', ys').
Proof.
  induction 1 as [|raw rest Hraw _ IH]; intros xs ys; cbn [csv_scan].
  - now exists xs, ys.
  - destruct (is_blank raw) eqn:Hb.
    + rewrite (csv_row_blank _ Hb). cbn [bind]. apply IH.
    + destruct Hraw as [Hraw|Hraw]; [discriminate|].
      destruct (csv_row_ok _ Hb Hraw) as (vx & vy & ->). cbn [bind]. apply IH.
Qed.

(** The first row that is neither blank nor well formed stops the loop. *)
Lemma csv_scan_bad (before : list string) (bad : string) (after : list string) :
  Forall (fun raw => is_blank raw = true \/ row_ok raw = true) before ->
  is_blank bad = false -> row_ok bad = false ->
  forall xs ys, exists msg,
    csv_scan (before ++ bad :: after) xs ys = Raise (ValueError (msg ++ Str.strip bad)) /\
    (msg = too_few_fields \/ msg = not_a_number).
Proof.
  intros Hbefore Hb Hbad.
  induction Hbefore as [|raw rest Hraw _ IH]; intros xs ys; cbn [app csv_scan].
  - destruct (csv_row_bad _ Hb Hbad) as (msg & -> & Hmsg). now exists msg.
  - destruct (is_blank raw) eqn:Hb'.
    + rewrite (csv_row_blank _ Hb'). cbn [bind]. apply IH.
    + destruct Hraw as [Hraw|Hraw]; [discriminate|].
      destruct (csv_row_ok _ Hb' Hraw) as (vx & vy & ->). cbn [bind]. apply IH.
Qed.

(** What a row gives depends on its first two fields only. *)
Lemma csv_row_same (raw raw' : string) (r : option (F.float * F.float)) :
  same_first_two raw raw' -> csv_row raw = Ok r -> csv_row raw' = Ok r.
Proof.
  intros [[Hb Hb']|(Hb & Hb' & p0 & p1 & rest & rest' & Hs & Hs')].
  - now rewrite (csv_row_blank _ Hb), (csv_row_blank _ Hb').
  - unfold is_blank in Hb, Hb'. unfold csv_row. rewrite Hb, Hb', Hs, Hs'.
    destruct (py_float p0); [|discriminate]. destruct (py_float p1); [|discriminate].
    auto.
Qed.

Lemma csv_scan_same (lines lines' : list string) :
  Forall2 same_first_two lines lines' ->
  forall xs ys r, csv_scan lines xs ys = Ok r -> csv_scan lines' xs ys = Ok r.
Proof.
  induction 1 as [|raw raw' rest rest' Hraw _ IH]; intros xs ys r H; [exact H|].
  cbn [csv_scan] in *.
  destruct (csv_row raw) as [p|] eqn:Hr; cbn [bind] in H; [|discriminate].
  rewrite (csv_row_same _ _ _ Hraw Hr). cbn [bind].
  destruct p as [[vx vy]|]; now apply IH.
Qed.

(** C8. A row of the data that is not blank stops the load, with an error
    that ends in the text of the row, when it has fewer than two fields or
    one of its first two fields is not numeric; when every row is blank or
    has two numeric first fields, whatever follows them, all rows are read
    and each row that is not blank gives one point.  What follows the
    second field of a row is ignored: a file that loads gives the same
    spectrum when the further fields of its rows are changed, added or
    taken away. *)
Theorem from_csv_row_validation :
  forall (path : string) (name mol : option string) (header_size : Z)
         (lines : list string),
    (forall before bad after,
        skipn (Z.to_nat header_size) lines = (before ++ bad :: after)%list ->
        Forall (fun raw => is_blank raw = true \/ row_ok raw = true) before ->
        is_blank bad = false -> row_ok bad = false ->
        exists msg,
          from_csv path name mol header_size lines
          = Raise (ValueError (msg ++ Str.strip bad)) /\
          (msg = too_few_fields \/ msg = not_a_number)) /\
    (Forall (fun raw => is_blank raw = true \/ row_ok raw = true)
            (skipn (Z.to_nat header_size) lines) ->
     exists xs ys,
       csv_scan (skipn (Z.to_nat header_size) lines) [] [] = Ok (xs, ys) /\
       List.length xs = List.length (data_rows header_size lines) /\
       List.length ys = List.length (data_rows header_size lines)) /\
    (forall (lines' : list string) (s : Spectrum),
        Forall2 same_first_two (skipn (Z.to_nat header_size) lines)
                (skipn (Z.to_nat header_size) lines') ->
        from_csv path name mol header_size lines = Ok s ->
        from_csv path name mol header_size lines' = Ok s).
Proof.
  intros path name mol h lines. split; [|split].
  - intros before bad after Hsplit Hbefore Hb Hbad.
    destruct (csv_scan_bad before bad after Hbefore Hb Hbad [] []) as (msg & Hscan & Hmsg).
    exists msg. split; [|exact Hmsg].
    unfold from_csv. rewrite Hsplit, Hscan. reflexivity.
  - intros Hall.
    destruct (csv_scan_ok _ Hall [] []) as (xs & ys & Hscan).
    exists xs, ys. split; [exact Hscan|].
    apply csv_scan_lengths in Hscan. cbn [List.length] in Hscan. exact Hscan.
  - intros lines' s Hsame H. unfold from_csv in *.
    destruct (csv_scan (skipn (Z.to_nat h) lines) [] []) as [r|] eqn:Hscan;
      cbn [bind] in H; [|discriminate].
    rewrite (csv_scan_same _ _ Hsame _ _ _ Hscan). exact H.
Qed.

(** A field that ends in one of the separators 28-31 is not numeric:
    [str.strip] would remove the separator, [float] does not. *)
Example from_csv_refuses_separator :
  let row := "1.0" ++ String (ascii_of_nat 28) ",0.5" in
  row_ok row = false /\
  from_csv "mix.csv" None None 1 ["wavenumber,absorbance"; row; "2.0,1.5"]
  = Raise (ValueError (not_a_number ++ row)).
Proof. vm_compute. split; reflexivity. Qed.

(** C8 as first stated fails: rows of three fields are read, their third
    field ignored. *)
Lemma from_csv_accepts_three_fields :
  map (fun raw => List.length (Str.split ","%char (Str.strip raw)))
      (data_rows 1 Examples.three_fields_csv) = [3%nat; 3%nat] /\
  exists s : Spectrum,
    from_csv "mix.csv" None None 1 Examples.three_fields_csv = Ok s /\
    x s = map Examples.f ["1.0"; "2.0"] /\
    y s = map Examples.f ["0.5"; "1.5"].
Proof.
  split; [reflexivity|].
  eexists. split; [vm_compute; reflexivity|]. vm_compute. auto.
Qed.

Lemma from_csv_row_validation_witness :
  (exists msg,
      from_csv "mix.csv" None None 1 Examples.bad_row_csv
      = Raise (ValueError (msg ++ Str.strip "2.0;1.5")) /\
      (msg = too_few_fields \/ msg = not_a_number)) /\
  (exists xs ys,
      csv_scan (skipn (Z.to_nat 1) Examples.three_fields_csv) [] [] = Ok (xs, ys) /\
      List.length xs = List.length (data_rows 1 Examples.three_fields_csv) /\
      List.length ys = List.length (data_rows 1 Examples.three_fields_csv)) /\
  (exists s : Spectrum,
      from_csv "mix.csv" None None 1 Examples.three_fields_csv = Ok s /\
      from_csv "mix.csv" None None 1 Examples.two_rows_csv = Ok s).
Proof.
  split; [|split].
  - apply (proj1 (from_csv_row_validation "mix.csv" None None 1 Examples.bad_row_csv)
             ["1.0,0.5"; ""] "2.0;1.5" ["3.0,0.5"]).
    + reflexivity.
    + apply Forall_cons; [right; reflexivity|].
      apply Forall_cons; [left; reflexivity|]. apply Forall_nil.
    + reflexivity.
    + reflexivity.
  - apply (proj1 (proj2 (from_csv_row_validation "mix.csv" None None 1
                           Examples.three_fields_csv))).
    apply Forall_cons; [right; reflexivity|].
    apply Forall_cons; [right; reflexivity|]. apply Forall_nil.
  - eexists. split; [vm_compute; reflexivity|].
    apply (proj2 (proj2 (from_csv_row_validation "mix.csv" None None 1
                           Examples.three_fields_csv))).
    + apply Forall2_cons.
      { right. split; [reflexivity|]. split; [reflexivity|].
        exists "1.0", "0.5", ["first"], []. split; reflexivity. }
      apply Forall2_cons; [|apply Forall2_nil].
      right. split; [reflexivity|]. split; [reflexivity|].
      exists "2.0", "1.5", ["second"], []. split; reflexivity.
    + vm_compute. reflexivity.
Defined.

(** *** The extremes of a column *)

Lemma leb_refl (a : F.float) : F.is_nan a = false -> F.leb a a = true.
Proof.
  destruct a as [[]|[]| |[] m e]; try reflexivity; try discriminate; intros _;
    unfold F.leb, SFleb; cbn [SFcompare]; rewrite Z.compare_refl;
    change (Pos.compare_cont Eq m m) with (Pos.compare m m);
    rewrite Pos.compare_refl; reflexivity.
Qed.

Lemma compare_eq_r (a b c : F.float) (r : comparison) :
  SFcompare a b = Some r -> SFcompare b c = Some Eq -> SFcompare a c = Some r.
Proof.
  intros Hab Hbc.
  assert (Hcb : SFcompare c b = Some Eq) by (rewrite (compare_antisym b c), Hbc; reflexivity).
  assert (Hba : SFcompare b a = Some (CompOpp r))
    by (rewrite (compare_antisym a b), Hab; reflexivity).
  rewrite (compare_antisym c a), (compare_eq_l c b a _ Hcb Hba). cbn.
  now rewrite CompOpp_involutive.
Qed.

Lemma leb_trans (a b c : F.float) :
  F.leb a b = true -> F.leb b c = true -> F.leb a c = true.
Proof.
  unfold F.leb, SFleb. intros Hab Hbc.
  destruct (SFcompare a b) as [[]|] eqn:H1; try discriminate;
    destruct (SFcompare b c) as [[]|] eqn:H2; try discriminate.
  - now rewrite (compare_eq_l a b c _ H1 H2).
  - now rewrite (compare_eq_l a b c _ H1 H2).
  - now rewrite (compare_eq_r a b c _ H1 H2).
  - rewrite (compare_trans a b c Lt H1 H2); [reflexivity|discriminate].
Qed.

Lemma ltb_leb_trans (a b c : F.float) :
  F.ltb a b = true -> F.leb b c = true -> F.ltb a c = true.
Proof.
  unfold F.leb, F.ltb, SFleb, SFltb. intros Hab Hbc.
  destruct (SFcompare a b) as [[]|] eqn:H1; try discriminate.
  destruct (SFcompare b c) as [[]|] eqn:H2; try discriminate.
  - now rewrite (compare_eq_r a b c _ H1 H2).
  - rewrite (compare_trans a b c Lt H1 H2); [reflexivity|discriminate].
Qed.

(** On numbers, [max] returns an element that no element exceeds. *)
Lemma max_from_bound (l : list F.float) :
  forall cur, F.is_nan cur = false -> no_nan l ->
              In (max_from cur l) (cur :: l) /\
              F.leb cur (max_from cur l) = true /\
              Forall (fun v => F.leb v (max_from cur l) = true) l.
Proof.
  induction l as [|v l IH]; intros cur Hcur Hl; cbn [max_from].
  - split; [now left|]. split; [now apply leb_refl|constructor].
  - inversion Hl as [|? ? Hv Hl']; subst. unfold F.gtb.
    destruct (SFltb cur v) eqn:Hlt.
    + destruct (IH v Hv Hl') as (Hin & Hle & Hall).
      split; [now right|]. split.
      * apply (leb_trans _ v); [now apply ltb_leb|exact Hle].
      * constructor; assumption.
    + destruct (IH cur Hcur Hl') as (Hin & Hle & Hall).
      split; [destruct Hin as [Hin|Hin]; [now left|now right; right]|].
      split; [exact Hle|]. constructor; [|exact Hall].
      apply (leb_trans _ cur); [|exact Hle]. now apply not_ltb_leb.
Qed.

Lemma min_from_bound (l : list F.float) :
  forall cur, F.is_nan cur = false -> no_nan l ->
              In (min_from cur l) (cur :: l) /\
              F.leb (min_from cur l) cur = true /\
              Forall (fun v => F.leb (min_from cur l) v = true) l.
Proof.
  induction l as [|v l IH]; intros cur Hcur Hl; cbn [min_from].
  - split; [now left|]. split; [now apply leb_refl|constructor].
  - inversion Hl as [|? ? Hv Hl']; subst.
    destruct (F.ltb v cur) eqn:Hlt.
    + destruct (IH v Hv Hl') as (Hin & Hle & Hall).
      split; [now right|]. split.
      * apply (leb_trans _ v); [exact Hle|now apply ltb_leb].
      * constructor; assumption.
    + destruct (IH cur Hcur Hl') as (Hin & Hle & Hall).
      split; [destruct Hin as [Hin|Hin]; [now left|now right; right]|].
      split; [exact Hle|]. constructor; [|exact Hall].
      apply (leb_trans _ cur); [exact Hle|]. now apply not_ltb_leb.
Qed.

Lemma max_from_nan (l : list F.float) : max_from F.nan l = F.nan.
Proof. induction l as [|v l IH]; [reflexivity|]. cbn [max_from]. now destruct v. Qed.

Lemma min_from_nan (l : list F.float) : min_from F.nan l = F.nan.
Proof. induction l as [|v l IH]; [reflexivity|]. cbn [min_from]. now destruct v. Qed.

(** The extremes of a list of numbers: both are elements, and every element
    lies between them. *)
Lemma extremes_bound (l : list F.float) (lo hi : F.float) :
  no_nan l -> py_min l = Ok lo -> py_max l = Ok hi ->
  In lo l /\ In hi l /\ Forall (fun v => F.leb lo v = true /\ F.leb v hi = true) l.
Proof.
  intros Hl Hlo Hhi. destruct l as [|c l]; [discriminate|].
  injection Hlo as <-. injection Hhi as <-.
  inversion Hl as [|? ? Hc Hl']; subst.
  destruct (max_from_bound l c Hc Hl') as (Hin & Hle & Hall).
  destruct (min_from_bound l c Hc Hl') as (Hin' & Hle' & Hall').
  split; [exact Hin'|]. split; [exact Hin|].
  constructor; [now split|].
  rewrite Forall_forall in *. intros v Hv. split; [now apply Hall'|now apply Hall].
Qed.






(** The scenario of the specification: rows "1.0,0.5" and "2.0,1.5" under a
    header of one line. *)
Example from_csv_two_rows :
  exists s : Spectrum,
    from_csv "mix.csv" None None 1 Examples.two_rows_csv = Ok s /\
    x s = map Examples.f ["1.0"; "2.0"] /\
    y s = map Examples.f ["0.5"; "1.5"] /\
    firsty s = Some (Examples.f "1.5") /\
    maxy s = Some (Examples.f "1.5") /\
    miny s = Some (Examples.f "0.5") /\
    npoints s = Some 2.
Proof. eexists. split; [vm_compute; reflexivity|]. vm_compute. auto 10. Qed.

(** A load that returns has read a second row. *)
Lemma from_csv_second_row (path : string) (name mol : option string)
  (header_size : Z) (lines : list string) (s : Spectrum) :
  from_csv path name mol header_size lines = Ok s ->
  exists xs ys,
    csv_scan (skipn (Z.to_nat header_size) lines) [] [] = Ok (xs, ys) /\
    (1 < List.length ys)%nat.
Proof.
  unfold from_csv. intros H.
  destruct (csv_scan _ [] []) as [[xv yv]|e]; cbn [bind] in H; [|discriminate].
  exists xv, yv. split; [reflexivity|].
  destruct (py_max xv); cbn [bind] in H; [|discriminate].
  destruct (py_min xv); cbn [bind] in H; [|discriminate].
  destruct (py_max yv); cbn [bind] in H; [|discriminate].
  destruct (py_min yv); cbn [bind] in H; [|discriminate].
  destruct (py_index xv 0); cbn [bind] in H; [|discriminate].
  destruct (py_last xv); cbn [bind] in H; [|discriminate].
  unfold py_index in H.
  destruct (nth_error yv 1) eqn:Hv; [|discriminate].
  apply nth_error_Some. rewrite Hv. discriminate.
Qed.

(** C10. A tabular file loads only when it has at least two rows of data.
    With one well-formed row the load raises the index error of [y_vals[1]];
    with none it raises the error of [max] on an empty list.  Neither is one
    of the two errors the loader raises itself. *)
Theorem from_csv_needs_two_rows :
  forall (path : string) (name mol : option string) (header_size : Z)
         (lines : list string),
    (forall s, from_csv path name mol header_size lines = Ok s ->
               (2 <= List.length (data_rows header_size lines))%nat) /\
    (Forall (fun raw => row_ok raw = true) (data_rows header_size lines) ->
     List.length (data_rows header_size lines) = 1%nat ->
     from_csv path name mol header_size lines
     = Raise (IndexError "list index out of range")) /\
    (List.length (data_rows header_size lines) = 0%nat ->
     from_csv path name mol header_size lines
     = Raise (ValueError "max() arg is an empty sequence")).
Proof.
  intros path name mol h lines.
  assert (Hgood : Forall (fun raw => row_ok raw = true) (data_rows h lines) ->
                  Forall (fun raw => is_blank raw = true \/ row_ok raw = true)
                         (skipn (Z.to_nat h) lines)).
  { unfold data_rows. rewrite !Forall_forall. intros Hall raw Hin.
    destruct (is_blank raw) eqn:Hb; [now left|right].
    apply Hall, filter_In. split; [exact Hin|]. now rewrite Hb. }
  split; [|split].
  - intros s H.
    destruct (from_csv_second_row _ _ _ _ _ _ H) as (xs & ys & Hscan & Hys).
    apply csv_scan_lengths in Hscan. cbn [List.length] in Hscan.
    unfold data_rows. lia.
  - intros Hall Hone.
    destruct (csv_scan_ok _ (Hgood Hall) [] []) as (xs & ys & Hscan).
    apply csv_scan_lengths in Hscan as Hlen. cbn [List.length] in Hlen.
    fold (data_rows h lines) in Hlen. rewrite Hone in Hlen.
    unfold from_csv. rewrite Hscan. cbn [bind].
    destruct xs as [|vx [|? ?]], ys as [|vy [|? ?]]; cbn [List.length] in Hlen; try lia.
    reflexivity.
  - intros Hzero.
    assert (Hall : Forall (fun raw => row_ok raw = true) (data_rows h lines)).
    { destruct (data_rows h lines); [constructor|discriminate]. }
    destruct (csv_scan_ok _ (Hgood Hall) [] []) as (xs & ys & Hscan).
    apply csv_scan_lengths in Hscan as Hlen. cbn [List.length] in Hlen.
    fold (data_rows h lines) in Hlen. rewrite Hzero in Hlen.
    unfold from_csv. rewrite Hscan. cbn [bind].
    destruct xs, ys; cbn [List.length] in Hlen; try lia.
    reflexivity.
Qed.

Lemma from_csv_needs_two_rows_witness :
  (exists s, from_csv "mix.csv" None None 1 Examples.two_rows_csv = Ok s /\
             (2 <= List.length (data_rows 1 Examples.two_rows_csv))%nat) /\
  from_csv "mix.csv" None None 1 Examples.one_row_csv
  = Raise (IndexError "list index out of range") /\
  from_csv "mix.csv" None None 1 Examples.no_row_csv
  = Raise (ValueError "max() arg is an empty sequence").
Proof.
  split; [|split].
  - eexists. split.
    + vm_compute. reflexivity.
    + apply (proj1 (from_csv_needs_two_rows "mix.csv" None None 1 Examples.two_rows_csv)
               _ eq_refl).
  - apply (proj1 (proj2 (from_csv_needs_two_rows "mix.csv" None None 1 Examples.one_row_csv))).
    + apply Forall_cons; [reflexivity|]. apply Forall_nil.
    + reflexivity.
  - apply (proj2 (proj2 (from_csv_needs_two_rows "mix.csv" None None 1 Examples.no_row_csv))).
    reflexivity.
Defined.

(** ** Interpolation *)

Lemma increasing_not_nan (l : list F.float) :
  increasing l = true -> (2 <= List.length l)%nat ->
  Forall (fun a => F.is_nan a = false) l.
Proof.
  induction l as [|a [|b l'] IH]; cbn [List.length]; try lia.
  intros H _. cbn [increasing] in H. apply andb_true_iff in H as [Hab Hinc].
  destruct (ltb_not_nan _ _ Hab) as [Ha Hb].
  constructor; [exact Ha|].
  destruct l' as [|c l''].
  - constructor; [exact Hb|constructor].
  - apply IH; [exact Hinc|cbn [List.length]; lia].
Qed.

Lemma decreasing_not_nan (l : list F.float) :
  decreasing l = true -> (2 <= List.length l)%nat ->
  Forall (fun a => F.is_nan a = false) l.
Proof.
  induction l as [|a [|b l'] IH]; cbn [List.length]; try lia.
  intros H _. cbn [decreasing] in H. apply andb_true_iff in H as [Hab Hdec].
  destruct (ltb_not_nan _ _ Hab) as [Hb Ha].
  constructor; [exact Ha|].
  destruct l' as [|c l''].
  - constructor; [exact Hb|constructor].
  - apply IH; [exact Hdec|cbn [List.length]; lia].
Qed.

(** In a decreasing list of two elements or more the last is below the
    first. *)
Lemma decreasing_last (l : list F.float) :
  forall a b d, decreasing (a :: b :: l) = true ->
                F.ltb (last (a :: b :: l) d) a = true.
Proof.
  induction l as [|c l' IH]; intros a b d H; cbn [decreasing] in H;
    apply andb_true_iff in H as [Hab Hdec].
  - exact Hab.
  - change (last (a :: b :: c :: l') d) with (last (b :: c :: l') d).
    apply (ltb_trans _ b); [|exact Hab].
    apply IH. exact Hdec.
Qed.

Lemma last_default (l : list F.float) (d d' : F.float) :
  l <> [] -> last l d = last l d'.
Proof.
  induction l as [|a [|b l'] IH]; intros Hne; [contradiction|reflexivity|].
  change (last (b :: l') d = last (b :: l') d'). apply IH. discriminate.
Qed.

Lemma nth_last (l : list F.float) (d : F.float) :
  nth (List.length l - 1) l d = last l d.
Proof.
  induction l as [|a [|b l'] IH]; [reflexivity|reflexivity|].
  change (last (a :: b :: l') d) with (last (b :: l') d). rewrite <- IH.
  cbn [List.length].
  replace (S (S (List.length l')) - 1)%nat with (S (List.length l')) by lia.
  replace (S (List.length l') - 1)%nat with (List.length l') by lia.
  reflexivity.
Qed.

Lemma forallb_last (p : F.float -> bool) (l : list F.float) (d : F.float) :
  l <> [] -> forallb p l = true -> p (last l d) = true.
Proof.
  induction l as [|a [|b l'] IH]; intros Hne H; [contradiction| |].
  - cbn in H. now apply andb_true_iff in H as [H _].
  - change (last (a :: b :: l') d) with (last (b :: l') d).
    apply IH; [discriminate|]. cbn [forallb] in H.
    now apply andb_true_iff in H as [_ H].
Qed.

(** The scan stops at the index [j] with [arr[j] <= key], and
    [key < arr[j + 1]] unless [j] is the last index. *)
Lemma bracket_spec (key : F.float) (rest : list F.float) :
  forall (prev : F.float) (i : nat),
    F.leb prev key = true ->
    Forall (fun a => F.is_nan a = false) rest ->
    let j := bracket key rest i in
    (i <= j <= i + List.length rest)%nat /\
    F.leb (nth (j - i) (prev :: rest) F.zero) key = true /\
    ((j < i + List.length rest)%nat ->
     F.ltb key (nth (S (j - i)) (prev :: rest) F.zero) = true).
Proof.
  induction rest as [|a rest' IH]; intros prev i Hprev Hnan; cbn [bracket List.length].
  - replace (i - i)%nat with 0%nat by lia. cbn [nth]. repeat split; try lia. exact Hprev.
  - inversion Hnan as [|? ? Ha Hrest]; subst.
    unfold F.geb. destruct (SFleb a key) eqn:Hak.
    + destruct (IH a (S i) Hak Hrest) as (Hj & Hle & Hlt).
      set (j := bracket key rest' (S i)) in *.
      replace (j - i)%nat with (S (j - S i)) by lia. cbn [nth].
      repeat split; try lia; [exact Hle|].
      intros Hlt'. apply Hlt. lia.
    + replace (i - i)%nat with 0%nat by lia. cbn [nth].
      repeat split; try lia; [exact Hprev|].
      intros _. apply not_leb_ltb; [exact Ha| |exact Hak].
      now destruct (leb_not_nan _ _ Hprev).
Qed.

Lemma interp_point_outside (xp fp : list F.float) (v : F.float) :
  xp <> [] -> outside xp v = true ->
  interp_point xp fp F.zero F.zero v = F.zero.
Proof.
  intros Hne Hout. unfold outside in Hout. apply orb_true_iff in Hout.
  destruct xp as [|x0 rest]; [contradiction|].
  assert (Hends : (F.ltb v x0 = true /\ F.ltb v (last (x0 :: rest) x0) = true) \/
                  (F.gtb v x0 = true /\ F.gtb v (last (x0 :: rest) x0) = true)).
  { destruct Hout as [H|H]; [left|right];
      (split; [cbn [forallb] in H; now apply andb_true_iff in H as [H _]
              |now apply forallb_last]). }
  clear Hout. unfold interp_point.
  destruct rest as [|x1 rest'].
  - cbn [last] in Hends. destruct Hends as [[H _]|[H _]].
    + now rewrite H.
    + unfold F.gtb in H; fold F.ltb in H. rewrite (ltb_antisym _ _ H).
      unfold F.gtb; fold F.ltb. now rewrite H.
  - destruct Hends as [[H0 Hl]|[H0 Hl]].
    + destruct (ltb_not_nan _ _ H0) as [-> _].
      unfold F.gtb; fold F.ltb. rewrite (ltb_antisym _ _ Hl). now rewrite H0.
    + unfold F.gtb in Hl; fold F.ltb in Hl. destruct (ltb_not_nan _ _ Hl) as [_ ->].
      unfold F.gtb; fold F.ltb. now rewrite Hl.
Qed.

Lemma interp_point_decreasing (xp fp : list F.float) (v : F.float) :
  decreasing xp = true -> (2 <= List.length xp)%nat -> F.is_nan v = false ->
  interp_point xp fp F.zero F.zero v = F.zero.
Proof.
  intros Hdec Hlen Hv.
  destruct xp as [|x0 [|x1 rest]]; cbn [List.length] in Hlen; try lia.
  pose proof (decreasing_last rest x0 x1 x0 Hdec) as Hlast.
  unfold interp_point. rewrite Hv.
  unfold F.gtb; fold F.ltb. destruct (F.ltb (last (x0 :: x1 :: rest) x0) v) eqn:Hgt; [reflexivity|].
  assert (Hle : F.leb v (last (x0 :: x1 :: rest) x0) = true).
  { apply not_ltb_leb; [|exact Hv|exact Hgt]. now destruct (ltb_not_nan _ _ Hlast). }
  now rewrite (leb_ltb_trans _ _ _ Hle Hlast).
Qed.

(** The value that numpy computes on a segment lies on the line through its
    two ends. *)
Lemma segment_on_line (x0 x1 f0 f1 v : F.float) :
  on_line x0 x1 f0 f1 v (segment x0 x1 f0 f1 v).
Proof.
  unfold on_line, segment. cbv zeta.
  destruct (F.is_nan _); [destruct (_ && _)|]; reflexivity.
Qed.

Lemma on_line_unique (x0 x1 f0 f1 v r r' : F.float) :
  on_line x0 x1 f0 f1 v r -> on_line x0 x1 f0 f1 v r' -> r = r'.
Proof.
  unfold on_line. cbv zeta.
  destruct (F.is_nan _); [destruct (_ && _)|]; congruence.
Qed.

Lemma interp_point_increasing (xp fp : list F.float) (v : F.float) :
  increasing xp = true -> List.length fp = List.length xp -> inside xp v = true ->
  interpolant xp fp v (interp_point xp fp F.zero F.zero v).
Proof.
  intros Hinc Hlen Hin.
  destruct xp as [|x0 rest]; [discriminate|].
  cbn [inside] in Hin. apply andb_true_iff in Hin as [Hlo Hhi].
  destruct rest as [|x1 rest'].
  - right. cbn [last] in *. unfold interp_point, F.gtb; fold F.ltb.
    rewrite (leb_ltb_false _ _ Hlo), (leb_ltb_false _ _ Hhi).
    split; [now apply leb_antisym|].
    destruct fp as [|f0 [|f1 fp']]; try discriminate. reflexivity.
  - assert (Hnan : Forall (fun a => F.is_nan a = false) (x1 :: rest')).
    { assert (H : Forall (fun a => F.is_nan a = false) (x0 :: x1 :: rest'))
        by (apply increasing_not_nan; [exact Hinc|cbn [List.length]; lia]).
      now inversion H. }
    destruct (leb_not_nan _ _ Hlo) as [_ Hv].
    unfold interp_point. rewrite Hv.
    set (xp := x0 :: x1 :: rest') in *.
    unfold F.gtb; fold F.ltb. rewrite (leb_ltb_false _ _ Hhi), (leb_ltb_false _ _ Hlo).
    destruct (bracket_spec v (x1 :: rest') x0 0 Hlo Hnan) as (Hj & Hle & Hlt).
    set (j := bracket v (x1 :: rest') 0) in *.
    rewrite Nat.sub_0_r in Hle, Hlt. fold xp in Hle, Hlt.
    cbn [plus] in Hj, Hlt.
    assert (Hxp : List.length xp = S (List.length (x1 :: rest'))) by reflexivity.
    destruct (Nat.eqb_spec j (List.length xp - 1)) as [Hend|Hmid].
    + right. rewrite Hend in Hle |- *. rewrite nth_last in Hle.
      rewrite (last_default xp x0 F.zero) in Hhi by discriminate.
      split; [now apply leb_antisym|].
      rewrite <- Hlen. apply nth_last.
    + left. exists j. split; [lia|]. split; [exact Hle|]. split; [apply Hlt; lia|].
      destruct (F.eqb (nth j xp F.zero) v); [reflexivity|apply segment_on_line].
Qed.

Lemma increasing_nth (l : list F.float) :
  increasing l = true ->
  forall i j, (i < j)%nat -> (j < List.length l)%nat ->
              F.ltb (nth i l F.zero) (nth j l F.zero) = true.
Proof.
  induction l as [|a [|b l'] IH]; intros Hinc i j Hij Hj; cbn [List.length] in Hj;
    try lia.
  cbn [increasing] in Hinc. apply andb_true_iff in Hinc as [Hab Hinc].
  destruct j as [|j']; [lia|]. destruct i as [|i'].
  - cbn [nth]. destruct j' as [|j'']; [exact Hab|].
    apply (ltb_trans _ b); [exact Hab|].
    apply (IH Hinc 0%nat (S j'')); cbn [List.length]; lia.
  - change (F.ltb (nth i' (b :: l') F.zero) (nth j' (b :: l') F.zero) = true).
    apply (IH Hinc); cbn [List.length]; lia.
Qed.

Lemma eqb_leb (a b : F.float) : F.eqb a b = true -> F.leb a b = true.
Proof.
  unfold F.eqb, F.leb, SFeqb, SFleb. destruct (SFcompare a b) as [[]|]; congruence.
Qed.

(** A point at or above a sample point of an increasing list is below no
    earlier one. *)
Lemma increasing_below (l : list F.float) (v : F.float) (i j : nat) :
  increasing l = true -> (i <= j)%nat -> (j < List.length l)%nat ->
  F.leb (nth j l F.zero) v = true -> F.ltb v (nth i l F.zero) = true -> False.
Proof.
  intros Hinc Hij Hj Hle Hlt.
  destruct (Nat.eq_dec i j) as [->|Hne].
  - rewrite (ltb_leb_false _ _ Hlt) in Hle. discriminate.
  - assert (H : F.ltb v (nth j l F.zero) = true).
    { apply (ltb_trans _ (nth i l F.zero)); [exact Hlt|].
      apply increasing_nth; [exact Hinc|lia|exact Hj]. }
    rewrite (ltb_leb_false _ _ H) in Hle. discriminate.
Qed.

(** On increasing sample points the interpolant has one value at a point. *)
Lemma interpolant_unique (xp fp : list F.float) (v r r' : F.float) :
  increasing xp = true ->
  interpolant xp fp v r -> interpolant xp fp v r' -> r = r'.
Proof.
  intros Hinc [(j & Hj & Hle & Hlt & Hr)|[Hend ->]]
              [(j' & Hj' & Hle' & Hlt' & Hr')|[Hend' ->]].
  - destruct (Nat.lt_trichotomy j j') as [H|[<-|H]].
    + exfalso. apply (increasing_below xp v (S j) j'); auto; lia.
    + destruct (F.eqb (nth j xp F.zero) v); [congruence|].
      apply (on_line_unique _ _ _ _ _ _ _ Hr Hr').
    + exfalso. apply (increasing_below xp v (S j') j); auto; lia.
  - exfalso. rewrite <- nth_last in Hend'.
    apply (increasing_below xp v (S j) (List.length xp - 1)); auto; try lia.
    now apply eqb_leb.
  - exfalso. rewrite <- nth_last in Hend.
    apply (increasing_below xp v (S j') (List.length xp - 1)); auto; try lia.
    now apply eqb_leb.
  - reflexivity.
Qed.

Section Interpolation.

Variable np_log10 : F.float -> F.float.

(** X22. When a reference is interpolated onto a grid, the result has one
    value for each grid point.  At a point strictly outside the range of the
    reference's abscissae the value is exactly 0.0.  When the abscissae
    strictly increase, the value at a point between the first and the last
    of them is that of the piecewise-linear interpolant of the reference's
    absorbances: the ordinate of a sample at its abscissa, and between two
    samples the value of the line through them. *)
Theorem interpolate_to_values :
  forall (sample_x : list F.float) (ref : Spectrum) (ys : list F.float),
    interpolate_to np_log10 sample_x ref = Ok ys ->
    exists fp : list F.float,
      get_y_absorbance np_log10 ref = Ok fp /\
      List.length fp = List.length (x ref) /\
      List.length ys = List.length sample_x /\
      forall (k : nat) (v : F.float),
        nth_error sample_x k = Some v ->
        exists r : F.float,
          nth_error ys k = Some r /\
          (outside (x ref) v = true -> r = F.zero) /\
          (increasing (x ref) = true -> inside (x ref) v = true ->
           interpolant (x ref) fp v r).
Proof.
  intros sample_x ref ys H. unfold interpolate_to in H.
  destruct (get_y_absorbance np_log10 ref) as [fp|e]; cbn [bind] in H; [|discriminate].
  unfold np_interp in H.
  destruct (Nat.eqb_spec (List.length (x ref)) 0) as [|Hne]; [discriminate|].
  destruct (Nat.eqb_spec (List.length fp) (List.length (x ref))) as [Hlen|];
    cbn [negb] in H; [|discriminate].
  injection H as <-.
  exists fp. split; [reflexivity|]. split; [exact Hlen|].
  split; [apply length_map|].
  intros k v Hk. exists (interp_point (x ref) fp F.zero F.zero v).
  split; [rewrite nth_error_map, Hk; reflexivity|].
  split.
  - apply interp_point_outside. intros Hnil. now rewrite Hnil in Hne.
  - intros Hinc Hin. now apply interp_point_increasing.
Qed.

End Interpolation.

(** C5. Grid interpolation on a reference whose abscissae decrease, as a
    structured file with a negative [DELTAX] gives them (3, 2, 1 with the
    absorbances 0.5, 0.25, 0.5).  At the grid points 2 and 2.5, both inside
    the range of the reference, the interpolation gives 0.0, where the
    reference holds 0.25 at 2 and the line through (3, 0.5) and (2, 0.25)
    has the value 0.375 at 2.5: the reference is handed to [np.interp] with
    its abscissae as they are, and every grid point is then above the last
    of them or below the first. *)
Theorem interpolate_to_descending_is_zero :
  exists ref : Spectrum,
    from_jdx default_config "co2.jdx" Examples.descending_jdx = Ok ref /\
    x ref = map Examples.f ["3.0"; "2.0"; "1.0"] /\
    get_y_absorbance Examples.log10 ref = Ok (map Examples.f ["0.5"; "0.25"; "0.5"]) /\
    decreasing (x ref) = true /\
    inside (rev (x ref)) (Examples.f "2.0") = true /\
    inside (rev (x ref)) (Examples.f "2.5") = true /\
    interpolate_to Examples.log10 (map Examples.f ["2.0"; "2.5"]) ref
    = Ok [F.zero; F.zero] /\
    on_line (Examples.f "3.0") (Examples.f "2.0") (Examples.f "0.5") (Examples.f "0.25")
            (Examples.f "2.5") (Examples.f "0.375") /\
    F.eqb (Examples.f "0.375") F.zero = false /\
    F.eqb (Examples.f "0.25") F.zero = false.
Proof.
  eexists. split; [vm_compute; reflexivity|]. vm_compute. auto 12.
Qed.

(** The defect on every reference of two points or more whose abscissae
    strictly decrease: the value is 0.0 at every grid point that is a
    number. *)
Lemma interpolate_to_descending (np_log10 : F.float -> F.float)
  (sample_x : list F.float) (ref : Spectrum) (ys : list F.float) :
  interpolate_to np_log10 sample_x ref = Ok ys ->
  decreasing (x ref) = true -> (2 <= List.length (x ref))%nat ->
  Forall2 (fun v r => F.is_nan v = false -> r = F.zero) sample_x ys.
Proof.
  unfold interpolate_to. intros H Hdec Hlen.
  destruct (get_y_absorbance np_log10 ref) as [fp|e]; cbn [bind] in H; [|discriminate].
  unfold np_interp in H.
  destruct (List.length (x ref) =? 0)%nat; [discriminate|].
  destruct (negb _); [discriminate|]. injection H as <-.
  induction sample_x as [|v l IH]; cbn [map]; constructor; [|exact IH].
  now apply interp_point_decreasing.
Qed.

Lemma interpolate_to_values_witness :
  exists (ref : Spectrum) (ys : list F.float),
    from_jdx default_config "water.jdx" Examples.water_jdx = Ok ref /\
    interpolate_to Examples.log10 (map Examples.f ["0.5"; "1.5"; "2.0"; "3.0"; "4.0"]) ref
    = Ok ys /\
    exists fp : list F.float,
      get_y_absorbance Examples.log10 ref = Ok fp /\
      List.length fp = List.length (x ref) /\
      List.length ys = List.length (map Examples.f ["0.5"; "1.5"; "2.0"; "3.0"; "4.0"]) /\
      forall (k : nat) (v : F.float),
        nth_error (map Examples.f ["0.5"; "1.5"; "2.0"; "3.0"; "4.0"]) k = Some v ->
        exists r : F.float,
          nth_error ys k = Some r /\
          (outside (x ref) v = true -> r = F.zero) /\
          (increasing (x ref) = true -> inside (x ref) v = true ->
           interpolant (x ref) fp v r).
Proof.
  do 2 eexists. split; [vm_compute; reflexivity|].
  split; [vm_compute; reflexivity|].
  apply (interpolate_to_values Examples.log10
           (map Examples.f ["0.5"; "1.5"; "2.0"; "3.0"; "4.0"])).
  vm_compute. reflexivity.
Defined.

(** On the reference of the scenario (1, 2, 3 with 0.1, 0.2, 0.3): zero at
    0.5 and at 4, the samples at 2 and at 3, and at 1.5 the value on the
    first segment. *)
Example interpolate_to_water :
  exists ref : Spectrum,
    from_jdx default_config "water.jdx" Examples.water_jdx = Ok ref /\
    interpolate_to Examples.log10 (map Examples.f ["0.5"; "1.5"; "2.0"; "3.0"; "4.0"]) ref
    = Ok [F.zero;
          F.add (F.mul (F.div (F.sub (Examples.f "0.2") (Examples.f "0.1"))
                              (F.sub (Examples.f "2.0") (Examples.f "1.0")))
                       (F.sub (Examples.f "1.5") (Examples.f "1.0")))
                (Examples.f "0.1");
          Examples.f "0.2"; Examples.f "0.3"; F.zero].
Proof. eexists. split; [vm_compute; reflexivity|]. vm_compute. reflexivity. Qed.

(** ** The analysis *)

Lemma bind_run_ok {A B : Type} (m : run A) (k : A -> run B) (t : list event) (b : B) :
  bind_run m k = (t, Ok b) ->
  exists t1 a t2, m = (t1, Ok a) /\ k a = (t2, Ok b) /\ t = (t1 ++ t2)%list.
Proof.
  destruct m as [t1 [a|e]]; cbn [bind_run]; [|discriminate].
  destruct (k a) as [t2 r] eqn:Hk. intros H. injection H as <- ->.
  now exists t1, a, t2.
Qed.

Lemma for_each_ok {A B : Type} (f : A -> run B) (l : list A) :
  forall t bs, for_each f l = (t, Ok bs) ->
               Forall2 (fun a b => exists t', f a = (t', Ok b)) l bs.
Proof.
  induction l as [|a l' IH]; intros t bs H; cbn [for_each] in H.
  - injection H as <- <-. constructor.
  - apply bind_run_ok in H as (t1 & b & t2 & Ha & H & _).
    apply bind_run_ok in H as (t3 & bs' & t4 & Hl & H & _).
    injection H as <- <-. constructor; [now exists t1|]. now apply (IH t3).
Qed.

(** Loading the references records one event for each file, in order, up to
    the first file that fails, and nothing else. *)
Lemma load_references_trace (cfg : Config) (files : list (string * list string)) :
  forall t r,
    for_each (fun f => bind_run (emit (LoadReference (fst f)))
                         (fun _ => lift (from_jdx cfg (fst f) (snd f)))) files = (t, r) ->
    Forall is_load t /\
    (forall refs, r = Ok refs -> t = map LoadReference (map fst files)).
Proof.
  induction files as [|f files' IH]; intros t r H; cbn [for_each] in H.
  - injection H as <- <-. split; [constructor|reflexivity].
  - cbn [bind_run emit lift] in H.
    destruct (from_jdx cfg (fst f) (snd f)) as [s|e].
    + cbn [app] in H.
      destruct (for_each _ files') as [t' r'] eqn:Hrest.
      destruct (IH t' r' eq_refl) as [Hload Hall].
      destruct r' as [refs'|e']; cbn [bind_run ret] in H; injection H as <- <-.
      * rewrite app_nil_r. split.
        -- repeat constructor. exact Hload.
        -- intros refs _. cbn [map]. f_equal. now apply (Hall refs').
      * split; [|discriminate]. repeat constructor. exact Hload.
    + injection H as <- <-. split; [|discriminate]. repeat constructor.
Qed.

Lemma get_references_trace (cfg : Config) (files : list (string * list string)) :
  forall t r,
    get_references cfg files = (t, r) ->
    Forall is_load t /\
    (forall refs, r = Ok refs -> t = map LoadReference (map fst files)).
Proof.
  intros t r H. destruct files as [|f files'].
  - cbn in H. injection H as <- <-. split; [constructor|discriminate].
  - apply (load_references_trace cfg (f :: files')). exact H.
Qed.

Lemma validate_mismatch (cfg : Config) :
  manual_mismatch cfg -> exists msg, validate cfg = Raise (ValueError msg).
Proof.
  intros [Hm Hn]. unfold validate. rewrite Hm.
  destruct (list_truthy (selected_ref_names cfg)); cbn [negb].
  - destruct Hn as [Hn|Hn]; [discriminate|].
    destruct (Nat.eqb_spec (opt_len (ref_multiplier cfg)) (opt_len (selected_ref_names cfg)));
      [contradiction|]. cbn [negb]. eexists. reflexivity.
  - eexists. reflexivity.
Qed.

Lemma clip_not_negative (v : F.float) : not_negative (np_maximum v F.zero).
Proof.
  unfold not_negative, np_maximum.
  destruct v as [[]|[]| |[] m e]; cbn; split; intros; reflexivity || discriminate.
Qed.

Lemma clip_clamped (m0 : list F.float) : Forall2 clamped m0 (np_clip0 m0).
Proof.
  unfold np_clip0. induction m0 as [|v m0 IH]; cbn [map]; constructor; [|exact IH].
  unfold clamped, np_maximum.
  destruct v as [[]|[]| |[] m e]; cbn; auto 6.
Qed.

(** The clamp on a negative zero, a NaN, a negative and a positive number. *)
Example np_clip0_values :
  np_clip0 [S754_zero true; F.nan; Examples.f "-1.5"; Examples.f "2.0"]
  = [F.zero; F.nan; F.zero; Examples.f "2.0"].
Proof. vm_compute. reflexivity. Qed.

Lemma Forall2_right {A B : Type} (P : B -> Prop) (R : A -> B -> Prop)
  (l : list A) (l' : list B) :
  (forall a b, R a b -> P b) -> Forall2 R l l' -> Forall P l'.
Proof. intros HR H. induction H; constructor; eauto. Qed.

Lemma lift_ok {A : Type} (r : result A) (t : list event) (a : A) :
  lift r = (t, Ok a) -> r = Ok a.
Proof. unfold lift. intros H. now injection H. Qed.


Section Analysis.

Variable np_log10 : F.float -> F.float.
Variable np_sum : list F.float -> F.float.
Variable np_matvec : list (list F.float) -> list F.float -> list F.float.
Variable np_lstsq :
  list (list F.float) -> list F.float -> result (list F.float * list F.float).

(** C3. With manual multipliers that do not match the selected names, the
    analysis first loads the references.  It then fails: with the error of
    the first reference that does not load (or of an empty reference
    directory), and otherwise, every reference loaded, with the validation
    error.  In either case it has done nothing but load references: no
    baseline correction, no least-squares solve, no drawing. *)
Theorem analyze_spectrum_validates_after_loading :
  forall (cfg : Config) (ref_files : list (string * list string))
         (samples : list Spectrum),
    manual_mismatch cfg ->
    exists (t : list event) (e : exn),
      analyze_spectrum np_log10 np_sum np_matvec np_lstsq cfg ref_files samples
      = (t, Raise e) /\
      Forall is_load t /\
      ((exists refs, get_references cfg ref_files = (t, Ok refs) /\
                     t = map LoadReference (map fst ref_files) /\
                     validate cfg = Raise e /\
                     exists msg, e = ValueError msg) \/
       get_references cfg ref_files = (t, Raise e)).
Proof.
  intros cfg ref_files samples Hmis.
  destruct (validate_mismatch cfg Hmis) as [msg Hval].
  unfold analyze_spectrum.
  destruct (get_references cfg ref_files) as [t [refs|e]] eqn:Hrefs.
  - destruct (get_references_trace _ _ _ _ Hrefs) as [Hload Hall].
    exists t, (ValueError msg). cbn [bind_run lift]. rewrite Hval.
    cbn [bind_run]. rewrite app_nil_r. split; [reflexivity|]. split; [exact Hload|].
    left. exists refs. split; [reflexivity|]. split; [now apply (Hall refs)|].
    split; [reflexivity|]. now exists msg.
  - destruct (get_references_trace _ _ _ _ Hrefs) as [Hload _].
    exists t, e. cbn [bind_run]. split; [reflexivity|]. split; [exact Hload|].
    right. reflexivity.
Qed.

(** The steps of the solve branch on a call that returns. *)
Lemma solve_inv (cfg : Config) (ref_data : list Spectrum) (s : Spectrum)
  (t : list event) (m : list F.float) (r2 : F.float) :
  solve np_log10 np_sum np_matvec np_lstsq cfg ref_data s = (t, Ok (m, r2)) ->
  exists A ya m0 res,
    mapM (interpolate_to np_log10 (x s)) ref_data = Ok A /\ ref_data <> [] /\
    get_y_absorbance np_log10 s = Ok ya /\
    np_lstsq A ya = Ok (m0, res) /\
    m = (if clamp_negative_multipliers cfg then np_clip0 m0 else m0) /\
    t = [LeastSquares (title s)].
Proof.
  unfold solve. intros H.
  apply bind_run_ok in H as (? & cols & ? & Hcols & H & ->).
  apply bind_run_ok in H as (? & A & ? & HA & H & ->).
  apply bind_run_ok in H as (? & ya & ? & Hya & H & ->).
  apply bind_run_ok in H as (? & ? & ? & He & H & ->).
  apply bind_run_ok in H as (? & [m0 res] & ? & Hsolve & H & ->).
  apply bind_run_ok in H as (? & ss_res & ? & Hres & H & ->).
  injection H as <- <- _.
  injection Hcols as <- Hcols. injection HA as <- HA. injection Hya as <- Hya.
  injection He as <-. injection Hsolve as <- Hsolve. injection Hres as <- _.
  unfold column_stack in HA. destruct cols as [|c cols']; [discriminate|].
  injection HA as <-. exists (c :: cols'), ya, m0, res.
  split; [exact Hcols|]. split.
  { intros ->. discriminate. }
  repeat (split; [assumption || reflexivity|]). reflexivity.
Qed.

(** The steps of the loop body on a sample whose analysis returns. *)
Lemma analyze_sample_inv (cfg : Config) (ref_data : list Spectrum) (s : Spectrum)
  (t : list event) (fit : Fit) :
  analyze_sample np_log10 np_sum np_matvec np_lstsq cfg ref_data s = (t, Ok fit) ->
  exists ya,
    (if baseline_correction_use cfg
     then correct_linear_baseline np_log10 np_sum cfg s = Ok (fit_sample fit)
     else fit_sample fit = s) /\
    (ref_multiplier cfg = None ->
     exists A m0 res,
       mapM (interpolate_to np_log10 (x (fit_sample fit))) ref_data = Ok A /\
       ref_data <> [] /\ np_lstsq A ya = Ok (m0, res)) /\
    get_y_absorbance np_log10 (fit_sample fit) = Ok ya /\
    fit_pairs fit = sort_desc (combine ref_data (fit_multipliers fit)) /\
    accumulate np_log10 (x (fit_sample fit)) (fit_pairs fit) (map (fun _ => F.zero) ya)
    = Ok (fit_combined fit) /\
    t = ((if baseline_correction_use cfg then [BaselineCorrection (title s)] else [])
         ++ (match ref_multiplier cfg with
             | None => [LeastSquares (title (fit_sample fit))]
             | Some _ => []
             end)
         ++ [Show (title (fit_sample fit))])%list.
Proof.
  unfold analyze_sample. intros H.
  apply bind_run_ok in H as (t1 & s' & ? & Hs & H & ->).
  apply bind_run_ok in H as (t2 & [m r2] & ? & Hm & H & ->).
  apply bind_run_ok in H as (? & ya & ? & Hya & H & ->).
  apply bind_run_ok in H as (? & combined & ? & Hacc & H & ->).
  apply bind_run_ok in H as (? & ? & ? & He & H & ->).
  injection H as <- <-. injection Hya as <- Hya. injection Hacc as <- Hacc.
  injection He as <-. cbn [fit_sample fit_multipliers fit_pairs fit_combined].
  exists ya. cbn [app].
  assert (Hbase : (if baseline_correction_use cfg
                   then correct_linear_baseline np_log10 np_sum cfg s = Ok s'
                   else s' = s) /\
                  t1 = if baseline_correction_use cfg
                       then [BaselineCorrection (title s)] else []).
  { destruct (baseline_correction_use cfg).
    - cbn [bind_run emit lift] in Hs. destruct (correct_linear_baseline _ _ _ s);
        [|discriminate]. injection Hs as <- <-. split; reflexivity.
    - injection Hs as <- <-. split; reflexivity. }
  destruct Hbase as [Hbase ->]. split; [exact Hbase|].
  assert (Hmode : (ref_multiplier cfg = None ->
                   exists A m0 res,
                     mapM (interpolate_to np_log10 (x s')) ref_data = Ok A /\
                     ref_data <> [] /\ np_lstsq A ya = Ok (m0, res)) /\
                  t2 = match ref_multiplier cfg with
                       | None => [LeastSquares (title s')]
                       | Some _ => []
                       end).
  { destruct (ref_multiplier cfg) as [m'|].
    - injection Hm as <- _ _. split; [discriminate|reflexivity].
    - apply bind_run_ok in Hm as (? & [m0 r0] & ? & Hsolve & Hm & ->).
      injection Hm as <- _ _. rewrite app_nil_r.
      destruct (solve_inv _ _ _ _ _ _ Hsolve)
        as (A & ya' & m1 & res & HA & Hne & Hya' & Hls & _ & ->).
      split; [|reflexivity]. intros _. exists A, m1, res.
      rewrite Hya in Hya'. injection Hya' as <-. auto. }
  destruct Hmode as [Hmode ->]. split; [exact Hmode|].
  repeat (split; [assumption || reflexivity|]). reflexivity.
Qed.

(** The steps of an analysis that completes. *)
Lemma analyze_spectrum_inv (cfg : Config) (ref_files : list (string * list string))
  (samples : list Spectrum) (t : list event) (fits : list Fit) :
  analyze_spectrum np_log10 np_sum np_matvec np_lstsq cfg ref_files samples
  = (t, Ok fits) ->
  exists refs t',
    get_references cfg ref_files = (map LoadReference (map fst ref_files), Ok refs) /\
    validate cfg = Ok tt /\
    for_each (analyze_sample np_log10 np_sum np_matvec np_lstsq cfg
                (select_references cfg refs)) samples = (t', Ok fits) /\
    t = (map LoadReference (map fst ref_files) ++ t')%list.
Proof.
  unfold analyze_spectrum. intros H.
  apply bind_run_ok in H as (t0 & refs & ? & Hrefs & H & ->).
  apply bind_run_ok in H as (? & [] & t' & Hval & H & ->).
  injection Hval as <- Hval. cbn [app].
  destruct (get_references_trace _ _ _ _ Hrefs) as [_ Ht0].
  rewrite (Ht0 refs eq_refl) in *. now exists refs, t'.
Qed.

(** The multipliers of a fit: the solver's, clamped when the configuration
    says so, or those given by hand. *)
Lemma analyze_sample_multipliers (cfg : Config) (ref_data : list Spectrum)
  (s : Spectrum) (t : list event) (fit : Fit) :
  analyze_sample np_log10 np_sum np_matvec np_lstsq cfg ref_data s = (t, Ok fit) ->
  (ref_multiplier cfg = None ->
   exists A ya m0 res,
     mapM (interpolate_to np_log10 (x (fit_sample fit))) ref_data = Ok A /\
     get_y_absorbance np_log10 (fit_sample fit) = Ok ya /\
     np_lstsq A ya = Ok (m0, res) /\
     fit_multipliers fit
     = if clamp_negative_multipliers cfg then np_clip0 m0 else m0) /\
  (forall m, ref_multiplier cfg = Some m ->
             fit_multipliers fit = m /\ fit_r2 fit = None).
Proof.
  unfold analyze_sample. intros H.
  apply bind_run_ok in H as (? & s' & ? & _ & H & _).
  apply bind_run_ok in H as (? & [m r2] & ? & Hm & H & _).
  apply bind_run_ok in H as (? & ya & ? & _ & H & _).
  apply bind_run_ok in H as (? & combined & ? & _ & H & _).
  apply bind_run_ok in H as (? & ? & ? & _ & H & _).
  injection H as _ <-. cbn [fit_sample fit_multipliers fit_r2].
  destruct (ref_multiplier cfg) as [m'|].
  - injection Hm as _ <- <-. split; [discriminate|].
    intros ? [= <-]. split; reflexivity.
  - split; [|discriminate]. intros _.
    apply bind_run_ok in Hm as (? & [m0 r0] & ? & Hsolve & Hm & _).
    injection Hm as _ <- _.
    destruct (solve_inv _ _ _ _ _ _ Hsolve)
      as (A & ya' & m1 & res & HA & _ & Hya & Hls & Hmult & _).
    now exists A, ya', m1, res.
Qed.

(** C6. In an analysis that completes there is one fit for each sample.
    When the multipliers are solved for and clamping is on, the multipliers
    of a fit are the solution that the solver gives for the selected
    references, interpolated onto the abscissae of the sample, against the
    absorbances of the sample, passed through the clamp: a multiplier is
    the solver's when that is above zero, 0.0 when the solver's is zero or
    below, and NaN when the solver's is NaN.  So no multiplier is below
    zero, and each is at least zero unless it is NaN.  When the multipliers
    are given by hand, every fit holds them as given, unclamped, and no
    [r2]. *)
Theorem analyze_spectrum_clamps_solved_multipliers :
  forall (cfg : Config) (ref_files : list (string * list string))
         (samples : list Spectrum) (t : list event) (fits : list Fit),
    analyze_spectrum np_log10 np_sum np_matvec np_lstsq cfg ref_files samples
    = (t, Ok fits) ->
    exists refs : list Spectrum,
      get_references cfg ref_files
      = (map LoadReference (map fst ref_files), Ok refs) /\
      (ref_multiplier cfg = None -> clamp_negative_multipliers cfg = true ->
       Forall2 (fun s fit =>
                  (if baseline_correction_use cfg
                   then correct_linear_baseline np_log10 np_sum cfg s
                        = Ok (fit_sample fit)
                   else fit_sample fit = s) /\
                  exists A ya m0 res,
                    mapM (interpolate_to np_log10 (x (fit_sample fit)))
                         (select_references cfg refs) = Ok A /\
                    get_y_absorbance np_log10 (fit_sample fit) = Ok ya /\
                    np_lstsq A ya = Ok (m0, res) /\
                    fit_multipliers fit = np_clip0 m0 /\
                    Forall2 clamped m0 (fit_multipliers fit) /\
                    Forall not_negative (fit_multipliers fit))
               samples fits) /\
      (forall m, ref_multiplier cfg = Some m ->
                 Forall2 (fun s fit => fit_multipliers fit = m /\ fit_r2 fit = None)
                         samples fits).
Proof.
  intros cfg ref_files samples t fits H.
  destruct (analyze_spectrum_inv _ _ _ _ _ H) as (refs & t' & Hrefs & _ & Hloop & _).
  exists refs. split; [exact Hrefs|].
  apply for_each_ok in Hloop. split.
  - intros Hsolve Hclamp. refine (Forall2_impl _ _ Hloop). intros s fit [ts Hs].
    destruct (analyze_sample_inv _ _ _ _ _ Hs) as (ya0 & Hbase & _).
    destruct (analyze_sample_multipliers _ _ _ _ _ Hs) as [Hm _].
    destruct (Hm Hsolve) as (A & ya & m0 & res & HA & Hya & Hls & Hmult).
    rewrite Hclamp in Hmult. split; [exact Hbase|]. exists A, ya, m0, res.
    repeat (split; [assumption|]). rewrite Hmult. split; [apply clip_clamped|].
    unfold np_clip0. apply Forall_map, Forall_forall.
    intros v _. apply clip_not_negative.
  - intros m Hm. refine (Forall2_impl _ _ Hloop). intros s fit [ts Hs].
    destruct (analyze_sample_multipliers _ _ _ _ _ Hs) as [_ Hfit]. now apply Hfit.
Qed.

End Analysis.

(** C3 as first stated fails: with two multipliers for one name the
    reference is loaded before the validation error is raised; when the
    reference does not load, the error raised is that of the load; and an
    empty list of multipliers for one name raises no error at all. *)
Lemma analyze_spectrum_loads_before_validating :
  manual_mismatch Examples.mismatched_config /\
  analyze_spectrum Examples.log10 Examples.sum Examples.matvec Examples.lstsq
    Examples.mismatched_config Examples.references [Examples.sample]
  = ([LoadReference "data/reference/water.jdx"],
     Raise (ValueError
       "selected_ref_names must have the same length as ref_multiplier, specifying which reference spectrum each multiplier corresponds to.")) /\
  analyze_spectrum Examples.log10 Examples.sum Examples.matvec Examples.lstsq
    Examples.mismatched_config Examples.broken_references [Examples.sample]
  = ([LoadReference "data/reference/water.jdx"],
     Raise (ValueError "Could not parse firstx in data/reference/water.jdx")) /\
  opt_len (ref_multiplier Examples.empty_manual_config)
  <> opt_len (selected_ref_names Examples.empty_manual_config) /\
  exists fits,
    analyze_spectrum Examples.log10 Examples.sum Examples.matvec Examples.lstsq
      Examples.empty_manual_config Examples.references [Examples.sample]
    = ([LoadReference "data/reference/water.jdx"; Show (Some "mix")], Ok fits).
Proof.
  split; [|split; [|split; [|split]]].
  - split; [reflexivity|]. right. cbn. discriminate.
  - vm_compute. reflexivity.
  - vm_compute. reflexivity.
  - cbn. discriminate.
  - eexists. vm_compute. reflexivity.
Qed.

Lemma analyze_spectrum_validates_after_loading_witness :
  exists (t : list event) (e : exn),
    analyze_spectrum Examples.log10 Examples.sum Examples.matvec Examples.lstsq
      Examples.mismatched_config Examples.references [Examples.sample]
    = (t, Raise e) /\
    Forall is_load t /\
    ((exists refs, get_references Examples.mismatched_config Examples.references
                   = (t, Ok refs) /\
                   t = map LoadReference (map fst Examples.references) /\
                   validate Examples.mismatched_config = Raise e /\
                   exists msg, e = ValueError msg) \/
     get_references Examples.mismatched_config Examples.references = (t, Raise e)).
Proof.
  apply (analyze_spectrum_validates_after_loading
           Examples.log10 Examples.sum Examples.matvec Examples.lstsq
           Examples.mismatched_config Examples.references [Examples.sample]).
  split; [reflexivity|]. right. cbn. discriminate.
Defined.

(** C6 as first stated fails: a sample with an ordinate that is NaN (a row
    [2.0,nan] of its file) makes the solution NaN, the clamp passes it
    through, and a NaN is not greater than or equal to zero. *)
Lemma analyze_spectrum_multiplier_nan :
  ref_multiplier Examples.solve_config = None /\
  clamp_negative_multipliers Examples.solve_config = true /\
  exists (t : list event) (fit : Fit),
    analyze_spectrum Examples.log10 Examples.sum Examples.matvec Examples.lstsq
      Examples.solve_config Examples.references [Examples.nan_sample]
    = (t, Ok [fit]) /\
    fit_multipliers fit = [F.nan] /\
    F.leb F.zero F.nan = false.
Proof.
  split; [reflexivity|]. split; [reflexivity|].
  do 2 eexists. split; [vm_compute; reflexivity|]. split; reflexivity.
Qed.

Lemma analyze_spectrum_clamps_solved_multipliers_witness :
  exists (t : list event) (fits : list Fit),
    analyze_spectrum Examples.log10 Examples.sum Examples.matvec Examples.lstsq
      Examples.solve_config Examples.references [Examples.sample]
    = (t, Ok fits) /\
    exists refs : list Spectrum,
      get_references Examples.solve_config Examples.references
      = (map LoadReference (map fst Examples.references), Ok refs) /\
      (ref_multiplier Examples.solve_config = None ->
       clamp_negative_multipliers Examples.solve_config = true ->
       Forall2 (fun s fit =>
                  (if baseline_correction_use Examples.solve_config
                   then correct_linear_baseline Examples.log10 Examples.sum
                          Examples.solve_config s
                        = Ok (fit_sample fit)
                   else fit_sample fit = s) /\
                  exists A ya m0 res,
                    mapM (interpolate_to Examples.log10 (x (fit_sample fit)))
                         (select_references Examples.solve_config refs) = Ok A /\
                    get_y_absorbance Examples.log10 (fit_sample fit) = Ok ya /\
                    Examples.lstsq A ya = Ok (m0, res) /\
                    fit_multipliers fit = np_clip0 m0 /\
                    Forall2 clamped m0 (fit_multipliers fit) /\
                    Forall not_negative (fit_multipliers fit))
               [Examples.sample] fits) /\
      (forall m, ref_multiplier Examples.solve_config = Some m ->
                 Forall2 (fun s fit => fit_multipliers fit = m /\ fit_r2 fit = None)
                         [Examples.sample] fits).
Proof.
  do 2 eexists. split; [vm_compute; reflexivity|].
  eapply (analyze_spectrum_clamps_solved_multipliers
            Examples.log10 Examples.sum Examples.matvec Examples.lstsq
            Examples.solve_config Examples.references [Examples.sample]).
  vm_compute. reflexivity.
Defined.

(** On the sample of negative absorbances the solved multiplier is clamped
    to zero, and a negative multiplier given by hand is kept. *)
Example analyze_spectrum_solved_and_manual :
  (exists t fit,
      analyze_spectrum Examples.log10 Examples.sum Examples.matvec Examples.lstsq
        Examples.solve_config Examples.references [Examples.sample]
      = (t, Ok [fit]) /\
      fit_multipliers fit = [F.zero]) /\
  (exists t fit,
      analyze_spectrum Examples.log10 Examples.sum Examples.matvec Examples.lstsq
        Examples.manual_config Examples.references [Examples.sample]
      = (t, Ok [fit]) /\
      fit_multipliers fit = [Examples.f "-0.5"] /\ fit_r2 fit = None).
Proof.
  split; do 2 eexists; (split; [vm_compute; reflexivity|]); vm_compute; auto.
Qed.

(** * Further properties *)

(** ** Structured files: what a loaded spectrum holds *)

Lemma chars_of_chars (l : list ascii) : Str.chars (Str.of_chars l) = l.
Proof. apply list_ascii_of_string_of_list_ascii. Qed.

Lemma remove_spaces_no_space (m : string) :
  Str.contains " "%char (Str.remove_spaces m) = false.
Proof.
  unfold Str.contains, Str.remove_spaces. rewrite chars_of_chars.
  induction (Str.chars m) as [|c l IH]; [reflexivity|].
  cbn [filter]. destruct (Ascii.eqb c " "%char) eqn:Hc; cbn [negb]; [exact IH|].
  cbn [existsb]. rewrite IH, Ascii.eqb_sym, Hc. reflexivity.
Qed.

(** The steps of [from_jdx] after the scan of the lines, on a load that
    returns. *)
Lemma from_jdx_inv (cfg : Config) (path : string) (lines : list string)
  (s : Spectrum) :
  from_jdx cfg path lines = Ok s ->
  exists (s0 : Spectrum) (yv : list F.float) (m : string) (xs : list F.float),
    jdx_scan lines empty_spectrum [] = Ok (s0, yv) /\
    check_required (required_fields_in_jdx cfg) path (set_y yv s0) = Ok tt /\
    molform s0 = Some m /\
    generate_x s0 = Ok xs /\
    s = set_y (match yfactor s0 with
               | Some k => if negb (F.eqb k F.one)
                           then map (fun v => F.mul v k) yv else yv
               | None => yv
               end)
          (set_x xs (set_molform (Some (Str.remove_spaces m)) s0)).
Proof.
  intros H. unfold from_jdx in H.
  destruct (jdx_scan lines empty_spectrum []) as [[s0 yv]|e]; cbn [bind] in H;
    [|discriminate].
  destruct (check_required _ _ _) as [[]|] eqn:Hcheck; cbn [bind] in H; [|discriminate].
  proj. destruct (molform s0) as [m|] eqn:Hm; cbn [bind] in H; [|discriminate].
  assert (Hgen : generate_x (set_molform (Some (Str.remove_spaces m)) (set_y yv s0))
                 = generate_x s0) by reflexivity.
  rewrite Hgen in H.
  destruct (generate_x s0) as [xs|] eqn:Hxs; cbn [bind] in H; [|discriminate].
  proj.
  destruct (List.length xs =? 0)%nat; [discriminate|].
  destruct (List.length yv =? 0)%nat; [discriminate|].
  destruct (negb _); [discriminate|].
  exists s0, yv, m, xs. repeat (split; [reflexivity || assumption|]).
  destruct (yfactor s0) as [k|]; [destruct (negb (F.eqb k F.one))|];
    injection H as <-; reflexivity.
Qed.

(** X1. The molecular formula of a structured file that loads is set and
    holds no space character. *)
Theorem from_jdx_molform_no_space :
  forall (cfg : Config) (path : string) (lines : list string) (s : Spectrum),
    from_jdx cfg path lines = Ok s ->
    exists m : string, molform s = Some m /\ Str.contains " "%char m = false.
Proof.
  intros cfg path lines s H.
  destruct (from_jdx_inv _ _ _ _ H) as (s0 & yv & m & xs & _ & _ & _ & _ & ->).
  exists (Str.remove_spaces m). split; [reflexivity|]. apply remove_spaces_no_space.
Qed.

Lemma from_jdx_molform_no_space_witness :
  exists s : Spectrum,
    from_jdx default_config "water.jdx" Examples.water_jdx = Ok s /\
    exists m : string, molform s = Some m /\ Str.contains " "%char m = false.
Proof.
  eexists. split; [vm_compute; reflexivity|].
  apply (from_jdx_molform_no_space default_config "water.jdx" Examples.water_jdx).
  vm_compute. reflexivity.
Defined.

(** The scan of the lines sets metadata only: the arrays of the record stay
    as they were. *)
Lemma jdx_scan_x (lines : list string) :
  forall s yv s' yv', jdx_scan lines s yv = Ok (s', yv') -> x s' = x s.
Proof.
  induction lines as [|raw rest IH]; intros s yv s' yv' H; cbn [jdx_scan] in H.
  - now injection H as <- _.
  - destruct (jdx_header (Str.strip raw) s) as [s1|] eqn:Hh; cbn [bind] in H;
      [|discriminate].
    destruct (jdx_data (Str.strip raw) yv) as [y1|]; cbn [bind] in H; [|discriminate].
    rewrite (IH _ _ _ _ H). unfold jdx_header in Hh.
    destruct (_ && _); [|now injection Hh as <-].
    destruct (Str.split_once _ _) as [label val].
    destruct (keymap _) as [[f|f|]|]; [| | |now injection Hh as <-];
      unfold set_header in Hh.
    + injection Hh as <-. now destruct f.
    + destruct (py_float _); cbn [bind] in Hh; [|discriminate].
      injection Hh as <-. now destruct f.
    + destruct (py_int _); cbn [bind] in Hh; [|discriminate].
      now injection Hh as <-.
Qed.

(** X2. In a structured file that loads, every required name denotes an
    attribute whose value is true: a required number is not zero (and never
    0.0), a required text other than the formula is not empty, a required
    ["y"] is an array of one element, and any other required name is a
    method of the class or an attribute that every instance has and that is
    true.  No file loads while ["x"] is required. *)
Theorem from_jdx_required_fields_true :
  forall (cfg : Config) (path : string) (lines : list string) (s : Spectrum)
         (key : string),
    from_jdx cfg path lines = Ok s ->
    In key (required_fields_in_jdx cfg) ->
    match attribute key with
    | Some (StrField f) =>
        exists t, get_str f s = Some t /\ (f <> f_molform -> t <> "")
    | Some (FloatField f) =>
        exists v, get_float f s = Some v /\ F.eqb v F.zero = false
    | Some IntField => exists n, npoints s = Some n /\ n <> 0
    | None =>
        key <> "x" /\
        ((key = "y" /\ List.length (y s) = 1%nat) \/
         (key <> "y" /\ other_attribute key = Some true))
    end.
Proof.
  intros cfg path lines s key H Hreq.
  destruct (from_jdx_inv _ _ _ _ H) as (s0 & yv & m & xs & Hscan & Hcheck & Hm & _ & ->).
  apply jdx_scan_x in Hscan. cbn in Hscan.
  apply check_required_ok in Hcheck. rewrite Forall_forall in Hcheck.
  specialize (Hcheck _ Hreq). unfold getattr_truthy in Hcheck.
  destruct (attribute key) as [[f|f|]|].
  - injection Hcheck as Hcheck.
    destruct f; cbn [get_str] in *; proj;
      try (match type of Hcheck with
           | match ?o with Some _ => _ | None => _ end = true =>
               destruct o as [t|]; [|discriminate]
           end;
           exists t; split; [reflexivity|]; intros _ Ht; subst t; discriminate).
    eexists. split; [reflexivity|]. intros Hf. contradiction.
  - injection Hcheck as Hcheck.
    destruct f; cbn [get_float] in *; proj;
      (match goal with
       | H : match ?o with Some _ => _ | None => _ end = true |- _ =>
           destruct o as [v|]; [|discriminate]
       end;
       exists v; split; [reflexivity|];
       unfold F.truthy in Hcheck; now apply negb_true_iff in Hcheck).
  - injection Hcheck as Hcheck. proj.
    destruct (npoints s0) as [n|]; [|discriminate].
    exists n. split; [reflexivity|]. apply negb_true_iff, Z.eqb_neq in Hcheck. exact Hcheck.
  - proj. rewrite Hscan in Hcheck.
    destruct (String.eqb_spec key "x") as [->|Hx]; [discriminate|].
    split; [exact Hx|].
    destruct (String.eqb_spec key "y") as [->|Hy].
    + left. split; [reflexivity|]. proj.
      destruct yv as [|v [|? ?]]; try discriminate.
      destruct (yfactor s0) as [k|]; [destruct (negb (F.eqb k F.one))|]; reflexivity.
    + right. split; [exact Hy|].
      destruct (other_attribute key) as [b|]; [|discriminate].
      now injection Hcheck as ->.
Qed.

Lemma from_jdx_required_fields_true_witness :
  exists s : Spectrum,
    from_jdx default_config "water.jdx" Examples.water_jdx = Ok s /\
    exists v, get_float f_deltax s = Some v /\ F.eqb v F.zero = false.
Proof.
  eexists. split; [vm_compute; reflexivity|].
  apply (from_jdx_required_fields_true default_config "water.jdx" Examples.water_jdx
           _ "deltax").
  - vm_compute. reflexivity.
  - cbn. auto 10.
Defined.

(** A method among the required names does not stand in the way of a load;
    [__hash__], which is [None] in a dataclass that defines equality, does. *)
Example from_jdx_requiring_a_method :
  (exists s : Spectrum,
      from_jdx (mkConfig true (Examples.f "0.20") 50 None None true
                         ["title"; "plot"] 1)
               "water.jdx" Examples.water_jdx = Ok s) /\
  from_jdx (mkConfig true (Examples.f "0.20") 50 None None true
                     ["title"; "__hash__"] 1)
           "water.jdx" Examples.water_jdx
  = Raise (ValueError "Could not parse __hash__ in water.jdx").
Proof. split; [eexists|]; vm_compute; reflexivity. Qed.

Lemma mapM_app {A B : Type} (f : A -> result B) (l1 l2 : list A) :
  mapM f (l1 ++ l2)
  = do a <- mapM f l1; do b <- mapM f l2; Ok (a ++ b)%list.
Proof.
  induction l1 as [|u l1 IH]; cbn [app mapM].
  - cbn [bind]. now destruct (mapM f l2).
  - destruct (f u); cbn [bind]; [|reflexivity].
    rewrite IH. destruct (mapM f l1); cbn [bind]; [|reflexivity].
    now destruct (mapM f l2).
Qed.

(** The ordinates gathered by the scan are the numbers of the data tokens,
    in order. *)
Lemma jdx_scan_y (lines : list string) :
  forall s yv s' yv',
    jdx_scan lines s yv = Ok (s', yv') ->
    exists ys, mapM py_float (data_tokens lines) = Ok ys /\ yv' = (yv ++ ys)%list.
Proof.
  induction lines as [|raw rest IH]; intros s yv s' yv' H; cbn [jdx_scan] in H.
  - injection H as _ <-. exists []. split; [reflexivity|]. now rewrite app_nil_r.
  - destruct (jdx_header (Str.strip raw) s) as [s1|]; cbn [bind] in H; [|discriminate].
    destruct (jdx_data (Str.strip raw) yv) as [y1|] eqn:Hd; cbn [bind] in H;
      [|discriminate].
    destruct (IH _ _ _ _ H) as (ys & Hys & ->).
    unfold data_tokens. cbn [flat_map]. fold (data_tokens rest).
    rewrite mapM_app, Hys. unfold jdx_data in Hd.
    destruct (Str.starts_with_digit (Str.strip raw)).
    + destruct (mapM py_float (tl _)) as [y0|]; cbn [bind] in Hd; [|discriminate].
      injection Hd as <-. cbn [bind]. exists (y0 ++ ys)%list.
      split; [reflexivity|]. now rewrite app_assoc.
    + injection Hd as <-. cbn [mapM bind]. now exists ys.
Qed.

(** X3. The ordinates of a structured file that loads are the numbers of
    its data tokens (every token but the first of every line that starts
    with a digit), in the order of the file, each multiplied once by the
    scale factor when one is given and differs from 1.0. *)
Theorem from_jdx_y_from_data_tokens :
  forall (cfg : Config) (path : string) (lines : list string) (s : Spectrum),
    from_jdx cfg path lines = Ok s ->
    exists ys : list F.float,
      mapM py_float (data_tokens lines) = Ok ys /\
      y s = match yfactor s with
            | Some k => if F.eqb k F.one then ys else map (fun v => F.mul v k) ys
            | None => ys
            end.
Proof.
  intros cfg path lines s H.
  destruct (from_jdx_inv _ _ _ _ H) as (s0 & yv & m & xs & Hscan & _ & _ & _ & ->).
  destruct (jdx_scan_y _ _ _ _ _ Hscan) as (ys & Hys & ->). cbn [app].
  exists ys. split; [exact Hys|]. proj.
  destruct (yfactor s0) as [k|]; [destruct (F.eqb k F.one)|]; reflexivity.
Qed.

Lemma from_jdx_y_from_data_tokens_witness :
  exists s : Spectrum,
    from_jdx default_config "water.jdx" Examples.scaled_jdx = Ok s /\
    exists ys : list F.float,
      mapM py_float (data_tokens Examples.scaled_jdx) = Ok ys /\
      y s = match yfactor s with
            | Some k => if F.eqb k F.one then ys else map (fun v => F.mul v k) ys
            | None => ys
            end.
Proof.
  eexists. split; [vm_compute; reflexivity|].
  apply (from_jdx_y_from_data_tokens default_config "water.jdx" Examples.scaled_jdx).
  vm_compute. reflexivity.
Defined.

(** Two data lines and a scale factor of one half: 0.2, 0.4 and 0.6 are
    loaded as 0.1, 0.2 and 0.3. *)
Example from_jdx_scaled :
  exists s : Spectrum,
    from_jdx default_config "water.jdx" Examples.scaled_jdx = Ok s /\
    y s = map Examples.f ["0.1"; "0.2"; "0.3"].
Proof. eexists. split; [vm_compute; reflexivity|]. vm_compute. reflexivity. Qed.

Lemma jdx_scan_noise (raw : string) (rest : list string) (s : Spectrum)
  (yv : list F.float) :
  jdx_noise raw = true -> jdx_scan (raw :: rest) s yv = jdx_scan rest s yv.
Proof.
  unfold jdx_noise. intros H. apply andb_true_iff in H as [Hd Hh].
  apply negb_true_iff in Hd. cbn [jdx_scan]. unfold jdx_header, jdx_data.
  rewrite Hd. apply orb_true_iff in Hh as [Hh|Hh].
  - apply negb_true_iff in Hh. rewrite Hh. reflexivity.
  - destruct (_ && _); [|reflexivity].
    destruct (Str.split_once _ _) as [label val]. cbn [fst] in Hh.
    destruct (keymap _); [discriminate|reflexivity].
Qed.

Lemma jdx_scan_without_noise (before : list string) (raw : string)
  (after : list string) :
  jdx_noise raw = true ->
  forall s yv,
    jdx_scan (before ++ raw :: after) s yv = jdx_scan (before ++ after) s yv.
Proof.
  intros Hn. induction before as [|l before IH]; intros s yv; cbn [app].
  - now apply jdx_scan_noise.
  - cbn [jdx_scan]. destruct (jdx_header _ s); cbn [bind]; [|reflexivity].
    destruct (jdx_data _ yv); cbn [bind]; [|reflexivity]. apply IH.
Qed.

(** X4. A line of a structured file that does not start with a digit and is
    no header line with a known label (a comment, a header with another
    label, a data line whose first token is negative) is passed over: the
    file loads, or fails, as it does without the line. *)
Theorem from_jdx_passes_over_noise :
  forall (cfg : Config) (path : string) (before : list string) (raw : string)
         (after : list string),
    jdx_noise raw = true ->
    from_jdx cfg path (before ++ raw :: after) = from_jdx cfg path (before ++ after).
Proof.
  intros cfg path before raw after Hn. unfold from_jdx.
  now rewrite (jdx_scan_without_noise before raw after Hn).
Qed.

Lemma from_jdx_passes_over_noise_witness :
  from_jdx default_config "water.jdx"
    (["##TITLE=Water"; "##MOLFORM=H2 O"; "##YUNITS=ABSORBANCE"; "##FIRSTX=1.0";
      "##DELTAX=1.0"; "##NPOINTS=3"] ++ "-1.0 0.7 0.8 0.9"
       :: ["1.0 0.1 0.2 0.3"; "##END="])
  = from_jdx default_config "water.jdx"
      (["##TITLE=Water"; "##MOLFORM=H2 O"; "##YUNITS=ABSORBANCE"; "##FIRSTX=1.0";
        "##DELTAX=1.0"; "##NPOINTS=3"] ++ ["1.0 0.1 0.2 0.3"; "##END="]).
Proof.
  apply (from_jdx_passes_over_noise default_config "water.jdx").
  reflexivity.
Defined.

(** With a comment, an unknown label and a data line that starts with a
    minus sign, the file of the scenario loads as before. *)
Example from_jdx_noisy :
  from_jdx default_config "water.jdx" Examples.noisy_jdx
  = from_jdx default_config "water.jdx" Examples.water_jdx.
Proof. vm_compute. reflexivity. Qed.

(** ** Tabular files: what a loaded spectrum holds *)

(** The steps of [from_csv] after the scan of the rows, on a load that
    returns. *)
Lemma from_csv_inv (path : string) (name mol : option string) (header_size : Z)
  (lines : list string) (s : Spectrum) :
  from_csv path name mol header_size lines = Ok s ->
  exists hi lo yhi ylo first last second,
    csv_scan (skipn (Z.to_nat header_size) lines) [] [] = Ok (x s, y s) /\
    py_max (x s) = Ok hi /\ py_min (x s) = Ok lo /\
    py_max (y s) = Ok yhi /\ py_min (y s) = Ok ylo /\
    nth_error (x s) 0 = Some first /\ py_last (x s) = Ok last /\
    nth_error (y s) 1 = Some second /\
    maxx s = Some hi /\ minx s = Some lo /\ maxy s = Some yhi /\ miny s = Some ylo /\
    firstx s = Some first /\ lastx s = Some last /\ firsty s = Some second /\
    npoints s = Some (Z.of_nat (List.length (x s))) /\
    xunits s = Some "1/cm" /\ yunits s = Some "ABSORBANCE" /\
    title s = (if opt_truthy name then name
               else Some (splitext_root (basename path))) /\
    molform s = (if opt_truthy mol then mol else None).
Proof.
  intros H. unfold from_csv in H.
  destruct (csv_scan _ [] []) as [[xv yv]|e]; cbn [bind] in H; [|discriminate].
  destruct (py_max xv) as [a1|] eqn:H1; cbn [bind] in H; [|discriminate].
  destruct (py_min xv) as [a2|] eqn:H2; cbn [bind] in H; [|discriminate].
  destruct (py_max yv) as [a3|] eqn:H3; cbn [bind] in H; [|discriminate].
  destruct (py_min yv) as [a4|] eqn:H4; cbn [bind] in H; [|discriminate].
  unfold py_index in H.
  destruct (nth_error xv 0) as [a5|] eqn:H5; cbn [bind] in H; [|discriminate].
  destruct (py_last xv) as [a6|] eqn:H6; cbn [bind] in H; [|discriminate].
  destruct (nth_error yv 1) as [a7|] eqn:H7; cbn [bind] in H; [|discriminate].
  injection H as <-. exists a1, a2, a3, a4, a5, a6, a7.
  destruct (opt_truthy name), (opt_truthy mol); proj; auto 25.
Qed.

(** The scan of the rows appends one point for each row that is not blank. *)
Lemma csv_scan_points (lines : list string) :
  forall xs ys xs' ys',
    csv_scan lines xs ys = Ok (xs', ys') ->
    exists pts : list (F.float * F.float),
      Forall2 row_point (filter (fun raw => negb (is_blank raw)) lines) pts /\
      xs' = (xs ++ map fst pts)%list /\ ys' = (ys ++ map snd pts)%list.
Proof.
  induction lines as [|raw rest IH]; intros xs ys xs' ys' H; cbn [csv_scan] in H.
  - injection H as <- <-. exists []. cbn. rewrite !app_nil_r. auto.
  - cbn [filter]. destruct (is_blank raw) eqn:Hb; cbn [negb].
    + rewrite (csv_row_blank _ Hb) in H. cbn [bind] in H. apply (IH _ _ _ _ H).
    + unfold is_blank in Hb.
      destruct (csv_row raw) as [[[vx vy]|]|e] eqn:Hr; cbn [bind] in H;
        [| |discriminate]; unfold csv_row in Hr; rewrite Hb in Hr;
        destruct (Str.split _ _) as [|p0 [|p1 r]] eqn:Hs; try discriminate;
        destruct (py_float p0) as [v0|] eqn:H0; try discriminate;
        destruct (py_float p1) as [v1|] eqn:H1; try discriminate.
      injection Hr as <- <-.
      destruct (IH _ _ _ _ H) as (pts & Hpts & -> & ->).
      exists ((v0, v1) :: pts). split; [|cbn [map fst snd]; now rewrite <- !app_assoc].
      constructor; [|exact Hpts]. now exists p0, p1, r.
Qed.

Lemma combine_fst_snd {A B : Type} (l : list (A * B)) :
  combine (map fst l) (map snd l) = l.
Proof. induction l as [|[a b] l IH]; cbn; [reflexivity|now rewrite IH]. Qed.

(** X5. The points of a tabular file that loads are those of its rows: the
    i-th pair of [x] and [y] holds the numbers of the first and the second
    field of the i-th row of data (the rows after the header that are not
    blank), and [x] and [y] have one element for each such row. *)
Theorem from_csv_points_from_rows :
  forall (path : string) (name mol : option string) (header_size : Z)
         (lines : list string) (s : Spectrum),
    from_csv path name mol header_size lines = Ok s ->
    Forall2 row_point (data_rows header_size lines) (combine (x s) (y s)) /\
    List.length (x s) = List.length (data_rows header_size lines) /\
    List.length (y s) = List.length (data_rows header_size lines).
Proof.
  intros path name mol h lines s H.
  destruct (from_csv_inv _ _ _ _ _ _ H) as (? & ? & ? & ? & ? & ? & ? & Hscan & _).
  destruct (csv_scan_points _ _ _ _ _ Hscan) as (pts & Hpts & Hx & Hy).
  cbn [app] in Hx, Hy. rewrite Hx, Hy, combine_fst_snd, !length_map.
  split; [exact Hpts|]. apply Forall2_length in Hpts. fold (data_rows h lines) in Hpts.
  now rewrite Hpts.
Qed.

Lemma from_csv_points_from_rows_witness :
  exists s : Spectrum,
    from_csv "mix.csv" None None 1 Examples.four_rows_csv = Ok s /\
    Forall2 row_point (data_rows 1 Examples.four_rows_csv) (combine (x s) (y s)) /\
    List.length (x s) = List.length (data_rows 1 Examples.four_rows_csv) /\
    List.length (y s) = List.length (data_rows 1 Examples.four_rows_csv).
Proof.
  eexists. split; [vm_compute; reflexivity|].
  apply (from_csv_points_from_rows "mix.csv" None None 1 Examples.four_rows_csv).
  vm_compute. reflexivity.
Defined.

(** ** Extremes *)

(** X6. In a tabular file that loads, when no abscissa is NaN, [minx] and
    [maxx] are elements of [x] and every element of [x] lies between them;
    the same holds for [miny], [maxy] and [y].  When the first abscissa is
    NaN, both [minx] and [maxx] are NaN, whatever follows. *)
Theorem from_csv_extremes :
  forall (path : string) (name mol : option string) (header_size : Z)
         (lines : list string) (s : Spectrum),
    from_csv path name mol header_size lines = Ok s ->
    (no_nan (x s) ->
     exists lo hi, minx s = Some lo /\ maxx s = Some hi /\
                   In lo (x s) /\ In hi (x s) /\
                   Forall (fun v => F.leb lo v = true /\ F.leb v hi = true) (x s)) /\
    (no_nan (y s) ->
     exists lo hi, miny s = Some lo /\ maxy s = Some hi /\
                   In lo (y s) /\ In hi (y s) /\
                   Forall (fun v => F.leb lo v = true /\ F.leb v hi = true) (y s)) /\
    (nth_error (x s) 0 = Some F.nan ->
     minx s = Some F.nan /\ maxx s = Some F.nan).
Proof.
  intros path name mol h lines s H.
  destruct (from_csv_inv _ _ _ _ _ _ H)
    as (hi & lo & yhi & ylo & first & last & second & _ & Hhi & Hlo & Hyhi & Hylo
        & _ & _ & _ & -> & -> & -> & -> & _).
  split; [|split].
  - intros Hx. exists lo, hi. split; [reflexivity|]. split; [reflexivity|].
    now apply extremes_bound.
  - intros Hy. exists ylo, yhi. split; [reflexivity|]. split; [reflexivity|].
    now apply extremes_bound.
  - intros Hnan. destruct (x s) as [|c l]; [discriminate|].
    injection Hnan as ->. injection Hhi as <-. injection Hlo as <-.
    now rewrite max_from_nan, min_from_nan.
Qed.

Lemma from_csv_extremes_witness :
  (exists s : Spectrum,
      from_csv "mix.csv" None None 1 Examples.four_rows_csv = Ok s /\
      exists lo hi, minx s = Some lo /\ maxx s = Some hi /\
                    In lo (x s) /\ In hi (x s) /\
                    Forall (fun v => F.leb lo v = true /\ F.leb v hi = true) (x s)) /\
  (exists s : Spectrum,
      from_csv "mix.csv" None None 1 Examples.nan_first_csv = Ok s /\
      minx s = Some F.nan /\ maxx s = Some F.nan).
Proof.
  split.
  - eexists. split; [vm_compute; reflexivity|].
    apply (proj1 (from_csv_extremes "mix.csv" None None 1 Examples.four_rows_csv
                    _ eq_refl)).
    repeat constructor.
  - eexists. split; [vm_compute; reflexivity|].
    apply (proj2 (proj2 (from_csv_extremes "mix.csv" None None 1 Examples.nan_first_csv
                           _ eq_refl))).
    reflexivity.
Defined.

(** ** Units: the accessor and the conversion *)

Section Units.

Variable np_log10 : F.float -> F.float.

(** X7. Whenever the accessor returns the absorbances of a spectrum, the
    conversion succeeds on it and stores exactly those values: after the
    conversion the accessor returns them again, unchanged, and the
    abscissae and the metadata other than the unit are as before. *)
Theorem convert_to_absorbance_stores_accessor_values :
  forall (s : Spectrum) (ya : list F.float),
    get_y_absorbance np_log10 s = Ok ya ->
    exists s1 : Spectrum,
      convert_to_absorbance np_log10 s = Ok s1 /\
      y s1 = ya /\
      get_y_absorbance np_log10 s1 = Ok ya /\
      x s1 = x s /\ title s1 = title s /\ molform s1 = molform s /\
      npoints s1 = npoints s /\ List.length (y s1) = List.length (y s).
Proof.
  intros s ya H. unfold get_y_absorbance in H. unfold convert_to_absorbance.
  destruct (yunits s) as [u|] eqn:Hu; [|discriminate].
  destruct (String.eqb_spec (unit_tag u) "ABSORBANCE") as [Ha|Ha].
  - injection H as <-. exists s. split; [reflexivity|]. split; [reflexivity|].
    split; [|auto 10]. unfold get_y_absorbance. now rewrite Hu, Ha.
  - destruct (String.eqb_spec (unit_tag u) "TRANSMITTANCE") as [Ht|Ht]; [|discriminate].
    injection H as <-. eexists. split; [reflexivity|]. proj.
    split; [reflexivity|]. split; [reflexivity|].
    repeat (split; [reflexivity|]).
    unfold transmittance_to_absorbance. apply length_map.
Qed.


End Units.

Lemma convert_to_absorbance_stores_accessor_values_witness :
  exists (ya : list F.float) (s1 : Spectrum),
    get_y_absorbance Examples.log10 Examples.transmittance_spectrum = Ok ya /\
    convert_to_absorbance Examples.log10 Examples.transmittance_spectrum = Ok s1 /\
    y s1 = ya /\
    get_y_absorbance Examples.log10 s1 = Ok ya /\
    x s1 = x Examples.transmittance_spectrum /\
    title s1 = title Examples.transmittance_spectrum /\
    molform s1 = molform Examples.transmittance_spectrum /\
    npoints s1 = npoints Examples.transmittance_spectrum /\
    List.length (y s1) = List.length (y Examples.transmittance_spectrum).
Proof.
  eexists.
  destruct (convert_to_absorbance_stores_accessor_values Examples.log10
              Examples.transmittance_spectrum _ eq_refl) as [s1 H].
  exists s1. split; [reflexivity|exact H].
Defined.


(** ** Baseline correction *)

Lemma np_inplace_length (op : F.float -> F.float -> F.float) (a b r : list F.float) :
  np_inplace op a b = Ok r -> List.length r = List.length a.
Proof.
  unfold np_inplace. destruct (Nat.eqb_spec (List.length a) (List.length b)) as [Hl|_].
  - intros [= <-]. rewrite length_map, length_combine. lia.
  - destruct b as [|v [|? ?]]; try discriminate. intros [= <-]. apply length_map.
Qed.

Lemma np_inplace_constant (op : F.float -> F.float -> F.float)
  (a b : list F.float) (m : F.float) :
  List.length a = List.length b ->
  np_inplace op a (map (fun _ => m) b) = Ok (map (fun v => op v m) a).
Proof.
  intros Hl. unfold np_inplace. rewrite length_map, Hl, Nat.eqb_refl. f_equal.
  revert b Hl. induction a as [|u a IH]; intros [|w b] Hl; try discriminate;
    [reflexivity|]. cbn. f_equal. apply IH. now injection Hl.
Qed.

Lemma np_first_In (a : list F.float) (v : F.float) : np_first a = Ok v -> In v a.
Proof. destruct a; [discriminate|]. intros [= <-]. now left. Qed.

(** The two edge windows of a spectrum that has no more points than the
    window has are the whole array. *)
Lemma slices_whole (points : Z) (l : list F.float) :
  l <> [] -> Z.of_nat (List.length l) <= points ->
  slice_to points l = l /\ slice_from (- points) l = l.
Proof.
  intros Hne Hp. assert (0 < List.length l)%nat by (destruct l; [contradiction|cbn; lia]).
  unfold slice_to, slice_from. split.
  - destruct (Z.ltb_spec points 0); [lia|]. apply firstn_all2. lia.
  - destruct (Z.ltb_spec (- points) 0); [|lia].
    replace (Z.max 0 (Z.of_nat (List.length l) + - points)) with 0 by lia. reflexivity.
Qed.

Lemma sub_self_over_zero (m : F.float) (sd : bool) :
  F.div (F.sub m m) (S754_zero sd) = F.nan.
Proof.
  destruct m as [[]|[]| |sm mm em]; try reflexivity.
  unfold F.sub, SFsub. rewrite Z.sub_diag. reflexivity.
Qed.

Lemma sub_self_over_nonzero (m d : F.float) :
  is_nonzero m = true -> is_nonzero d = true ->
  is_zero (F.div (F.sub m m) d) = true.
Proof.
  destruct m as [| | |sm mm em]; try discriminate.
  destruct d as [| | |sd md ed]; try discriminate. intros _ _.
  unfold F.sub, SFsub. rewrite Z.sub_diag. reflexivity.
Qed.

Lemma zero_slope_line (g m v : F.float) :
  is_zero g = true -> is_nonzero m = true -> is_finite v = true ->
  F.add (F.mul g v) m = m /\ F.sub m (F.mul g v) = m.
Proof.
  destruct g as [sg| | |]; try discriminate.
  destruct m as [| | |sm mm em]; try discriminate.
  destruct v as [sv| | |sv mv ev]; try discriminate; intros _ _ _; split; reflexivity.
Qed.

Lemma nan_line (v w : F.float) : F.add (F.mul F.nan v) w = F.nan.
Proof. reflexivity. Qed.

Lemma sub_nan (v : F.float) : F.sub v F.nan = F.nan.
Proof. now destruct v. Qed.

Section Baseline.

Variable np_log10 : F.float -> F.float.
Variable np_sum : list F.float -> F.float.

(** The steps of the correction on a call that returns. *)
Lemma correct_linear_baseline_inv (cfg : Config) (s s' : Spectrum) :
  correct_linear_baseline np_log10 np_sum cfg s = Ok s' ->
  exists (s1 : Spectrum) (n : Z) (x1 x2 : F.float) (ys : list F.float),
    convert_to_absorbance np_log10 s = Ok s1 /\
    npoints s1 = Some n /\
    np_first (x s1) = Ok x1 /\ np_last (x s1) = Ok x2 /\
    (exists u, yunits s1 = Some u /\ unit_tag u = "ABSORBANCE") /\
    List.length ys = List.length (y s1) /\
    s' = set_y ys s1.
Proof.
  unfold correct_linear_baseline. intros H.
  destruct (convert_to_absorbance np_log10 s) as [s1|] eqn:Hc; cbn [bind] in H;
    [|discriminate].
  unfold edge_points in H.
  destruct (npoints s1) as [n|] eqn:Hn; [|discriminate].
  cbv zeta in H. destruct (F.to_Z _) as [k|]; [|destruct (F.is_nan _); discriminate].
  cbn [bind] in H.
  destruct (np_first (x s1)) as [x1|] eqn:H1; cbn [bind] in H; [|discriminate].
  destruct (np_last (x s1)) as [x2|] eqn:H2; cbn [bind] in H; [|discriminate].
  destruct (get_y_absorbance np_log10 s1) as [ya|] eqn:Hy; cbn [bind] in H;
    [|discriminate].
  destruct (np_inplace _ _ _) as [ys|] eqn:Hys; cbn [bind] in H; [|discriminate].
  injection H as <-. exists s1, n, x1, x2, ys.
  repeat (split; [reflexivity || assumption|]). split; [|split; [|reflexivity]].
  - unfold get_y_absorbance in Hy. unfold convert_to_absorbance in Hc.
    destruct (yunits s) as [u|] eqn:Hu; [|discriminate].
    destruct (String.eqb_spec (unit_tag u) "ABSORBANCE") as [Ha|Ha].
    + injection Hc as <-. exists u. auto.
    + destruct (String.eqb_spec (unit_tag u) "TRANSMITTANCE") as [Ht|Ht].
      * injection Hc as <-. exists "ABSORBANCE". split; reflexivity.
      * injection Hc as <-. rewrite Hu in Hy.
        destruct (String.eqb_spec (unit_tag u) "ABSORBANCE"); [contradiction|].
        destruct (String.eqb_spec (unit_tag u) "TRANSMITTANCE"); [contradiction|].
        discriminate.
  - now apply np_inplace_length in Hys.
Qed.

Lemma convert_to_absorbance_keeps (s s1 : Spectrum) :
  convert_to_absorbance np_log10 s = Ok s1 ->
  x s1 = x s /\ List.length (y s1) = List.length (y s) /\
  npoints s1 = npoints s /\ title s1 = title s /\ molform s1 = molform s /\
  miny s1 = miny s /\ maxy s1 = maxy s /\ firsty s1 = firsty s.
Proof.
  unfold convert_to_absorbance. destruct (yunits s) as [u|]; [|discriminate].
  destruct (_ =? _)%string; [intros [= <-]; auto 10|].
  destruct (_ =? _)%string; intros [= <-]; proj; [|auto 10].
  unfold transmittance_to_absorbance. rewrite length_map. auto 10.
Qed.

(** X9. A baseline correction that returns has changed the ordinates and
    nothing else but the unit: the abscissae, the number of ordinates and
    the point count are as before, the unit is absorbance, and the summary
    fields [miny], [maxy] and [firsty] keep the values they had before the
    correction.  It returns only for a spectrum with a point count, at
    least one abscissa, and a unit that was absorbance or transmittance. *)
Theorem correct_linear_baseline_keeps :
  forall (cfg : Config) (s s' : Spectrum),
    correct_linear_baseline np_log10 np_sum cfg s = Ok s' ->
    x s' = x s /\ x s <> [] /\
    List.length (y s') = List.length (y s) /\
    npoints s' = npoints s /\ npoints s <> None /\
    title s' = title s /\ molform s' = molform s /\
    miny s' = miny s /\ maxy s' = maxy s /\ firsty s' = firsty s /\
    (exists u, yunits s' = Some u /\ unit_tag u = "ABSORBANCE") /\
    (exists u, yunits s = Some u /\
               (unit_tag u = "ABSORBANCE" \/ unit_tag u = "TRANSMITTANCE")).
Proof.
  intros cfg s s' H.
  destruct (correct_linear_baseline_inv _ _ _ H)
    as (s1 & n & x1 & x2 & ys & Hc & Hn & H1 & _ & Hu & Hlen & ->).
  destruct (convert_to_absorbance_keeps _ _ Hc)
    as (Hx & Hy & Hnp & Ht & Hm & Hlo & Hhi & Hf).
  proj. rewrite <- Hx, <- Hnp, Hn, Hlen, Hy.
  repeat (split; [assumption || reflexivity || discriminate
                  || (intros E; rewrite E in H1; discriminate)|]).
  unfold convert_to_absorbance in Hc. destruct (yunits s) as [u|] eqn:Hus; [|discriminate].
  exists u. split; [reflexivity|].
  destruct (String.eqb_spec (unit_tag u) "ABSORBANCE") as [Ha|Ha]; [now left|].
  destruct (String.eqb_spec (unit_tag u) "TRANSMITTANCE") as [Ht'|Ht']; [now right|].
  injection Hc as <-. destruct Hu as (u' & Hu' & Htag). rewrite Hus in Hu'.
  injection Hu' as <-. contradiction.
Qed.

(** On a spectrum in absorbance that has no more points than the edge
    window, both edge means are the mean of all ordinates. *)
Lemma correct_linear_baseline_short_form (cfg : Config) (s : Spectrum)
  (u : string) (n k : Z) (x1 x2 : F.float) :
  yunits s = Some u -> unit_tag u = "ABSORBANCE" ->
  npoints s = Some n ->
  F.to_Z (F.mul (baseline_correction_fraction cfg) (F.of_Z n)) = Some k ->
  Z.of_nat (List.length (y s)) <= Z.max k (baseline_correction_minpoints cfg) ->
  List.length (x s) = List.length (y s) ->
  np_first (x s) = Ok x1 -> np_last (x s) = Ok x2 ->
  correct_linear_baseline np_log10 np_sum cfg s
  = let m := np_mean np_sum (y s) in
    let grad := F.div (F.sub m m) (F.sub x2 x1) in
    do ys <- np_inplace F.sub (y s)
               (map (fun v => F.add (F.mul grad v) (F.sub m (F.mul grad x1))) (x s));
    Ok (set_y ys s).
Proof.
  intros Hu Ht Hn Hk Hp Hlen H1 H2.
  assert (Hne : y s <> []).
  { intros E. rewrite E in Hlen. destruct (x s); discriminate. }
  destruct (slices_whole _ _ Hne Hp) as [Hto Hfrom].
  unfold correct_linear_baseline, convert_to_absorbance.
  rewrite Hu, Ht. cbn [String.eqb Ascii.eqb Bool.eqb bind].
  unfold edge_points. rewrite Hn. cbv zeta. rewrite Hk. cbn [bind].
  rewrite H1. cbn [bind]. rewrite H2. cbn [bind].
  unfold get_y_absorbance. rewrite Hu, Ht. cbn [String.eqb Ascii.eqb Bool.eqb bind].
  rewrite Hto, Hfrom. reflexivity.
Qed.

(** X10. On a spectrum in absorbance that has no more points than the edge
    window (with the shipped settings, 50 points or fewer), both windows
    are the whole array: when the abscissae are finite, the last differs
    from the first and the mean of the ordinates is a finite number other
    than zero, the correction subtracts that mean from every ordinate. *)
Theorem correct_linear_baseline_short_subtracts_mean :
  forall (cfg : Config) (s : Spectrum) (u : string) (n k : Z) (x1 x2 : F.float),
    yunits s = Some u -> unit_tag u = "ABSORBANCE" ->
    npoints s = Some n ->
    F.to_Z (F.mul (baseline_correction_fraction cfg) (F.of_Z n)) = Some k ->
    Z.of_nat (List.length (y s)) <= Z.max k (baseline_correction_minpoints cfg) ->
    List.length (x s) = List.length (y s) ->
    np_first (x s) = Ok x1 -> np_last (x s) = Ok x2 ->
    forallb is_finite (x s) = true ->
    is_nonzero (F.sub x2 x1) = true ->
    is_nonzero (np_mean np_sum (y s)) = true ->
    correct_linear_baseline np_log10 np_sum cfg s
    = Ok (set_y (map (fun v => F.sub v (np_mean np_sum (y s))) (y s)) s).
Proof.
  intros cfg s u n k x1 x2 Hu Ht Hn Hk Hp Hlen H1 H2 Hfin Hd Hm.
  rewrite (correct_linear_baseline_short_form cfg s u n k x1 x2) by assumption.
  cbv zeta. set (m := np_mean np_sum (y s)) in *.
  pose proof (sub_self_over_nonzero m _ Hm Hd) as Hg.
  set (g := F.div (F.sub m m) (F.sub x2 x1)) in *.
  rewrite forallb_forall in Hfin.
  destruct (zero_slope_line g m x1 Hg Hm (Hfin _ (np_first_In _ _ H1))) as [_ ->].
  rewrite (map_ext_in _ (fun _ => m)).
  - rewrite np_inplace_constant by (symmetry; exact Hlen). reflexivity.
  - intros v Hv. now destruct (zero_slope_line g m v Hg Hm (Hfin _ Hv)).
Qed.

(** X11. On such a spectrum whose last abscissa equals the first (their
    difference is zero), the correction divides by zero without raising:
    it returns, and every ordinate of the result is NaN. *)
Theorem correct_linear_baseline_equal_ends_gives_nan :
  forall (cfg : Config) (s : Spectrum) (u : string) (n k : Z) (x1 x2 : F.float),
    yunits s = Some u -> unit_tag u = "ABSORBANCE" ->
    npoints s = Some n ->
    F.to_Z (F.mul (baseline_correction_fraction cfg) (F.of_Z n)) = Some k ->
    Z.of_nat (List.length (y s)) <= Z.max k (baseline_correction_minpoints cfg) ->
    List.length (x s) = List.length (y s) ->
    np_first (x s) = Ok x1 -> np_last (x s) = Ok x2 ->
    is_zero (F.sub x2 x1) = true ->
    correct_linear_baseline np_log10 np_sum cfg s
    = Ok (set_y (map (fun _ => F.nan) (y s)) s).
Proof.
  intros cfg s u n k x1 x2 Hu Ht Hn Hk Hp Hlen H1 H2 Hd.
  rewrite (correct_linear_baseline_short_form cfg s u n k x1 x2) by assumption.
  cbv zeta. destruct (F.sub x2 x1) as [sd| | |]; try discriminate.
  rewrite sub_self_over_zero.
  rewrite (map_ext _ (fun _ => F.nan)) by (intros v; apply nan_line).
  rewrite np_inplace_constant by (symmetry; exact Hlen). cbn [bind].
  now rewrite (map_ext _ (fun _ => F.nan)) by (intros v; apply sub_nan).
Qed.

End Baseline.

Lemma correct_linear_baseline_keeps_witness :
  exists s' : Spectrum,
    correct_linear_baseline Examples.log10 Examples.sum default_config
      Examples.short_sample = Ok s' /\
    x s' = x Examples.short_sample /\ x Examples.short_sample <> [] /\
    List.length (y s') = List.length (y Examples.short_sample) /\
    npoints s' = npoints Examples.short_sample /\
    npoints Examples.short_sample <> None /\
    title s' = title Examples.short_sample /\
    molform s' = molform Examples.short_sample /\
    miny s' = miny Examples.short_sample /\
    maxy s' = maxy Examples.short_sample /\
    firsty s' = firsty Examples.short_sample /\
    (exists u, yunits s' = Some u /\ unit_tag u = "ABSORBANCE") /\
    (exists u, yunits Examples.short_sample = Some u /\
               (unit_tag u = "ABSORBANCE" \/ unit_tag u = "TRANSMITTANCE")).
Proof.
  eexists. split; [vm_compute; reflexivity|].
  apply (correct_linear_baseline_keeps Examples.log10 Examples.sum default_config
           Examples.short_sample).
  vm_compute. reflexivity.
Defined.

Lemma correct_linear_baseline_short_subtracts_mean_witness :
  correct_linear_baseline Examples.log10 Examples.sum default_config
    Examples.short_sample
  = Ok (set_y (map (fun v => F.sub v (np_mean Examples.sum (y Examples.short_sample)))
                   (y Examples.short_sample))
              Examples.short_sample).
Proof.
  apply (correct_linear_baseline_short_subtracts_mean Examples.log10 Examples.sum
           default_config Examples.short_sample "ABSORBANCE" 3 0
           (Examples.f "1.0") (Examples.f "3.0"));
    solve [reflexivity | vm_compute; reflexivity | vm_compute; discriminate].
Defined.

(** The ordinates 0.5, 1.5 and 1.0 have the mean 1.0: the correction leaves
    -0.5, 0.5 and 0.0, while [maxy] still says 1.5. *)
Example correct_linear_baseline_three_points :
  exists s' : Spectrum,
    correct_linear_baseline Examples.log10 Examples.sum default_config
      Examples.short_sample = Ok s' /\
    y s' = map Examples.f ["-0.5"; "0.5"; "0.0"] /\
    maxy s' = Some (Examples.f "1.5").
Proof. eexists. split; [vm_compute; reflexivity|]. vm_compute. auto. Qed.

Lemma correct_linear_baseline_equal_ends_gives_nan_witness :
  correct_linear_baseline Examples.log10 Examples.sum default_config
    Examples.degenerate_sample
  = Ok (set_y (map (fun _ => F.nan) (y Examples.degenerate_sample))
              Examples.degenerate_sample).
Proof.
  apply (correct_linear_baseline_equal_ends_gives_nan Examples.log10 Examples.sum
           default_config Examples.degenerate_sample "ABSORBANCE" 3 0
           (Examples.f "2.0") (Examples.f "2.0"));
    solve [reflexivity | vm_compute; reflexivity | vm_compute; discriminate].
Defined.

(** ** Interpolation onto a grid *)

(** At a sample point of increasing abscissae the interpolation returns the
    sample. *)
Lemma interp_point_at_sample (xp fp : list F.float) (k : nat) :
  increasing xp = true -> List.length fp = List.length xp ->
  (k < List.length xp)%nat ->
  interp_point xp fp F.zero F.zero (nth k xp F.zero) = nth k fp F.zero.
Proof.
  intros Hinc Hlen Hk.
  destruct xp as [|x0 [|x1 rest]]; [cbn in Hk; lia| |].
  - destruct k as [|k]; [|cbn in Hk; lia]. cbn [nth interp_point].
    unfold F.gtb. fold (F.ltb x0 x0).
    destruct (F.ltb x0 x0) eqn:Hlt; [|reflexivity].
    now rewrite (ltb_antisym _ _ Hlt) in Hlt.
  - set (xp := x0 :: x1 :: rest) in *.
    assert (Hnan : Forall (fun a => F.is_nan a = false) xp)
      by (apply increasing_not_nan; [exact Hinc|cbn; lia]).
    rewrite Forall_forall in Hnan.
    set (v := nth k xp F.zero).
    assert (Hv : F.is_nan v = false) by (apply Hnan, nth_In, Hk).
    assert (Hvv : F.leb v v = true) by now apply leb_refl.
    assert (Hin : inside xp v = true).
    { unfold inside, xp. fold xp. apply andb_true_iff. split.
      - destruct k as [|k']; [exact Hvv|].
        apply ltb_leb. apply (increasing_nth xp Hinc 0 (S k')); [lia|exact Hk].
      - rewrite (last_default xp x0 F.zero) by discriminate. rewrite <- nth_last.
        destruct (Nat.eq_dec k (List.length xp - 1)) as [->|Hne]; [exact Hvv|].
        apply ltb_leb. apply (increasing_nth xp Hinc); lia. }
    destruct (interp_point_increasing xp fp v Hinc Hlen Hin)
      as [(j & Hj & Hle & Hlt & Hr)|[Hend ->]].
    + assert (j = k) as ->.
      { destruct (Nat.lt_trichotomy j k) as [H|[H|H]]; [|exact H|]; exfalso.
        - apply (increasing_below xp v (S j) k); auto; lia.
        - pose proof (increasing_nth xp Hinc k j H ltac:(lia)) as Hkj.
          fold v in Hkj. rewrite (ltb_leb_false _ _ Hkj) in Hle. discriminate. }
      fold v in Hr. now rewrite (leb_antisym v v Hvv Hvv) in Hr.
    + rewrite <- (nth_last fp), Hlen.
      destruct (Nat.eq_dec k (List.length xp - 1)) as [->|Hne]; [reflexivity|].
      exfalso. apply eqb_leb in Hend. rewrite <- nth_last in Hend.
      pose proof (increasing_nth xp Hinc k (List.length xp - 1) ltac:(lia) ltac:(lia))
        as Hlt.
      fold v in Hlt. rewrite (ltb_leb_false _ _ Hlt) in Hend. discriminate.
Qed.

Section Grid.

Variable np_log10 : F.float -> F.float.

(** X12. A reference whose abscissae strictly increase, interpolated onto
    its own abscissae, gives back its absorbances, unchanged. *)
Theorem interpolate_to_own_grid :
  forall (ref : Spectrum) (fp : list F.float),
    get_y_absorbance np_log10 ref = Ok fp ->
    x ref <> [] -> List.length (y ref) = List.length (x ref) ->
    increasing (x ref) = true ->
    interpolate_to np_log10 (x ref) ref = Ok fp.
Proof.
  intros ref fp Hfp Hne Hlen Hinc.
  assert (Hfl : List.length fp = List.length (x ref)).
  { rewrite <- Hlen. unfold get_y_absorbance in Hfp.
    destruct (yunits ref); [|discriminate].
    destruct (_ =? _)%string; [now injection Hfp as <-|].
    destruct (_ =? _)%string; [|discriminate].
    injection Hfp as <-. apply length_map. }
  unfold interpolate_to. rewrite Hfp. cbn [bind]. unfold np_interp.
  destruct (Nat.eqb_spec (List.length (x ref)) 0) as [E|_].
  - destruct (x ref); [contradiction|discriminate].
  - rewrite Hfl, Nat.eqb_refl. cbn [negb]. f_equal.
    apply (nth_ext _ _ (interp_point (x ref) fp F.zero F.zero F.zero) F.zero).
    + now rewrite length_map.
    + intros k Hk. rewrite length_map in Hk. rewrite map_nth.
      now apply interp_point_at_sample.
Qed.

(** X13. Interpolating a reference onto a grid returns exactly when the
    unit of the reference is absorbance or transmittance, it has at least
    one abscissa and as many ordinates as abscissae, whatever the grid
    holds; the result then has one value for each grid point.  In every
    other case it raises a [ValueError]. *)
Theorem interpolate_to_returns_iff :
  forall (sample_x : list F.float) (ref : Spectrum),
    match interpolate_to np_log10 sample_x ref with
    | Ok ys => interpolable ref /\ List.length ys = List.length sample_x
    | Raise e => ~ interpolable ref /\ exists msg, e = ValueError msg
    end.
Proof.
  intros sample_x ref. unfold interpolate_to, get_y_absorbance, interpolable, unit_supported.
  destruct (yunits ref) as [u|] eqn:Hu; cbn [bind].
  2:{ split; [|eexists; reflexivity]. intros [(u & Hu' & _) _]. discriminate. }
  assert (Hshape : forall fp, List.length fp = List.length (y ref) ->
            (unit_tag u = "ABSORBANCE" \/ unit_tag u = "TRANSMITTANCE") ->
            match np_interp sample_x (x ref) fp F.zero F.zero with
            | Ok ys =>
                ((exists u0, Some u = Some u0 /\
                             (unit_tag u0 = "ABSORBANCE" \/ unit_tag u0 = "TRANSMITTANCE")) /\
                 x ref <> [] /\ List.length (y ref) = List.length (x ref)) /\
                List.length ys = List.length sample_x
            | Raise e =>
                ~ ((exists u0, Some u = Some u0 /\
                               (unit_tag u0 = "ABSORBANCE" \/ unit_tag u0 = "TRANSMITTANCE")) /\
                   x ref <> [] /\ List.length (y ref) = List.length (x ref)) /\
                exists msg, e = ValueError msg
            end).
  { intros fp Hfp Htag. unfold np_interp.
    destruct (Nat.eqb_spec (List.length (x ref)) 0) as [E|E].
    - split; [|eexists; reflexivity]. intros (_ & Hne & _).
      destruct (x ref); [contradiction|discriminate].
    - destruct (Nat.eqb_spec (List.length fp) (List.length (x ref))) as [E'|E']; cbn [negb].
      + split; [|apply length_map]. split; [now exists u|].
        split; [intros Hnil; now rewrite Hnil in E|congruence].
      + split; [|eexists; reflexivity]. intros (_ & _ & Hl). congruence. }
  destruct (String.eqb_spec (unit_tag u) "ABSORBANCE") as [Ha|Ha]; cbn [bind].
  - apply Hshape; [reflexivity|now left].
  - destruct (String.eqb_spec (unit_tag u) "TRANSMITTANCE") as [Ht|Ht]; cbn [bind].
    + apply Hshape; [apply length_map|now right].
    + split; [|eexists; reflexivity].
      intros [(u0 & [= <-] & [H|H]) _]; contradiction.
Qed.

End Grid.

Lemma interpolate_to_own_grid_witness :
  exists ref : Spectrum,
    from_jdx default_config "water.jdx" Examples.water_jdx = Ok ref /\
    interpolate_to Examples.log10 (x ref) ref = Ok (y ref).
Proof.
  eexists. split; [vm_compute; reflexivity|].
  apply (interpolate_to_own_grid Examples.log10); vm_compute;
    reflexivity || discriminate.
Defined.

(** ** Loading the references and the samples *)

Lemma for_each_load_outcome (cfg : Config) (files : list (string * list string)) :
  match for_each (fun f => bind_run (emit (LoadReference (fst f)))
                             (fun _ => lift (from_jdx cfg (fst f) (snd f)))) files with
  | (t, Ok refs) =>
      t = map LoadReference (map fst files) /\ Forall2 (loads cfg) files refs
  | (t, Raise e) =>
      exists before f after loaded,
        files = (before ++ f :: after)%list /\
        Forall2 (loads cfg) before loaded /\
        from_jdx cfg (fst f) (snd f) = Raise e /\
        t = map LoadReference (map fst (before ++ [f])%list)
  end.
Proof.
  induction files as [|f files' IH]; cbn [for_each].
  - cbn. split; [reflexivity|constructor].
  - cbn [bind_run emit lift].
    destruct (from_jdx cfg (fst f) (snd f)) as [s|e] eqn:Hf.
    + cbn [app]. destruct (for_each _ files') as [t' [refs'|e']]; cbn [bind_run ret].
      * destruct IH as [-> Hall]. rewrite app_nil_r. split; [reflexivity|].
        constructor; [exact Hf|exact Hall].
      * destruct IH as (before & g & after & loaded & -> & Hall & Hg & ->).
        exists (f :: before), g, after, (s :: loaded).
        split; [reflexivity|]. split; [constructor; [exact Hf|exact Hall]|].
        split; [exact Hg|reflexivity].
    + exists [], f, files', []. split; [reflexivity|]. split; [constructor|].
      split; [exact Hf|reflexivity].
Qed.

(** X14. What loading the references gives.  When it returns, the directory
    was not empty, every file was opened once, in the order of the listing,
    and the result holds the spectrum of each file at the place of the file.
    When it raises, either the directory was empty and no file was opened,
    or the error is that of the first file that does not load: the files
    before it loaded, it was opened, and no file after it was opened. *)
Theorem get_references_outcome :
  forall (cfg : Config) (files : list (string * list string)),
    match get_references cfg files with
    | (t, Ok refs) =>
        files <> [] /\ t = map LoadReference (map fst files) /\
        Forall2 (loads cfg) files refs
    | (t, Raise e) =>
        (files = [] /\ t = [] /\
         e = SystemExit "No references available. Please refer to README") \/
        exists before f after loaded,
          files = (before ++ f :: after)%list /\
          Forall2 (loads cfg) before loaded /\
          from_jdx cfg (fst f) (snd f) = Raise e /\
          t = map LoadReference (map fst (before ++ [f])%list)
    end.
Proof.
  intros cfg [|f files'].
  - cbn. left. auto.
  - pose proof (for_each_load_outcome cfg (f :: files')) as H.
    unfold get_references.
    destruct (for_each _ (f :: files')) as [t [refs|e]].
    + destruct H as [Ht Hall]. split; [discriminate|]. split; assumption.
    + right. exact H.
Qed.

(** A loop that collects results returns them all, or stops at the first
    element that raises. *)
Lemma mapM_outcome {A B : Type} (f : A -> result B) (l : list A) :
  match mapM f l with
  | Ok bs => Forall2 (fun a b => f a = Ok b) l bs
  | Raise e =>
      exists before a after done,
        l = (before ++ a :: after)%list /\
        Forall2 (fun a b => f a = Ok b) before done /\ f a = Raise e
  end.
Proof.
  induction l as [|a l' IH]; cbn [mapM]; [constructor|].
  destruct (f a) as [b|e] eqn:Ha; cbn [bind].
  - destruct (mapM f l') as [bs|e]; cbn [bind].
    + now constructor.
    + destruct IH as (before & a' & after & done & -> & Hall & Ha').
      exists (a :: before), a', after, (b :: done).
      split; [reflexivity|]. split; [now constructor|exact Ha'].
  - exists [], a, l', []. split; [reflexivity|]. split; [constructor|exact Ha].
Qed.

Section Samples.

Variable np_log10 : F.float -> F.float.

(** X15. What loading the samples gives.  When it returns, the directory
    was not empty and the result holds the spectrum of each file at the
    place of the file; each of them has two points or more, as many
    ordinates as abscissae, no molecular formula, and is in absorbance
    already: its absorbances are its ordinates as read, and converting it
    leaves it as it is.  When it raises, either the directory was empty, or
    the error is that of the first file that does not load. *)
Theorem get_samples_outcome :
  forall (cfg : Config) (files : list (string * list string)),
    match get_samples cfg files with
    | Ok samples =>
        files <> [] /\ Forall2 (loads_sample cfg) files samples /\
        Forall (fun s => (2 <= List.length (x s))%nat /\
                         List.length (y s) = List.length (x s) /\
                         molform s = None /\
                         get_y_absorbance np_log10 s = Ok (y s) /\
                         convert_to_absorbance np_log10 s = Ok s) samples
    | Raise e =>
        (files = [] /\
         e = SystemExit "No samples available. Please refer to README") \/
        exists before f after loaded,
          files = (before ++ f :: after)%list /\
          Forall2 (loads_sample cfg) before loaded /\
          from_csv (fst f) None None (header_size_in_csv cfg) (snd f) = Raise e
    end.
Proof.
  intros cfg [|f files'].
  - cbn. left. auto.
  - pose proof (mapM_outcome
                  (fun f => from_csv (fst f) None None (header_size_in_csv cfg) (snd f))
                  (f :: files')) as H.
    unfold get_samples.
    destruct (mapM _ (f :: files')) as [samples|e]; [|right; exact H].
    split; [discriminate|]. split; [exact H|].
    refine (Forall2_right _ _ _ _ _ H). intros g s Hg.
    destruct (from_csv_inv _ _ _ _ _ _ Hg)
      as (hi & lo & yhi & ylo & first & last & second & Hscan & _ & _ & _ & _ &
          _ & _ & Hsecond & _ & _ & _ & _ & _ & _ & _ & _ & _ & Hu & _ & Hm).
    apply csv_scan_lengths in Hscan. cbn in Hscan. destruct Hscan as [Hx Hy].
    assert (Hlen : (2 <= List.length (y s))%nat).
    { destruct (y s) as [|? [|? ?]]; cbn in Hsecond; try discriminate. cbn. lia. }
    cbn [opt_truthy] in Hm.
    split; [lia|]. split; [lia|]. split; [exact Hm|].
    unfold get_y_absorbance, convert_to_absorbance. rewrite Hu. split; reflexivity.
Qed.

End Samples.

(** ** The course and the result of an analysis *)

Lemma for_each_trace {A B : Type} (f : A -> run B) (g : A -> list event) (l : list A) :
  (forall a t b, f a = (t, Ok b) -> t = g a) ->
  forall t bs, for_each f l = (t, Ok bs) -> t = flat_map g l.
Proof.
  intros Hf. induction l as [|a l' IH]; intros t bs H; cbn [for_each] in H.
  - injection H as <- _. reflexivity.
  - apply bind_run_ok in H as (t1 & b & t2 & Ha & H & ->).
    apply bind_run_ok in H as (t3 & bs' & t4 & Hl & H & ->).
    injection H as <- _. rewrite app_nil_r. cbn [flat_map].
    now rewrite (Hf _ _ _ Ha), (IH _ _ Hl).
Qed.

Lemma insert_desc_permutation (p : Spectrum * F.float) (l : list (Spectrum * F.float)) :
  Permutation (insert_desc p l) (p :: l).
Proof.
  induction l as [|q l' IH]; cbn [insert_desc]; [reflexivity|].
  destruct (F.gtb (snd q) (snd p)); [|reflexivity].
  rewrite IH. apply perm_swap.
Qed.

Lemma sort_desc_permutation (l : list (Spectrum * F.float)) :
  Permutation (sort_desc l) l.
Proof.
  unfold sort_desc. induction l as [|p l' IH]; cbn [fold_right]; [reflexivity|].
  rewrite insert_desc_permutation. now constructor.
Qed.

Lemma insert_desc_head (p q : Spectrum * F.float) (l : list (Spectrum * F.float)) :
  not_above q p -> HdRel not_above q l -> HdRel not_above q (insert_desc p l).
Proof.
  intros Hp Hl. destruct l as [|r l']; cbn [insert_desc]; [now constructor|].
  destruct (F.gtb (snd r) (snd p)); constructor; [|exact Hp].
  now inversion Hl.
Qed.

Lemma insert_desc_sorted (p : Spectrum * F.float) (l : list (Spectrum * F.float)) :
  F.is_nan (snd p) = false -> Forall (fun q => F.is_nan (snd q) = false) l ->
  Sorted not_above l -> Sorted not_above (insert_desc p l).
Proof.
  intros Hp Hl Hs. induction Hs as [|q l' Hs IH Hhd]; cbn [insert_desc].
  - repeat constructor.
  - inversion Hl as [|? ? Hq Hl']; subst.
    destruct (F.gtb (snd q) (snd p)) eqn:Hgt.
    + constructor; [now apply IH|]. apply insert_desc_head; [|exact Hhd].
      unfold not_above. unfold F.gtb in Hgt. now apply ltb_leb.
    + constructor; [now constructor|]. constructor.
      unfold not_above. unfold F.gtb in Hgt. now apply not_ltb_leb.
Qed.

Lemma sort_desc_sorted (l : list (Spectrum * F.float)) :
  Forall (fun q => F.is_nan (snd q) = false) l -> Sorted not_above (sort_desc l).
Proof.
  unfold sort_desc. induction 1 as [|p l' Hp Hl IH]; cbn [fold_right]; [constructor|].
  apply insert_desc_sorted; [exact Hp| |exact IH].
  fold (sort_desc l'). rewrite Forall_forall in *. intros q Hq. apply Hl.
  now apply (Permutation_in _ (sort_desc_permutation l')).
Qed.

Lemma accumulate_length (sample_x : list F.float) (np_log10 : F.float -> F.float)
  (pairs : list (Spectrum * F.float)) :
  forall combined combined',
    accumulate np_log10 sample_x pairs combined = Ok combined' ->
    List.length combined' = List.length combined.
Proof.
  induction pairs as [|[ref ref_mult] rest IH]; intros c c' H; cbn [accumulate] in H.
  - now injection H as <-.
  - destruct (interpolate_to np_log10 sample_x ref) as [y_ref|]; cbn [bind] in H;
      [|discriminate].
    destruct (np_inplace F.add c _) as [c1|] eqn:Hc; cbn [bind] in H; [|discriminate].
    rewrite (IH _ _ H). now apply np_inplace_length in Hc.
Qed.

Lemma get_y_absorbance_length (np_log10 : F.float -> F.float) (s : Spectrum)
  (ya : list F.float) :
  get_y_absorbance np_log10 s = Ok ya -> List.length ya = List.length (y s).
Proof.
  unfold get_y_absorbance. destruct (yunits s) as [u|]; [|discriminate].
  destruct (_ =? _)%string; [now intros [= <-]|].
  destruct (_ =? _)%string; [|discriminate].
  intros [= <-]. apply length_map.
Qed.

Section Course.

Variable np_log10 : F.float -> F.float.
Variable np_sum : list F.float -> F.float.
Variable np_matvec : list (list F.float) -> list F.float -> list F.float.
Variable np_lstsq :
  list (list F.float) -> list F.float -> result (list F.float * list F.float).

(** The sample that a fit holds has the abscissae, the title and the number
    of ordinates of the sample it was computed from. *)
Lemma fit_sample_keeps (cfg : Config) (s s' : Spectrum) :
  (if baseline_correction_use cfg
   then correct_linear_baseline np_log10 np_sum cfg s = Ok s'
   else s' = s) ->
  x s' = x s /\ title s' = title s /\ List.length (y s') = List.length (y s).
Proof.
  destruct (baseline_correction_use cfg); [|intros ->; auto].
  intros H.
  destruct (correct_linear_baseline_inv _ _ _ _ _ H)
    as (s1 & n & x1 & x2 & ys & Hc & _ & _ & _ & _ & Hlen & ->).
  destruct (convert_to_absorbance_keeps _ _ _ Hc) as (Hx & Hy & _ & Ht & _).
  proj. rewrite Hlen. auto.
Qed.

(** X16. The course of an analysis that completes: every reference file is
    opened, in the order of the listing, before anything is done with a
    sample; then the samples are taken in order, and for each one the
    baseline is corrected if the configuration says so, the least-squares
    problem is solved once if the multipliers are not given by hand (and
    never if they are), and the fit is shown once.  The calls that draw the
    figure are matplotlib's and are taken to return. *)
Theorem analyze_spectrum_course :
  forall (cfg : Config) (ref_files : list (string * list string))
         (samples : list Spectrum) (t : list event) (fits : list Fit),
    analyze_spectrum np_log10 np_sum np_matvec np_lstsq cfg ref_files samples
    = (t, Ok fits) ->
    t = (map LoadReference (map fst ref_files) ++ flat_map (steps cfg) samples)%list.
Proof.
  intros cfg ref_files samples t fits H.
  destruct (analyze_spectrum_inv _ _ _ _ _ _ _ _ _ H) as (refs & t' & _ & _ & Hloop & ->).
  f_equal. apply (for_each_trace _ (steps cfg) _) with (2 := Hloop).
  intros s ts fit Hs.
  destruct (analyze_sample_inv _ _ _ _ _ _ _ _ _ Hs) as (ya & Hbase & _ & _ & _ & _ & ->).
  destruct (fit_sample_keeps _ _ _ Hbase) as (_ & -> & _). reflexivity.
Qed.

(** X17. In an analysis that completes there is one fit for each sample, in
    order.  The spectrum that a fit holds has the abscissae, the title and
    the number of ordinates of its sample, and is the sample itself when
    the baseline correction is off; the combined spectrum of the fit has
    one value for each ordinate of the sample. *)
Theorem analyze_spectrum_fit_shape :
  forall (cfg : Config) (ref_files : list (string * list string))
         (samples : list Spectrum) (t : list event) (fits : list Fit),
    analyze_spectrum np_log10 np_sum np_matvec np_lstsq cfg ref_files samples
    = (t, Ok fits) ->
    Forall2 (fun s fit =>
               x (fit_sample fit) = x s /\
               title (fit_sample fit) = title s /\
               List.length (y (fit_sample fit)) = List.length (y s) /\
               List.length (fit_combined fit) = List.length (y s) /\
               (baseline_correction_use cfg = false -> fit_sample fit = s))
            samples fits.
Proof.
  intros cfg ref_files samples t fits H.
  destruct (analyze_spectrum_inv _ _ _ _ _ _ _ _ _ H) as (refs & t' & _ & _ & Hloop & _).
  apply for_each_ok in Hloop.
  refine (Forall2_impl _ _ Hloop). intros s fit [ts Hs].
  destruct (analyze_sample_inv _ _ _ _ _ _ _ _ _ Hs) as (ya & Hbase & _ & Hya & _ & Hacc & _).
  destruct (fit_sample_keeps _ _ _ Hbase) as (Hx & Ht & Hy).
  apply accumulate_length in Hacc. apply get_y_absorbance_length in Hya.
  rewrite length_map in Hacc.
  repeat (split; [congruence|]).
  intros Hoff. now rewrite Hoff in Hbase.
Qed.

Lemma combine_no_nan (refs : list Spectrum) (m : list F.float) :
  no_nan m -> Forall (fun q => F.is_nan (snd q) = false) (combine refs m).
Proof.
  intros Hm. revert refs. induction Hm as [|v m' Hv _ IH]; intros [|r refs]; cbn;
    constructor; [exact Hv|apply IH].
Qed.

(** X18. In an analysis that completes, the pairs of every fit are the
    selected references paired in order with the multipliers of the fit,
    as many as the shorter of the two lists has, rearranged; when no
    multiplier is NaN the rearrangement is by decreasing multiplier. *)
Theorem analyze_spectrum_pairs :
  forall (cfg : Config) (ref_files : list (string * list string))
         (samples : list Spectrum) (t : list event) (fits : list Fit),
    analyze_spectrum np_log10 np_sum np_matvec np_lstsq cfg ref_files samples
    = (t, Ok fits) ->
    exists (t0 : list event) (refs : list Spectrum),
      get_references cfg ref_files = (t0, Ok refs) /\
      Forall (fun fit =>
                let chosen := select_references cfg refs in
                Permutation (fit_pairs fit) (combine chosen (fit_multipliers fit)) /\
                List.length (fit_pairs fit)
                = Nat.min (List.length chosen) (List.length (fit_multipliers fit)) /\
                (no_nan (fit_multipliers fit) -> Sorted not_above (fit_pairs fit)))
             fits.
Proof.
  intros cfg ref_files samples t fits H.
  destruct (analyze_spectrum_inv _ _ _ _ _ _ _ _ _ H) as (refs & t' & Hrefs & _ & Hloop & _).
  exists (map LoadReference (map fst ref_files)), refs. split; [exact Hrefs|].
  apply for_each_ok in Hloop.
  refine (Forall2_right _ _ _ _ _ Hloop). intros s fit [ts Hs].
  destruct (analyze_sample_inv _ _ _ _ _ _ _ _ _ Hs) as (ya & _ & _ & _ & Hpairs & _).
  cbv zeta. rewrite Hpairs. split; [apply sort_desc_permutation|]. split.
  - rewrite (Permutation_length (sort_desc_permutation _)). apply length_combine.
  - intros Hm. apply sort_desc_sorted. now apply combine_no_nan.
Qed.

(** X19. When the multipliers are to be solved for and the selection leaves
    no reference (the names of the configuration match no formula of the
    directory), the analysis of a sample list that is not empty raises on
    the first sample, after the references are loaded: numpy's error for a
    matrix of no column, or the error of the baseline correction of that
    sample when it is on and fails.  No least-squares problem is solved and
    nothing is drawn. *)
Theorem analyze_spectrum_no_selected_reference :
  forall (cfg : Config) (ref_files : list (string * list string))
         (s : Spectrum) (rest : list Spectrum)
         (t0 : list event) (refs : list Spectrum),
    ref_multiplier cfg = None ->
    get_references cfg ref_files = (t0, Ok refs) ->
    select_references cfg refs = [] ->
    analyze_spectrum np_log10 np_sum np_matvec np_lstsq cfg ref_files (s :: rest)
    = if baseline_correction_use cfg then
        ((t0 ++ [BaselineCorrection (title s)])%list,
         Raise match correct_linear_baseline np_log10 np_sum cfg s with
               | Ok _ => ValueError "need at least one array to concatenate"
               | Raise e => e
               end)
      else (t0, Raise (ValueError "need at least one array to concatenate")).
Proof.
  intros cfg ref_files s rest t0 refs Hnone Hrefs Hsel.
  unfold analyze_spectrum. rewrite Hrefs. cbn [bind_run lift].
  unfold validate. rewrite Hnone. cbn [list_truthy bind_run]. rewrite Hsel.
  cbn [for_each]. unfold analyze_sample. rewrite Hnone.
  destruct (baseline_correction_use cfg).
  - cbn [bind_run emit lift].
    destruct (correct_linear_baseline np_log10 np_sum cfg s) as [s'|e];
      cbn; rewrite ?app_nil_r; reflexivity.
  - cbn. rewrite ?app_nil_r. reflexivity.
Qed.

End Course.

(** ** The command line *)

Lemma mapM_first_failure {A B : Type} (f : A -> result B) (before after : list A)
  (a : A) (done : list B) (e : exn) :
  Forall2 (fun a b => f a = Ok b) before done -> f a = Raise e ->
  mapM f (before ++ a :: after) = Raise e.
Proof.
  intros Hall Ha. induction Hall as [|u b before' done' Hu _ IH]; cbn [app mapM].
  - now rewrite Ha.
  - now rewrite Hu, IH.
Qed.


Section Commands.

Variable np_log10 : F.float -> F.float.
Variable np_sum : list F.float -> F.float.
Variable np_matvec : list (list F.float) -> list F.float -> list F.float.
Variable np_lstsq :
  list (list F.float) -> list F.float -> result (list F.float * list F.float).
Variable plt_plot : Spectrum -> result unit.

(** X20. The commands that take files load every file named before they do
    anything else.  When one of them does not load (a bad row, a missing
    field, or a name that ends in none of [.csv], [.CSV], [.jdx], [.JDX]),
    the program stops with the error of the first such file: no reference
    is opened, nothing is analysed and nothing is plotted, also for the
    files before it that loaded.  For a name with none of the four endings
    the error is the exit message that names the command and the file. *)
Theorem main_stops_at_first_bad_file :
  forall (cfg : Config) (ref_files sample_files : list (string * list string))
         (read : string -> list string) (prog command : string)
         (before : list string) (f : string) (after : list string)
         (loaded : list Spectrum) (e : exn),
    command = "plot" \/ command = "analyze" ->
    Forall2 (fun g s => load_named cfg read command g = Ok s) before loaded ->
    load_named cfg read command f = Raise e ->
    main np_log10 np_sum np_matvec np_lstsq plt_plot cfg ref_files sample_files read
         (prog :: command :: before ++ f :: after)
    = ([], Raise e) /\
    (endswith ".csv" f || endswith ".CSV" f || endswith ".jdx" f || endswith ".JDX" f
     = false ->
     e = SystemExit ("Unable to " ++ command ++ " " ++ f
                     ++ ". Refer to README for supported filetypes")).
Proof.
  intros cfg ref_files sample_files read prog command before f after loaded e
         Hcmd Hall Hf.
  split.
  - pose proof (mapM_first_failure _ _ after _ _ _ Hall Hf) as Hm.
    destruct (before ++ f :: after)%list as [|g files] eqn:Hfiles.
    { destruct before; discriminate. }
    destruct Hcmd as [-> | ->]; cbn [main]; simpl (_ =? _)%string; cbv iota;
      rewrite Hm; reflexivity.
  - intros Hext. unfold load_named in Hf.
    apply orb_false_elim in Hext as [Hext Hjdx2].
    apply orb_false_elim in Hext as [Hext Hjdx].
    rewrite Hext, Hjdx, Hjdx2 in Hf. cbn [orb] in Hf. now injection Hf as <-.
Qed.


End Commands.

(** ** The further properties on the examples *)

Lemma analyze_spectrum_course_witness :
  exists (t : list event) (fits : list Fit),
    analyze_spectrum Examples.log10 Examples.sum Examples.matvec Examples.lstsq
      Examples.two_manual_config Examples.two_references
      [Examples.sample; Examples.short_sample]
    = (t, Ok fits) /\
    t = (map LoadReference (map fst Examples.two_references)
         ++ flat_map (steps Examples.two_manual_config)
              [Examples.sample; Examples.short_sample])%list.
Proof.
  do 2 eexists. split; [vm_compute; reflexivity|].
  eapply (analyze_spectrum_course
            Examples.log10 Examples.sum Examples.matvec Examples.lstsq
            Examples.two_manual_config Examples.two_references
            [Examples.sample; Examples.short_sample]).
  vm_compute. reflexivity.
Defined.

Lemma analyze_spectrum_fit_shape_witness :
  exists (t : list event) (fits : list Fit),
    analyze_spectrum Examples.log10 Examples.sum Examples.matvec Examples.lstsq
      default_config Examples.references [Examples.short_sample]
    = (t, Ok fits) /\
    Forall2 (fun s fit =>
               x (fit_sample fit) = x s /\
               title (fit_sample fit) = title s /\
               List.length (y (fit_sample fit)) = List.length (y s) /\
               List.length (fit_combined fit) = List.length (y s) /\
               (baseline_correction_use default_config = false -> fit_sample fit = s))
            [Examples.short_sample] fits.
Proof.
  do 2 eexists. split; [vm_compute; reflexivity|].
  eapply (analyze_spectrum_fit_shape
            Examples.log10 Examples.sum Examples.matvec Examples.lstsq
            default_config Examples.references [Examples.short_sample]).
  vm_compute. reflexivity.
Defined.

Lemma analyze_spectrum_pairs_witness :
  exists (t : list event) (fits : list Fit),
    analyze_spectrum Examples.log10 Examples.sum Examples.matvec Examples.lstsq
      Examples.two_manual_config Examples.two_references [Examples.sample]
    = (t, Ok fits) /\
    exists (t0 : list event) (refs : list Spectrum),
      get_references Examples.two_manual_config Examples.two_references
      = (t0, Ok refs) /\
      Forall (fun fit =>
                let chosen := select_references Examples.two_manual_config refs in
                Permutation (fit_pairs fit) (combine chosen (fit_multipliers fit)) /\
                List.length (fit_pairs fit)
                = Nat.min (List.length chosen) (List.length (fit_multipliers fit)) /\
                (no_nan (fit_multipliers fit) -> Sorted not_above (fit_pairs fit)))
             fits.
Proof.
  do 2 eexists. split; [vm_compute; reflexivity|].
  eapply (analyze_spectrum_pairs
            Examples.log10 Examples.sum Examples.matvec Examples.lstsq
            Examples.two_manual_config Examples.two_references [Examples.sample]).
  vm_compute. reflexivity.
Defined.

(** With the multipliers 0.25 for methane and 0.75 for water, water comes
    first in the pairs of the fit. *)
Example analyze_spectrum_pairs_reordered :
  exists t fit,
    analyze_spectrum Examples.log10 Examples.sum Examples.matvec Examples.lstsq
      Examples.two_manual_config Examples.two_references [Examples.sample]
    = (t, Ok [fit]) /\
    map (fun p => (molform (fst p), snd p)) (fit_pairs fit)
    = [(Some "H2O", Examples.f "0.75"); (Some "CH4", Examples.f "0.25")].
Proof. do 2 eexists. split; vm_compute; reflexivity. Qed.

Lemma analyze_spectrum_no_selected_reference_witness :
  exists (t0 : list event) (refs : list Spectrum),
    get_references Examples.unmatched_config Examples.references = (t0, Ok refs) /\
    analyze_spectrum Examples.log10 Examples.sum Examples.matvec Examples.lstsq
      Examples.unmatched_config Examples.references [Examples.short_sample]
    = if baseline_correction_use Examples.unmatched_config then
        ((t0 ++ [BaselineCorrection (title Examples.short_sample)])%list,
         Raise match correct_linear_baseline Examples.log10 Examples.sum
                       Examples.unmatched_config Examples.short_sample with
               | Ok _ => ValueError "need at least one array to concatenate"
               | Raise e => e
               end)
      else (t0, Raise (ValueError "need at least one array to concatenate")).
Proof.
  do 2 eexists. split; [vm_compute; reflexivity|].
  eapply (analyze_spectrum_no_selected_reference
            Examples.log10 Examples.sum Examples.matvec Examples.lstsq
            Examples.unmatched_config Examples.references Examples.short_sample []);
    vm_compute; reflexivity.
Defined.

(** The selection that names no reference: the one sample is corrected, and
    then numpy refuses the matrix of no column. *)
Example analyze_spectrum_unmatched_selection :
  analyze_spectrum Examples.log10 Examples.sum Examples.matvec Examples.lstsq
    Examples.unmatched_config Examples.references [Examples.short_sample]
  = ([LoadReference "data/reference/water.jdx"; BaselineCorrection (Some "short")],
     Raise (ValueError "need at least one array to concatenate")).
Proof. vm_compute. reflexivity. Qed.

Lemma main_stops_at_first_bad_file_witness :
  main Examples.log10 Examples.sum Examples.matvec Examples.lstsq Examples.plot
       default_config Examples.references [] Examples.disk
       ("main.py" :: "analyze" :: ["mix.csv"] ++ "notes.txt" :: ["water.jdx"])
  = ([], Raise (SystemExit
                  "Unable to analyze notes.txt. Refer to README for supported filetypes")) /\
  (endswith ".csv" "notes.txt" || endswith ".CSV" "notes.txt"
   || endswith ".jdx" "notes.txt" || endswith ".JDX" "notes.txt" = false ->
   SystemExit "Unable to analyze notes.txt. Refer to README for supported filetypes"
   = SystemExit ("Unable to " ++ "analyze" ++ " " ++ "notes.txt"
                 ++ ". Refer to README for supported filetypes")).
Proof.
  apply (main_stops_at_first_bad_file
           Examples.log10 Examples.sum Examples.matvec Examples.lstsq Examples.plot
           default_config Examples.references [] Examples.disk "main.py" "analyze"
           ["mix.csv"] "notes.txt" ["water.jdx"] [Examples.sample]).
  - right. reflexivity.
  - constructor; [vm_compute; reflexivity|constructor].
  - vm_compute. reflexivity.
Defined.
